(** * Loan eligibility API: the orchestrating handler of [main.go]

    A shallow embedding of the eligibility service: the amortised payment
    helper, the two retry helpers, the two upstream calls and the request
    handler [loanHandler], followed by the properties the design document
    states about them.

    [main.go] comes in two versions: one with the two mock services built
    in, and one that reads the upstream locations from the environment and
    retries its calls.  The second is embedded first; the first follows
    with the two mock services (module [Embedded]).  The decision rules of
    the two are the same.

    Go's [float64] is IEEE-754 binary64, which is what Rocq's primitive
    [float] is: [+], [-], [*], [/] and the comparisons below are the very
    operations the compiled program performs.  Go's [int] is embedded as
    [Z]; the program only compares integers, it never does arithmetic on
    them. *)

From Stdlib Require Import ZArith QArith Qround List String Ascii Bool Lia Floats.
Import ListNotations.
Close Scope Q_scope.

Set Warnings "-inexact-float".
Open Scope string_scope.
Open Scope list_scope.

(* ===================================================================== *)
(** ** Package [math] of the Go runtime, as far as the service uses it   *)
(* ===================================================================== *)

(** [Round] and [Pow] follow the portable Go sources of the toolchain the
    Dockerfile builds with (Go 1.22: [math/floor.go], [math/pow.go]), with
    the helpers [pow] calls.  Where Go works on the bits of a float, the
    definitions below work on its sign, mantissa and exponent ([Prim2SF]). *)

Module GoMath.
Local Open Scope float_scope.

Definition NaN : float := nan.

Definition Inf (sign : Z) : float :=
  if (0 <=? sign)%Z then infinity else neg_infinity.

(** [IsNaN(f)] is [f != f]. *)
Definition IsNaN (f : float) : bool := negb (f =? f).

(** [IsInf(f, sign)]: [sign > 0] asks for +Inf, [sign < 0] for -Inf and
    [sign == 0] for either. *)
Definition IsInf (f : float) (sign : Z) : bool :=
  ((0 <=? sign)%Z && (f =? infinity)) || ((sign <=? 0)%Z && (f =? neg_infinity)).

Definition Abs (f : float) : float := abs f.
Definition Sqrt (f : float) : float := sqrt f.
(** [Signbit(f)], on the zeros and the numbers ([pow] asks it of a zero). *)
Definition Signbit (f : float) : bool := get_sign f.

(** The conversion [float64(n)] of an integer: the nearest binary64 value,
    ties to even. *)
Definition float64_of_int (n : Z) : float :=
  SF2Prim (binary_normalize prec emax n 0 false).

(** The magnitude of a finite float with a negative exponent, cut at the
    binary point ([m * 2^e] with [e < 0], rounded toward zero). *)
Definition integral_part (m : positive) (e : Z) : Z := Z.shiftr (Z.pos m) (- e).

(** The conversion [int64(f)] of a float that holds an integer in range
    (truncation toward zero). *)
Definition int64_of_float (f : float) : Z :=
  match Prim2SF f with
  | S754_finite s m e =>
      let q := if (0 <=? e)%Z then Z.shiftl (Z.pos m) e else integral_part m e in
      if s then (- q)%Z else q
  | _ => 0%Z
  end.

Definition signed (s : bool) (r : float) : float := if s then - r else r.

(** [Round(x)]: the nearest integer, halves rounded away from zero; zeros,
    infinities and NaN are returned as they are, and the sign is kept (so
    [Round(-0.4)] is [-0]).  Go implements it on the bits of [x]: adding one
    half at the binary point and clearing the fraction bits. *)
Definition Round (x : float) : float :=
  match Prim2SF x with
  | S754_finite s m e =>
      if (0 <=? e)%Z then x
      else
        let half := Z.shiftl 1 (- e - 1) in
        signed s (of_uint63 (Uint63.of_Z (Z.shiftr (Z.pos m + half) (- e))))
  | _ => x
  end.

(** [Modf(f)] on [f >= 1] (or NaN): the fraction bits are cleared. *)
Definition modf_int (f : float) : float :=
  match Prim2SF f with
  | S754_finite s m e =>
      if (0 <=? e)%Z then f
      else signed s (of_uint63 (Uint63.of_Z (integral_part m e)))
  | _ => f
  end.

Definition modf_nonneg (f : float) : float * float :=
  if f <? 1 then
    if f =? 0 then (f, f) else (0, f)
  else
    let i := modf_int f in (i, f - i).

(** [Modf(f)]: integer and fractional part, both with the sign of [f]. *)
Definition Modf (f : float) : float * float :=
  if (f <? 1) && (f <? 0) then
    let (i, fr) := modf_nonneg (- f) in (- i, - fr)
  else modf_nonneg f.

(** [Frexp(f)]: [f = frac * 2^exp] with [frac] in [[1/2, 1)]. *)
Definition Frexp (f : float) : float * Z :=
  if (f =? 0) || IsInf f 0 || IsNaN f then (f, 0%Z) else Z.frexp f.

(** [Ldexp(frac, exp)]: [frac * 2^exp], correctly rounded. *)
Definition Ldexp (frac : float) (exp : Z) : float := Z.ldexp frac exp.

Definition isOddInt (x : float) : bool :=
  if 0x1p53 <=? Abs x then false
  else
    let (xi, xf) := Modf x in
    (xf =? 0) && (Z.land (int64_of_float xi) 1 =? 1)%Z.

(** The loop [for i := int64(yi); i != 0; i >>= 1] of [pow], by recursion on
    the binary digits of [i], least significant first. *)
Fixpoint powLoop (i : positive) (a1 : float) (ae : Z) (x1 : float) (xe : Z)
  : float * Z :=
  if ((xe <? - 4096) || (4096 <? xe))%Z then (a1, (ae + xe)%Z)
  else
    let odd := match i with xO _ => false | _ => true end in
    let a1' := if odd then a1 * x1 else a1 in
    let ae' := if odd then (ae + xe)%Z else ae in
    let x1s := x1 * x1 in
    let xes := Z.shiftl xe 1 in
    let x1' := if x1s <? 0.5 then x1s + x1s else x1s in
    let xe' := if x1s <? 0.5 then (xes - 1)%Z else xes in
    match i with
    | xH => (a1', ae')
    | xO j | xI j => powLoop j a1' ae' x1' xe'
    end.

Section Pow.
(** [math.Exp] and [math.Log]: [pow] calls them only for an exponent with a
    fractional part. *)
Variables Exp Log : float -> float.

(** The case [x == 0] of [pow]'s switch. *)
Definition powZero (x y : float) : option float :=
  if y <? 0 then
    Some (if Signbit x && isOddInt y then neg_infinity else Inf 1)
  else if 0 <? y then
    Some (if Signbit x && isOddInt y then x else 0)
  else None.

Definition powLarge (x : float) (positive_y : bool) : float :=
  if x =? -1 then 1
  else if Bool.eqb (Abs x <? 1) positive_y then 0
  else Inf 1.

(** The switch on special cases; [None] when control leaves the switch
    without returning.  [self] is [Pow] itself. *)
Definition powSpecial (self : float -> float -> float) (x y : float)
  : option float :=
  if (y =? 0) || (x =? 1) then Some 1
  else if y =? 1 then Some x
  else if IsNaN x || IsNaN y then Some NaN
  else if x =? 0 then powZero x y
  else if IsInf y 0 then Some (powLarge x (IsInf y 1))
  else if IsInf x 0 then
    if IsInf x (-1) then Some (self (1 / x) (- y))
    else if y <? 0 then Some 0
    else if 0 <? y then Some (Inf 1)
    else None
  else if y =? 0.5 then Some (Sqrt x)
  else if y =? -0.5 then Some (1 / Sqrt x)
  else None.

(** The code after the switch. *)
Definition powGeneral (x y : float) : float :=
  let (yi, yf) := Modf (Abs y) in
  if negb (yf =? 0) && (x <? 0) then NaN
  else if 0x1p63 <=? yi then powLarge x (0 <? y)
  else
    let '(yi, a1) :=
      if negb (yf =? 0) then
        let '(yf, yi) := if 0.5 <? yf then (yf - 1, yi + 1) else (yf, yi) in
        (yi, Exp (yf * Log x))
      else (yi, 1) in
    let (x1, xe) := Frexp x in
    let (a1, ae) :=
      (* [yi] is the integral part of [|y|]: the loop runs unless it is 0 *)
      match int64_of_float yi with
      | Zpos i => powLoop i a1 0 x1 xe
      | _ => (a1, 0%Z)
      end in
    let (a1, ae) := if y <? 0 then (1 / a1, (- ae)%Z) else (a1, ae) in
    Ldexp a1 ae.

Definition powBody (self : float -> float -> float) (x y : float) : float :=
  match powSpecial self x y with
  | Some r => r
  | None => powGeneral x y
  end.

(** [Pow(x, y)].  The one recursive call, [Pow(1/x, -y)] for [x = -Inf],
    is a call at [-0], which the case [x == 0] answers without a further
    call: two unfoldings of the body are the whole function (see
    [Pow_unfold]). *)
Definition Pow : float -> float -> float :=
  powBody (powBody (fun _ _ => NaN)).
End Pow.

End GoMath.

(* ===================================================================== *)
(** ** Package [strconv]: integer formatting                             *)
(* ===================================================================== *)

Module GoStrconv.
Local Open Scope string_scope.

Definition digits : string := "0123456789abcdefghijklmnopqrstuvwxyz".

Definition digit (d : Z) : ascii :=
  match String.get (Z.to_nat d) digits with
  | Some c => c
  | None => "0"%char
  end.

(** Digits of [u > 0] in [base], most significant first; 64 rounds are
    enough for any 64-bit magnitude in any base from 2 up. *)
Fixpoint formatBits (fuel : nat) (u base : Z) (acc : string) : string :=
  match fuel with
  | O => acc
  | S fuel' =>
      let acc' := String (digit (u mod base)%Z) acc in
      if (u / base =? 0)%Z then acc' else formatBits fuel' (u / base)%Z base acc'
  end.

Definition FormatInt (i base : Z) : string :=
  if (i <? 0)%Z then "-" ++ formatBits 64 (- i)%Z base ""
  else formatBits 64 i base "".

Definition Itoa (i : Z) : string := FormatInt i 10%Z.

End GoStrconv.

(* ===================================================================== *)
(** ** Data types of [main.go]                                           *)
(* ===================================================================== *)

Module LoanRequest.
Record t : Type := Build {
  NationalID : string;
  LoanAmount : float;
  TermMonths : Z
}.
End LoanRequest.

Module SalaryResponse.
Record t : Type := Build {
  NationalID : string;
  MonthlySalary : float
}.
(** The zero value [SalaryResponse{}]. *)
Definition zero : t := Build "" 0%float.
End SalaryResponse.

Module CreditResponse.
Record t : Type := Build {
  NationalID : string;
  CreditScore : Z;
  ActiveDefaults : Z;
  ActiveLoans : Z
}.
Definition zero : t := Build "" 0%Z 0%Z 0%Z.
End CreditResponse.

Module LoanResponse.
Record t : Type := Build {
  Status : string;
  Reason : string;
  Reasons : list string;
  MonthlyPayment : float;
  AnnualInterest : float;
  SalaryEcho : option SalaryResponse.t;
  CreditEcho : option CreditResponse.t;
  ApplicationEcho : option LoanRequest.t
}.
End LoanResponse.

(* ===================================================================== *)
(** ** The amortisation helper                                           *)
(* ===================================================================== *)

Section Finance.
Variables Exp Log : float -> float.
Local Open Scope float_scope.

Definition amortizedMonthlyPayment
    (loanAmount : float) (termMonths : Z) (annualInterestPercent : float)
  : float :=
  if (termMonths <=? 0)%Z || (loanAmount <=? 0) then 0
  else
    let monthlyRate := (annualInterestPercent / 100.0) / 12.0 in
    if monthlyRate =? 0 then
      GoMath.Round ((loanAmount / GoMath.float64_of_int termMonths) * 100) / 100
    else
      let r := monthlyRate in
      let n := GoMath.float64_of_int termMonths in
      let p := loanAmount in
      let power := GoMath.Pow Exp Log (1 + r) n in
      let payment := p * (r * power) / (power - 1) in
      GoMath.Round (payment * 100) / 100.

(** The payment rule as the design document words it: the standard
    amortising formula on the monthly rate, then rounding to two decimal
    places, halves away from zero. *)
Definition spec_monthlyRate (annualRatePercent : float) : float :=
  annualRatePercent / 100 / 12.

Definition spec_round2 (x : float) : float := GoMath.Round (x * 100) / 100.

Definition spec_amortized (principal : float) (termMonths : Z) (annualRatePercent : float)
  : float :=
  let monthlyRate := spec_monthlyRate annualRatePercent in
  let growth := GoMath.Pow Exp Log (1 + monthlyRate) (GoMath.float64_of_int termMonths) in
  spec_round2 (principal * (monthlyRate * growth) / (growth - 1)).

Definition spec_straight_line (principal : float) (termMonths : Z) : float :=
  spec_round2 (principal / GoMath.float64_of_int termMonths).
End Finance.

(** Rounding to two decimal places on exact rationals, halves away from
    zero. *)
Definition exact_round2 (q : Q) : Q :=
  let cents := (q * 100)%Q in
  let nearest :=
    if Qle_bool 0 cents then Qfloor (cents + (1 # 2))%Q
    else (- Qfloor (- cents + (1 # 2))%Q)%Z in
  (inject_Z nearest / 100)%Q.

(** The same formula on exact rationals, before any rounding: what the
    binary64 computation approximates. *)
Definition exact_amortized (principal : Q) (termMonths : positive) (annualRatePercent : Q) : Q :=
  let monthlyRate := (annualRatePercent / 100 / 12)%Q in
  let growth := Qpower_positive (1 + monthlyRate)%Q termMonths in
  (principal * (monthlyRate * growth) / (growth - 1))%Q.

(* ===================================================================== *)
(** ** Errors                                                            *)
(* ===================================================================== *)

(** A Go [error] value as the service meets it: the package's own
    [httpError], or an error of the HTTP client or of the JSON decoder,
    of which only the message matters. *)
Inductive error : Type :=
| httpError (StatusCode : Z) (Body : string)
| otherError (msg : string).

(** The method [Error()]. *)
Definition Error (e : error) : string :=
  match e with
  | httpError StatusCode Body =>
      "http error: " ++ GoStrconv.Itoa StatusCode ++ " - " ++ Body
  | otherError msg => msg
  end.

Definition StatusOK : Z := 200.
Definition StatusBadRequest : Z := 400.
Definition StatusNotFound : Z := 404.
Definition StatusMethodNotAllowed : Z := 405.
Definition StatusInternalServerError : Z := 500.
Definition StatusBadGateway : Z := 502.

(** The test the handler makes on a failed lookup: the type assertion of
    [err] to a pointer to [httpError], and then
    [httpErr.StatusCode == http.StatusNotFound]. *)
Definition isNotFound (e : error) : bool :=
  match e with
  | httpError StatusCode _ => (StatusCode =? StatusNotFound)%Z
  | otherError _ => false
  end.

(* ===================================================================== *)
(** ** The world around one request                                      *)
(* ===================================================================== *)

(** HTTP headers and JSON objects of strings, as association lists. *)
Definition Header : Type := list (string * string).

Fixpoint Header_Get (h : Header) (key : string) : string :=
  match h with
  | [] => ""
  | (k, v) :: h' => if String.eqb k key then v else Header_Get h' key
  end.

Definition Header_Del (h : Header) (key : string) : Header :=
  filter (fun kv => negb (String.eqb (fst kv) key)) h.

Definition Header_Set (h : Header) (key value : string) : Header :=
  Header_Del h key ++ [(key, value)].

(** The inbound request. *)
Record Request : Type := {
  Method : string;
  RequestHeader : Header;
  RequestBody : string
}.

(** An outbound request, as [http.NewRequest(method, url, body)] builds it
    and [req.Header.Set] completes it; the body is the JSON object
    [json.Marshal] made of a [map[string]string]. *)
Record OutRequest : Type := {
  OutMethod : string;
  URL : string;
  OutHeader : Header;
  OutBody : list (string * string)
}.

(** [req.Header.Set(key, value)] *)
Definition OutRequest_Header_Set (req : OutRequest) (key value : string) : OutRequest :=
  {| OutMethod := OutMethod req;
     URL := URL req;
     OutHeader := Header_Set (OutHeader req) key value;
     OutBody := OutBody req |}.

(** What [httpClient.Do] gives back: an error, or a response with its
    status code and raw body. *)
Inductive DoResult : Type :=
| DoError (msg : string)
| DoResponse (StatusCode : Z) (Body : string).

(** Everything outside the handler: the process environment, the clock, and
    the network, which answers the [k]-th request the client sends while the
    handler runs. *)
Record World : Type := {
  Getenv : string -> string;
  UnixNano : Z;
  Do : nat -> OutRequest -> DoResult
}.

(** What is written to the [http.ResponseWriter]. *)
Inductive Payload : Type :=
| Text (s : string)
| JsonMap (fields : list (string * string))
| JsonLoan (r : LoanResponse.t).

(** The [http.ResponseWriter] as the handler leaves it: the header map
    [w.Header()] as the handler filled it, the status the handler wrote
    ([None] as long as it has written neither a status nor a body), and the
    values written to the body, in order.  What the server adds on the wire
    is not part of it: the headers of its own, and the status 200 it sends
    for a handler that returns without having written anything. *)
Record ResponseWriter : Type := {
  header : Header;
  status : option Z;
  written : list Payload
}.

(** The effects of the handler besides its response, in order. *)
Inductive Event : Type :=
| HTTPDo (req : OutRequest)
| Sleep (nanoseconds : Z)
| LogCallingSalary (reqID url nationalID : string)
| LogCallingCredit (reqID url nationalID : string)
| LogDeclined (reqID nationalID : string) (reasons : list string) (monthly : float)
| LogApproved (reqID nationalID : string) (monthly : float).

Record State : Type := {
  w : ResponseWriter;
  sent : nat;
  trace : list Event
}.

Definition initial : State :=
  {| w := {| header := []; status := None; written := [] |}; sent := 0; trace := [] |}.

(** *** A state monad for the handler, with panics *)

(** How a call ends: it returns, or the goroutine panics and unwinds
    through every caller; the code of the service recovers nothing, so a
    panic leaves the handler, and what was not written before it never
    is. *)
Inductive Result (A : Type) : Type :=
| Returned (a : A)
| Panicked (msg : string).
Arguments Returned {A} a.
Arguments Panicked {A} msg.

Definition M (A : Type) : Type := State -> Result A * State.

Definition ret {A} (a : A) : M A := fun s => (Returned a, s).

Definition bind {A B} (m : M A) (k : A -> M B) : M B :=
  fun s =>
    match m s with
    | (Returned a, s') => k a s'
    | (Panicked msg, s') => (Panicked msg, s')
    end.

Definition panic {A} (msg : string) : M A := fun s => (Panicked msg, s).

(** The panic of the runtime when a nil pointer is dereferenced. *)
Definition nilDereference : string :=
  "runtime error: invalid memory address or nil pointer dereference".

Declare Scope go_scope.
Delimit Scope go_scope with go.
Notation "x <- m ;; k" := (bind m (fun x => k))
  (at level 61, m at next level, right associativity) : go_scope.
Notation "' pat <- m ;; k" := (bind m (fun x => match x with pat => k end))
  (at level 61, pat pattern, m at next level, right associativity) : go_scope.
Notation "m ;; k" := (bind m (fun _ => k))
  (at level 61, right associativity) : go_scope.
Local Open Scope go_scope.

Definition exec {A} (m : M A) (s : State) : State := snd (m s).

Definition emit (e : Event) : M unit :=
  fun s => (Returned tt, {| w := w s; sent := sent s; trace := trace s ++ [e] |}).

Definition onWriter (f : ResponseWriter -> ResponseWriter) : M unit :=
  fun s => (Returned tt, {| w := f (w s); sent := sent s; trace := trace s |}).

(** [w.Header().Set(key, value)] and [w.Header().Del(key)] *)
Definition w_Header_Set (key value : string) : M unit :=
  onWriter (fun rw =>
    {| header := Header_Set (header rw) key value; status := status rw; written := written rw |}).

Definition w_Header_Del (key : string) : M unit :=
  onWriter (fun rw =>
    {| header := Header_Del (header rw) key; status := status rw; written := written rw |}).

(** [w.WriteHeader(code)]: the first status written stands. *)
Definition w_WriteHeader (code : Z) : M unit :=
  onWriter (fun rw =>
    {| header := header rw;
       status := match status rw with Some c => Some c | None => Some code end;
       written := written rw |}).

(** A write to the body; it sends status 200 when none was written. *)
Definition w_Write (p : Payload) : M unit :=
  onWriter (fun rw =>
    {| header := header rw;
       status := match status rw with Some c => Some c | None => Some StatusOK end;
       written := written rw ++ [p] |}).

Definition newline : string := String (ascii_of_nat 10) "".

(** [http.Error(w, msg, code)]: two headers, the status, and the message
    on a line of its own. *)
Definition http_Error (msg : string) (code : Z) : M unit :=
  w_Header_Set "Content-Type" "text/plain; charset=utf-8" ;;
  w_Header_Set "X-Content-Type-Options" "nosniff" ;;
  w_WriteHeader code ;;
  w_Write (Text (msg ++ newline)).

(** *** [encoding/json] on the way out *)

(** A [float64] the encoder accepts: it returns an [UnsupportedValueError]
    for an infinity and for NaN. *)
Definition isFinite (f : float) : bool := negb (GoMath.IsInf f 0 || GoMath.IsNaN f).

(** The [LoanResponse] values [json.Marshal] accepts: every float in it is
    finite, those of the records pointed to included.  ([omitempty] leaves
    out a float that is zero, which NaN and the infinities are not.) *)
Definition encodable (resp : LoanResponse.t) : bool :=
  isFinite (LoanResponse.MonthlyPayment resp)
  && isFinite (LoanResponse.AnnualInterest resp)
  && match LoanResponse.SalaryEcho resp with
     | Some salary => isFinite (SalaryResponse.MonthlySalary salary)
     | None => true
     end
  && match LoanResponse.ApplicationEcho resp with
     | Some request => isFinite (LoanRequest.LoanAmount request)
     | None => true
     end.

(** What [json.Marshal] accepts among the values the handlers encode; a
    map of strings always marshals. *)
Definition marshals (p : Payload) : bool :=
  match p with
  | JsonLoan resp => encodable resp
  | _ => true
  end.

(** [json.NewEncoder(w).Encode(v)]: the value is marshalled first, and
    written to [w] only when that succeeded; otherwise the error is
    returned and [w] is not touched. *)
Definition json_Encode (p : Payload) : M (option error) :=
  if marshals p then w_Write p ;; ret None
  else ret (Some (otherError "json: unsupported value")).

(** [_ = f(...)]: the call is made and what it returns is dropped. *)
Definition discard {A} (m : M A) : M unit := _ <- m ;; ret tt.

(** [httpClient.Do(req)] *)
Definition httpClient_Do (wd : World) (req : OutRequest) : M DoResult :=
  fun s => (Returned (Do wd (sent s) req),
            {| w := w s; sent := S (sent s); trace := trace s ++ [HTTPDo req] |}).

Definition time_Sleep (d : Z) : M unit := emit (Sleep d).

Definition Millisecond : Z := 1000000.

(* ===================================================================== *)
(** ** The service                                                       *)
(* ===================================================================== *)

Section Service.
(** Library functions the service calls and this development does not
    open: [math.Exp] and [math.Log] (behind [math.Pow]),
    [strconv.ParseFloat(v, 64)] ([None] when it returns an error),
    [url.Parse] (behind [http.NewRequest]; [validURL] tells whether it
    accepts the string), and [json.NewDecoder(body).Decode] at the three
    types decoded (for the two upstream replies with the decoder's error
    message). *)
Variables Exp Log : float -> float.
Variable ParseFloat : string -> option float.
Variable validURL : string -> bool.
Variable decodeLoanRequest : string -> option LoanRequest.t.
Variable decodeSalaryResponse : string -> string + SalaryResponse.t.
Variable decodeCreditResponse : string -> string + CreditResponse.t.

(** *** Retry helpers *)

(** The loop [for i := 0; i < attempts; i++] of [withRetrySalary] and of
    [withRetryCredit], which are the same function at two types; [err] is
    the variable declared before the loop. *)
Fixpoint retryLoop {A : Type} (zero : A) (fn : M (A * option error))
    (sleep : Z) (iterations : nat) (err : option error) : M (A * option error) :=
  match iterations with
  | O => ret (zero, err)
  | S rest =>
      '(v, err) <- fn ;;
      match err with
      | None => ret (v, None)
      | Some _ => time_Sleep sleep ;; retryLoop zero fn sleep rest err
      end
  end.

Definition withRetrySalary (attempts : Z) (sleep : Z)
    (fn : M (SalaryResponse.t * option error)) : M (SalaryResponse.t * option error) :=
  retryLoop SalaryResponse.zero fn sleep (Z.to_nat attempts) None.

Definition withRetryCredit (attempts : Z) (sleep : Z)
    (fn : M (CreditResponse.t * option error)) : M (CreditResponse.t * option error) :=
  retryLoop CreditResponse.zero fn sleep (Z.to_nat attempts) None.

Definition getOrCreateReqID (wd : World) (r : Request) : string :=
  let id := Header_Get (RequestHeader r) "X-Request-ID" in
  if String.eqb id "" then GoStrconv.FormatInt (UnixNano wd) 36 else id.

(** *** External calls *)

(** [http.NewRequest(method, url, body)]: the request, or nil (with an
    error) when [url.Parse] rejects [url].  The method the service passes
    is always [http.MethodPost], a valid method. *)
Definition http_NewRequest (method url : string) (body : list (string * string))
  : option OutRequest :=
  if validURL url then
    Some {| OutMethod := method; URL := url; OutHeader := []; OutBody := body |}
  else None.

(** [req, _ := http.NewRequest(...)] followed by the two
    [req.Header.Set]: the error is dropped, and a nil [req] is
    dereferenced by the first of them. *)
Definition newUpstreamRequest (url nationalID reqID : string) : M OutRequest :=
  let body := [("national_id", nationalID)] in
  match http_NewRequest "POST" url body with
  | None => panic nilDereference
  | Some req =>
      let req := OutRequest_Header_Set req "Content-Type" "application/json" in
      let req := OutRequest_Header_Set req "X-Request-ID" reqID in
      ret req
  end.

Definition callSalaryAPI (wd : World) (baseURL nationalID reqID : string)
  : M (SalaryResponse.t * option error) :=
  req <- newUpstreamRequest (baseURL ++ "/verify-salary") nationalID reqID ;;
  res <- httpClient_Do wd req ;;
  match res with
  | DoError msg => ret (SalaryResponse.zero, Some (otherError msg))
  | DoResponse StatusCode Body =>
      if negb (StatusCode =? StatusOK)%Z then
        ret (SalaryResponse.zero, Some (httpError StatusCode Body))
      else
        match decodeSalaryResponse Body with
        | inl msg => ret (SalaryResponse.zero, Some (otherError msg))
        | inr sr => ret (sr, None)
        end
  end.

Definition callCreditAPI (wd : World) (baseURL nationalID reqID : string)
  : M (CreditResponse.t * option error) :=
  req <- newUpstreamRequest (baseURL ++ "/check-credit") nationalID reqID ;;
  res <- httpClient_Do wd req ;;
  match res with
  | DoError msg => ret (CreditResponse.zero, Some (otherError msg))
  | DoResponse StatusCode Body =>
      if negb (StatusCode =? StatusOK)%Z then
        ret (CreditResponse.zero, Some (httpError StatusCode Body))
      else
        match decodeCreditResponse Body with
        | inl msg => ret (CreditResponse.zero, Some (otherError msg))
        | inr cr => ret (cr, None)
        end
  end.

(** *** The handler *)

(** The annual rate [loanHandler] computes from the environment. *)
Definition annualRateOf (wd : World) : float :=
  let annualRate := 20.0%float in
  let v := Getenv wd "ANNUAL_INTEREST_PERCENT" in
  if negb (String.eqb v "") then
    match ParseFloat v with
    | Some f => f
    | None => annualRate
    end
  else annualRate.

(** The two lookups as [loanHandler] makes them. *)
Definition lookupSalary (wd : World) (nationalID reqID : string)
  : M (SalaryResponse.t * option error) :=
  withRetrySalary 3 (250 * Millisecond)
    (callSalaryAPI wd (Getenv wd "SALARY_API_URL") nationalID reqID).

Definition lookupCredit (wd : World) (nationalID reqID : string)
  : M (CreditResponse.t * option error) :=
  withRetryCredit 3 (250 * Millisecond)
    (callCreditAPI wd (Getenv wd "CREDIT_API_URL") nationalID reqID).

(** The decision rules of [loanHandler]. *)
Definition decisionRules (salary : SalaryResponse.t) (credit : CreditResponse.t)
    (monthly : float) : list string :=
  let reasons : list string := [] in
  let reasons :=
    if (SalaryResponse.MonthlySalary salary <? 3 * monthly)%float
    then reasons ++ ["Monthly salary is less than 3x the amortized monthly repayment"]
    else reasons in
  let reasons :=
    if (CreditResponse.CreditScore credit <? 600)%Z
    then reasons ++ ["Credit score below 600"] else reasons in
  let reasons :=
    if (CreditResponse.ActiveDefaults credit >? 0)%Z
    then reasons ++ ["Active defaults present"] else reasons in
  let reasons :=
    if (CreditResponse.ActiveLoans credit >? 3)%Z
    then reasons ++ ["More than 3 active loans"] else reasons in
  reasons.

Definition loanHandler (wd : World) (r : Request) : M unit :=
  if negb (String.eqb (Method r) "POST") then
    http_Error "Only POST requests allowed" StatusMethodNotAllowed
  else
    let reqID := getOrCreateReqID wd r in
    w_Header_Set "X-Request-ID" reqID ;;
    match decodeLoanRequest (RequestBody r) with
    | None => http_Error "Invalid request body" StatusBadRequest
    | Some request =>
    if String.eqb (LoanRequest.NationalID request) ""
       || (LoanRequest.LoanAmount request <=? 0)%float
       || (LoanRequest.TermMonths request <=? 0)%Z
    then http_Error "Missing or invalid fields" StatusBadRequest
    else
    let salaryURL := Getenv wd "SALARY_API_URL" in
    let creditURL := Getenv wd "CREDIT_API_URL" in
    let annualRate := annualRateOf wd in
    if String.eqb salaryURL "" || String.eqb creditURL "" then
      w_Header_Set "Content-Type" "application/json" ;;
      w_WriteHeader StatusInternalServerError ;;
      discard (json_Encode (JsonMap [("error", "config_error");
                        ("message", "Service URLs not configured");
                        ("request_id", reqID)]))
    else
    emit (LogCallingSalary reqID salaryURL (LoanRequest.NationalID request)) ;;
    '(salary, err) <- lookupSalary wd (LoanRequest.NationalID request) reqID ;;
    match err with
    | Some err =>
        if isNotFound err then
          let monthly :=
            amortizedMonthlyPayment Exp Log (LoanRequest.LoanAmount request)
              (LoanRequest.TermMonths request) annualRate in
          let reasons := ["Salary record not found"] in
          w_Header_Set "Content-Type" "application/json" ;;
          discard (json_Encode (JsonLoan
            {| LoanResponse.Status := "DECLINED";
               LoanResponse.Reason := nth 0 reasons "";
               LoanResponse.Reasons := reasons;
               LoanResponse.MonthlyPayment := monthly;
               LoanResponse.AnnualInterest := annualRate;
               LoanResponse.SalaryEcho := None;
               LoanResponse.CreditEcho := None;
               LoanResponse.ApplicationEcho := Some request |}))
        else
          w_Header_Set "Content-Type" "application/json" ;;
          w_WriteHeader StatusBadGateway ;;
          discard (json_Encode (JsonMap [("error", "salary_service_unavailable");
                            ("message", "Failed to verify salary");
                            ("detail", Error err);
                            ("request_id", reqID)]))
    | None =>
    emit (LogCallingCredit reqID creditURL (LoanRequest.NationalID request)) ;;
    '(credit, err) <- lookupCredit wd (LoanRequest.NationalID request) reqID ;;
    match err with
    | Some err =>
        if isNotFound err then
          let monthly :=
            amortizedMonthlyPayment Exp Log (LoanRequest.LoanAmount request)
              (LoanRequest.TermMonths request) annualRate in
          let reasons := ["Credit record not found"] in
          w_Header_Set "Content-Type" "application/json" ;;
          discard (json_Encode (JsonLoan
            {| LoanResponse.Status := "DECLINED";
               LoanResponse.Reason := nth 0 reasons "";
               LoanResponse.Reasons := reasons;
               LoanResponse.MonthlyPayment := monthly;
               LoanResponse.AnnualInterest := annualRate;
               LoanResponse.SalaryEcho := Some salary;
               LoanResponse.CreditEcho := None;
               LoanResponse.ApplicationEcho := Some request |}))
        else
          w_Header_Set "Content-Type" "application/json" ;;
          w_WriteHeader StatusBadGateway ;;
          discard (json_Encode (JsonMap [("error", "credit_service_unavailable");
                            ("message", "Failed to verify credit");
                            ("detail", Error err);
                            ("request_id", reqID)]))
    | None =>
    let monthly :=
      amortizedMonthlyPayment Exp Log (LoanRequest.LoanAmount request)
        (LoanRequest.TermMonths request) annualRate in
    let reasons := decisionRules salary credit monthly in
    w_Header_Set "Content-Type" "application/json" ;;
    if (0 <? List.length reasons)%nat then
      emit (LogDeclined reqID (LoanRequest.NationalID request) reasons monthly) ;;
      discard (json_Encode (JsonLoan
        {| LoanResponse.Status := "DECLINED";
           LoanResponse.Reason := nth 0 reasons "";
           LoanResponse.Reasons := reasons;
           LoanResponse.MonthlyPayment := monthly;
           LoanResponse.AnnualInterest := annualRate;
           LoanResponse.SalaryEcho := Some salary;
           LoanResponse.CreditEcho := Some credit;
           LoanResponse.ApplicationEcho := Some request |}))
    else
      emit (LogApproved reqID (LoanRequest.NationalID request) monthly) ;;
      discard (json_Encode (JsonLoan
        {| LoanResponse.Status := "APPROVED";
           LoanResponse.Reason := "";
           LoanResponse.Reasons := [];
           LoanResponse.MonthlyPayment := monthly;
           LoanResponse.AnnualInterest := annualRate;
           LoanResponse.SalaryEcho := Some salary;
           LoanResponse.CreditEcho := Some credit;
           LoanResponse.ApplicationEcho := Some request |}))
    end
    end
    end.

End Service.

(* ===================================================================== *)
(** ** Vocabulary of the properties                                      *)
(* ===================================================================== *)

(** The three-way classification of one upstream call: by the error it
    returns, as [loanHandler] tells them apart. *)
Inductive Outcome : Type := Success | NotFound | Unavailable.

Definition classify (err : option error) : Outcome :=
  match err with
  | None => Success
  | Some e => if isNotFound e then NotFound else Unavailable
  end.

(** The request both calls send once it is built: a POST of
    [{national_id}] to [url], with the content type and the correlation
    id. *)
Definition upstreamRequest (url nationalID reqID : string) : OutRequest :=
  {| OutMethod := "POST";
     URL := url;
     OutHeader :=
       Header_Set (Header_Set [] "Content-Type" "application/json") "X-Request-ID" reqID;
     OutBody := [("national_id", nationalID)] |}.

(** The state once [httpClient.Do(req)] has been called. *)
Definition attempted (req : OutRequest) (s : State) : State :=
  {| w := w s; sent := S (sent s); trace := trace s ++ [HTTPDo req] |}.

(** The state after [n] failed attempts of a retry helper: each one a
    request followed by the sleep. *)
Definition retried (req : OutRequest) (sleep : Z) (n : nat) (s : State) : State :=
  {| w := w s;
     sent := sent s + n;
     trace := trace s ++ List.concat (repeat [HTTPDo req; Sleep sleep] n) |}.

(** The [k]-th answer of the network to [req] makes the call fail. *)
Definition attemptFails {A : Type} (outcome : DoResult -> A * option error)
    (wd : World) (req : OutRequest) (k : nat) : Prop :=
  snd (outcome (Do wd k req)) <> None.

Definition logged (e : Event) (s : State) : State :=
  {| w := w s; sent := sent s; trace := trace s ++ [e] |}.

(** The environment with one variable unset. *)
Definition unsetenv (key : string) (wd : World) : World :=
  {| Getenv := fun k => if String.eqb k key then "" else Getenv wd k;
     UnixNano := UnixNano wd;
     Do := Do wd |}.

Definition salaryRequest (wd : World) (nationalID reqID : string) : OutRequest :=
  upstreamRequest (Getenv wd "SALARY_API_URL" ++ "/verify-salary") nationalID reqID.

Definition creditRequest (wd : World) (nationalID reqID : string) : OutRequest :=
  upstreamRequest (Getenv wd "CREDIT_API_URL" ++ "/check-credit") nationalID reqID.

Definition delay : Z := 250 * Millisecond.

Section Views.
Variable validURL : string -> bool.
Variable decodeLoanRequest : string -> option LoanRequest.t.
Variable decodeSalaryResponse : string -> string + SalaryResponse.t.
Variable decodeCreditResponse : string -> string + CreditResponse.t.

(** What [callSalaryAPI] and [callCreditAPI] return on a given answer of
    the client. *)
Definition salaryOutcome (res : DoResult) : SalaryResponse.t * option error :=
  match res with
  | DoError msg => (SalaryResponse.zero, Some (otherError msg))
  | DoResponse StatusCode Body =>
      if (StatusCode =? StatusOK)%Z then
        match decodeSalaryResponse Body with
        | inl msg => (SalaryResponse.zero, Some (otherError msg))
        | inr sr => (sr, None)
        end
      else (SalaryResponse.zero, Some (httpError StatusCode Body))
  end.

Definition creditOutcome (res : DoResult) : CreditResponse.t * option error :=
  match res with
  | DoError msg => (CreditResponse.zero, Some (otherError msg))
  | DoResponse StatusCode Body =>
      if (StatusCode =? StatusOK)%Z then
        match decodeCreditResponse Body with
        | inl msg => (CreditResponse.zero, Some (otherError msg))
        | inr cr => (cr, None)
        end
      else (CreditResponse.zero, Some (httpError StatusCode Body))
  end.

(** The body of the request parses and passes the field checks. *)
Definition validBody (r : Request) (request : LoanRequest.t) : Prop :=
  decodeLoanRequest (RequestBody r) = Some request
  /\ String.eqb (LoanRequest.NationalID request) "" = false
  /\ (LoanRequest.LoanAmount request <=? 0)%float = false
  /\ (LoanRequest.TermMonths request <=? 0)%Z = false.

Definition invalidBody (r : Request) : Prop :=
  match decodeLoanRequest (RequestBody r) with
  | None => True
  | Some request =>
      String.eqb (LoanRequest.NationalID request) "" = true
      \/ (LoanRequest.LoanAmount request <=? 0)%float = true
      \/ (LoanRequest.TermMonths request <=? 0)%Z = true
  end.

Definition configured (wd : World) : Prop :=
  String.eqb (Getenv wd "SALARY_API_URL") "" = false
  /\ String.eqb (Getenv wd "CREDIT_API_URL") "" = false.

(** A validated loan application: a POST whose body is valid, received by
    a configured service. *)
Definition validated (wd : World) (r : Request) (request : LoanRequest.t) : Prop :=
  Method r = "POST" /\ validBody r request /\ configured wd.

(** The two upstream locations are URLs: [http.NewRequest] builds the
    request to either. *)
Definition salaryURLParses (wd : World) : Prop :=
  validURL (Getenv wd "SALARY_API_URL" ++ "/verify-salary") = true.

Definition creditURLParses (wd : World) : Prop :=
  validURL (Getenv wd "CREDIT_API_URL" ++ "/check-credit") = true.
End Views.

(** The state in which the handler starts the salary lookup, and the one in
    which it starts the credit lookup when the salary lookup ended in [s]. *)
Definition salaryPending (wd : World) (reqID nationalID : string) : State :=
  {| w := {| header := [("X-Request-ID", reqID)]; status := None; written := [] |};
     sent := 0;
     trace := [LogCallingSalary reqID (Getenv wd "SALARY_API_URL") nationalID] |}.

Definition creditPending (wd : World) (reqID nationalID : string) (s : State) : State :=
  logged (LogCallingCredit reqID (Getenv wd "CREDIT_API_URL") nationalID) s.

(** The writer of a response that is one JSON document. *)
Definition jsonResponse (reqID : string) (code : Z) (p : Payload) : ResponseWriter :=
  {| header := [("X-Request-ID", reqID); ("Content-Type", "application/json")];
     status := Some code;
     written := [p] |}.

(** The writer when only the request id has been set. *)
Definition idOnly (reqID : string) : ResponseWriter :=
  {| header := [("X-Request-ID", reqID)]; status := None; written := [] |}.

(** The writer when the handler returns having set its two headers and
    written nothing. *)
Definition noDocument (reqID : string) : ResponseWriter :=
  {| header := [("X-Request-ID", reqID); ("Content-Type", "application/json")];
     status := None;
     written := [] |}.

(** The writer [rw] after [_ = json.NewEncoder(w).Encode(resp)]. *)
Definition encodeOn (rw : ResponseWriter) (resp : LoanResponse.t) : ResponseWriter :=
  if encodable resp then
    {| header := header rw;
       status := match status rw with Some c => Some c | None => Some StatusOK end;
       written := written rw ++ [JsonLoan resp] |}
  else rw.

(** The writer once the handler has passed [resp] to the encoder: the one
    document with status 200, or nothing when the encoder refuses it. *)
Definition decisionResponse (reqID : string) (resp : LoanResponse.t) : ResponseWriter :=
  if encodable resp then jsonResponse reqID StatusOK (JsonLoan resp)
  else noDocument reqID.

(** How a run ended. *)
Definition result {A} (m : M A) (s : State) : Result A := fst (m s).

(** *** The Decision Engine as the design document words it *)

Definition spec_rules (salary : SalaryResponse.t) (credit : CreditResponse.t)
    (payment : float) : list (bool * string) :=
  [ ((SalaryResponse.MonthlySalary salary <? 3 * payment)%float,
     "Monthly salary is less than 3x the amortized monthly repayment");
    ((CreditResponse.CreditScore credit <? 600)%Z, "Credit score below 600");
    ((0 <? CreditResponse.ActiveDefaults credit)%Z, "Active defaults present");
    ((3 <? CreditResponse.ActiveLoans credit)%Z, "More than 3 active loans") ].

(** Every rule is looked at; the violated ones give their reason, in the
    order of the rules. *)
Definition spec_reasons (salary : SalaryResponse.t) (credit : CreditResponse.t)
    (payment : float) : list string :=
  map snd (filter fst (spec_rules salary credit payment)).

Definition spec_decide (salary : SalaryResponse.t) (credit : CreditResponse.t)
    (payment annualRate : float) (request : LoanRequest.t) : LoanResponse.t :=
  match spec_reasons salary credit payment with
  | [] =>
      {| LoanResponse.Status := "APPROVED";
         LoanResponse.Reason := "";
         LoanResponse.Reasons := [];
         LoanResponse.MonthlyPayment := payment;
         LoanResponse.AnnualInterest := annualRate;
         LoanResponse.SalaryEcho := Some salary;
         LoanResponse.CreditEcho := Some credit;
         LoanResponse.ApplicationEcho := Some request |}
  | primary :: others =>
      {| LoanResponse.Status := "DECLINED";
         LoanResponse.Reason := primary;
         LoanResponse.Reasons := primary :: others;
         LoanResponse.MonthlyPayment := payment;
         LoanResponse.AnnualInterest := annualRate;
         LoanResponse.SalaryEcho := Some salary;
         LoanResponse.CreditEcho := Some credit;
         LoanResponse.ApplicationEcho := Some request |}
  end.

(** The shape of a loan decision: it carries the payment, the rate and the
    application, and is APPROVED with no reason and both facts, or DECLINED
    with a non-empty list of reasons headed by the primary reason. *)
Definition decisionShape (payment annualRate : float) (request : LoanRequest.t)
    (resp : LoanResponse.t) : Prop :=
  LoanResponse.MonthlyPayment resp = payment
  /\ LoanResponse.AnnualInterest resp = annualRate
  /\ LoanResponse.ApplicationEcho resp = Some request
  /\ ((LoanResponse.Status resp = "APPROVED" /\ LoanResponse.Reasons resp = []
       /\ LoanResponse.Reason resp = ""
       /\ LoanResponse.SalaryEcho resp <> None
       /\ LoanResponse.CreditEcho resp <> None)
      \/ (LoanResponse.Status resp = "DECLINED" /\ LoanResponse.Reasons resp <> []
          /\ Some (LoanResponse.Reason resp) = head (LoanResponse.Reasons resp))).

(** A partial decline: one reason, and the facts resolved so far. *)
Definition partialDecline (reason : string) (payment annualRate : float)
    (salary : option SalaryResponse.t) (request : LoanRequest.t) : LoanResponse.t :=
  {| LoanResponse.Status := "DECLINED";
     LoanResponse.Reason := reason;
     LoanResponse.Reasons := [reason];
     LoanResponse.MonthlyPayment := payment;
     LoanResponse.AnnualInterest := annualRate;
     LoanResponse.SalaryEcho := salary;
     LoanResponse.CreditEcho := None;
     LoanResponse.ApplicationEcho := Some request |}.

(* ===================================================================== *)
(** ** Scenarios: the repository's mock services as the upstream         *)
(* ===================================================================== *)

Module Scenario.

(** The tables of the salary and credit mock services. *)
Definition salaryData : list (string * float) :=
  [("12345678", 350000%float); ("87654321", 120000%float); ("99999999", 500000%float)].

Definition creditData : list (string * CreditResponse.t) :=
  [("12345678", CreditResponse.Build "12345678" 650 0 2);
   ("87654321", CreditResponse.Build "87654321" 540 0 1);
   ("99999999", CreditResponse.Build "99999999" 720 1 4)].

Fixpoint lookup {A : Type} (key : string) (table : list (string * A)) : option A :=
  match table with
  | [] => None
  | (k, v) :: rest => if String.eqb k key then Some v else lookup key rest
  end.

(** In the scenarios a record travels as its national id, and decoding is
    the look-up of that id; anything else does not decode. *)
Definition decodeSalaryResponse (body : string) : string + SalaryResponse.t :=
  match lookup body salaryData with
  | Some monthly => inr (SalaryResponse.Build body monthly)
  | None => inl "invalid character"
  end.

Definition decodeCreditResponse (body : string) : string + CreditResponse.t :=
  match lookup body creditData with
  | Some record => inr record
  | None => inl "invalid character"
  end.

(** Six request bodies, named rather than spelled out; two of them ask
    for the amount 1e308. *)
Definition decodeLoanRequest (body : string) : option LoanRequest.t :=
  if String.eqb body "application A" then Some (LoanRequest.Build "12345678" 50000 12)
  else if String.eqb body "application B" then Some (LoanRequest.Build "87654321" 50000 12)
  else if String.eqb body "application of a stranger" then
    Some (LoanRequest.Build "00000000" 50000 12)
  else if String.eqb body "empty object" then Some (LoanRequest.Build "" 0 0)
  else if String.eqb body "application A for 1e308" then
    Some (LoanRequest.Build "12345678" 1e308 12)
  else if String.eqb body "application of a stranger for 1e308" then
    Some (LoanRequest.Build "00000000" 1e308 12)
  else None.

Definition ParseFloat (v : string) : option float :=
  if String.eqb v "20" then Some 20%float
  else if String.eqb v "12.5" then Some 12.5%float
  else None.

(** [url.Parse] on the URLs of the scenarios: a URL that starts with a
    colon has no scheme and is rejected, the others are accepted. *)
Definition validURL (url : string) : bool := negb (String.prefix ":" url).

(** The scenarios never raise to a fractional power. *)
Definition Exp (x : float) : float := GoMath.NaN.
Definition Log (x : float) : float := GoMath.NaN.

Definition nationalIDOf (req : OutRequest) : string := Header_Get (OutBody req) "national_id".

(** The mock services: 200 with the record, or 404. *)
Definition verifySalaryHandler (req : OutRequest) : DoResult :=
  match lookup (nationalIDOf req) salaryData with
  | Some _ => DoResponse 200 (nationalIDOf req)
  | None => DoResponse 404 "salary record not found"
  end.

Definition checkCreditHandler (req : OutRequest) : DoResult :=
  match lookup (nationalIDOf req) creditData with
  | Some _ => DoResponse 200 (nationalIDOf req)
  | None => DoResponse 404 "credit record not found"
  end.

Definition environ (rate : string) (key : string) : string :=
  if String.eqb key "SALARY_API_URL" then "http://salary:8081"
  else if String.eqb key "CREDIT_API_URL" then "http://credit:8082"
  else if String.eqb key "ANNUAL_INTEREST_PERCENT" then rate
  else "".

Definition isSalaryCall (req : OutRequest) : bool :=
  String.eqb (URL req) "http://salary:8081/verify-salary".

Definition clock : Z := 1700000000000000000.

(** Both services up. *)
Definition steady : World :=
  {| Getenv := environ "";
     UnixNano := clock;
     Do := fun _ req => if isSalaryCall req then verifySalaryHandler req
                        else checkCreditHandler req |}.

(** The salary service answers 404 once and then recovers. *)
Definition recovering : World :=
  {| Getenv := environ "";
     UnixNano := clock;
     Do := fun k req =>
       if isSalaryCall req then
         match k with O => DoResponse 404 "warming up" | _ => verifySalaryHandler req end
       else checkCreditHandler req |}.

(** The salary service answers 404 once and then breaks. *)
Definition breaking : World :=
  {| Getenv := environ "";
     UnixNano := clock;
     Do := fun k req =>
       match k with
       | O => DoResponse 404 "salary record not found"
       | _ => DoResponse 503 "overloaded"
       end |}.

(** The salary service is down. *)
Definition down : World :=
  {| Getenv := environ "";
     UnixNano := clock;
     Do := fun _ req => if isSalaryCall req then DoError "connection refused"
                        else checkCreditHandler req |}.

(** The credit bureau knows nobody. *)
Definition noBureau : World :=
  {| Getenv := environ "";
     UnixNano := clock;
     Do := fun _ req => if isSalaryCall req then verifySalaryHandler req
                        else DoResponse 404 "credit record not found" |}.

(** The salary location is not a URL. *)
Definition misaddressed : World :=
  {| Getenv := fun key => if String.eqb key "SALARY_API_URL" then "://bad" else environ "" key;
     UnixNano := clock;
     Do := Do steady |}.

(** No upstream location is set. *)
Definition unconfigured : World :=
  {| Getenv := fun _ => ""; UnixNano := clock; Do := Do steady |}.

(** The rate variable holds a word. *)
Definition badRate : World :=
  {| Getenv := environ "twenty"; UnixNano := clock; Do := Do steady |}.

Definition post (body : string) : Request :=
  {| Method := "POST"; RequestHeader := [("X-Request-ID", "req-1")]; RequestBody := body |}.

Definition get (body : string) : Request :=
  {| Method := "GET"; RequestHeader := [("X-Request-ID", "req-1")]; RequestBody := body |}.

Definition handler : World -> Request -> M unit :=
  loanHandler Exp Log ParseFloat validURL decodeLoanRequest decodeSalaryResponse
    decodeCreditResponse.

End Scenario.

(* ===================================================================== *)
(** ** The two mock services and the service with the mocks built in     *)
(* ===================================================================== *)

(** A Go map literal that is only read: [m[key]] with the comma-ok form. *)
Module GoMap.
Fixpoint get {A : Type} (m : list (string * A)) (key : string) : option A :=
  match m with
  | [] => None
  | (k, v) :: rest => if String.eqb k key then Some v else get rest key
  end.
End GoMap.

(** What the mock handlers write: they share the writer operations of the
    eligibility handler, and encode two more types. *)
Module Mock.
Inductive Payload : Type :=
| Text (s : string)
| JsonMap (fields : list (string * string))
| JsonSalary (r : SalaryResponse.t)
| JsonCredit (r : CreditResponse.t).

Record ResponseWriter : Type := {
  header : Header;
  status : option Z;
  written : list Payload
}.

Definition fresh : ResponseWriter := {| header := []; status := None; written := [] |}.

Definition Set_ (w : ResponseWriter) (key value : string) : ResponseWriter :=
  {| header := Header_Set (header w) key value; status := status w; written := written w |}.

Definition WriteHeader (w : ResponseWriter) (code : Z) : ResponseWriter :=
  {| header := header w;
     status := match status w with Some c => Some c | None => Some code end;
     written := written w |}.

Definition Write (w : ResponseWriter) (p : Payload) : ResponseWriter :=
  {| header := header w;
     status := match status w with Some c => Some c | None => Some StatusOK end;
     written := written w ++ [p] |}.

(** [http.Error(w, msg, code)] *)
Definition Error_ (w : ResponseWriter) (msg : string) (code : Z) : ResponseWriter :=
  let w := Set_ w "Content-Type" "text/plain; charset=utf-8" in
  let w := Set_ w "X-Content-Type-Options" "nosniff" in
  let w := WriteHeader w code in
  Write w (Text (msg ++ newline)).

(** The first lines of all four mock handlers: the request id is echoed
    when the request has one. *)
Definition echoRequestID (w : ResponseWriter) (r : Request) : ResponseWriter :=
  let reqID := Header_Get (RequestHeader r) "X-Request-ID" in
  if negb (String.eqb reqID "") then Set_ w "X-Request-ID" reqID else w.

Definition jsonError (w : ResponseWriter) (code : Z) (fields : list (string * string))
  : ResponseWriter :=
  let w := Set_ w "Content-Type" "application/json" in
  let w := WriteHeader w code in
  Write w (JsonMap fields).

Definition quote : string := String (ascii_of_nat 34) "".

(** The message of the services' 400: expected, then the JSON object with
    the key national_id and three dots for its value. *)
Definition expected : string :=
  "expected {" ++ quote ++ "national_id" ++ quote ++ ":" ++ quote ++ "..." ++ quote ++ "}".
End Mock.

(** The salary service of [salary/main.go]. *)
Module SalaryService.
Definition salaryData : list (string * float) :=
  [("12345678", 350000%float); ("87654321", 120000%float); ("99999999", 500000%float)].

Section Handler.
(** [json.NewDecoder(r.Body).Decode(&req)] at [SalaryRequest]: [None] on an
    error, else the [NationalID] decoded. *)
Variable decodeRequest : string -> option string.

Definition verifySalaryHandler (w : Mock.ResponseWriter) (r : Request) : Mock.ResponseWriter :=
  let w := Mock.echoRequestID w r in
  if negb (String.eqb (Method r) "POST") then
    Mock.jsonError w StatusMethodNotAllowed [("error", "method_not_allowed")]
  else
    match decodeRequest (RequestBody r) with
    | None =>
        Mock.jsonError w StatusBadRequest
          [("error", "invalid_body"); ("message", Mock.expected)]
    | Some NationalID =>
        if String.eqb NationalID "" then
          Mock.jsonError w StatusBadRequest
            [("error", "invalid_body"); ("message", Mock.expected)]
        else
          match GoMap.get salaryData NationalID with
          | None =>
              Mock.jsonError w StatusNotFound
                [("error", "not_found"); ("message", "salary record not found")]
          | Some monthly =>
              let w := Mock.Set_ w "Content-Type" "application/json" in
              Mock.Write w (Mock.JsonSalary (SalaryResponse.Build NationalID monthly))
          end
    end.
End Handler.
End SalaryService.

(** The credit bureau service (the second mock service of the repository). *)
Module CreditService.
Definition creditData : list (string * CreditResponse.t) :=
  [("12345678", CreditResponse.Build "12345678" 650 0 2);
   ("87654321", CreditResponse.Build "87654321" 540 0 1);
   ("99999999", CreditResponse.Build "99999999" 720 1 4)].

Section Handler.
Variable decodeRequest : string -> option string.

Definition checkCreditHandler (w : Mock.ResponseWriter) (r : Request) : Mock.ResponseWriter :=
  let w := Mock.echoRequestID w r in
  if negb (String.eqb (Method r) "POST") then
    Mock.jsonError w StatusMethodNotAllowed [("error", "method_not_allowed")]
  else
    match decodeRequest (RequestBody r) with
    | None =>
        Mock.jsonError w StatusBadRequest
          [("error", "invalid_body"); ("message", Mock.expected)]
    | Some NationalID =>
        if String.eqb NationalID "" then
          Mock.jsonError w StatusBadRequest
            [("error", "invalid_body"); ("message", Mock.expected)]
        else
          match GoMap.get creditData NationalID with
          | None =>
              Mock.jsonError w StatusNotFound
                [("error", "not_found"); ("message", "credit record not found")]
          | Some record =>
              let w := Mock.Set_ w "Content-Type" "application/json" in
              Mock.Write w (Mock.JsonCredit record)
          end
    end.
End Handler.
End CreditService.

(** The first version of [main.go]: the eligibility handler with the two
    mocks served by the same process, at fixed addresses, without retry. *)
Module Embedded.
Definition salaryData : list (string * float) := SalaryService.salaryData.
Definition creditData : list (string * CreditResponse.t) := CreditService.creditData.

Section Handlers.
Variables Exp Log : float -> float.
Variable validURL : string -> bool.
Variable decodeRequest : string -> option string.
Variable decodeLoanRequest : string -> option LoanRequest.t.
Variable decodeSalaryResponse : string -> string + SalaryResponse.t.
Variable decodeCreditResponse : string -> string + CreditResponse.t.
(** What [Decode] leaves in the variable when it returns an error, which
    this handler does not look at. *)
Variable salaryAfterError : string -> SalaryResponse.t.
Variable creditAfterError : string -> CreditResponse.t.

Definition verifySalaryHandler (w : Mock.ResponseWriter) (r : Request) : Mock.ResponseWriter :=
  let w := Mock.echoRequestID w r in
  if negb (String.eqb (Method r) "POST") then
    Mock.Error_ w "Only POST allowed" StatusMethodNotAllowed
  else
    match decodeRequest (RequestBody r) with
    | None => Mock.Error_ w "Invalid request body" StatusBadRequest
    | Some NationalID =>
        if String.eqb NationalID "" then
          Mock.Error_ w "Invalid request body" StatusBadRequest
        else
          match GoMap.get salaryData NationalID with
          | None => Mock.Error_ w "Salary record not found" StatusNotFound
          | Some monthly =>
              Mock.Write w (Mock.JsonSalary (SalaryResponse.Build NationalID monthly))
          end
    end.

Definition checkCreditHandler (w : Mock.ResponseWriter) (r : Request) : Mock.ResponseWriter :=
  let w := Mock.echoRequestID w r in
  if negb (String.eqb (Method r) "POST") then
    Mock.Error_ w "Only POST allowed" StatusMethodNotAllowed
  else
    match decodeRequest (RequestBody r) with
    | None => Mock.Error_ w "Invalid request body" StatusBadRequest
    | Some NationalID =>
        if String.eqb NationalID "" then
          Mock.Error_ w "Invalid request body" StatusBadRequest
        else
          match GoMap.get creditData NationalID with
          | None => Mock.Error_ w "Credit record not found" StatusNotFound
          | Some credit => Mock.Write w (Mock.JsonCredit credit)
          end
    end.

(** [_ = json.NewDecoder(resp.Body).Decode(&v)] *)
Definition decodedSalary (body : string) : SalaryResponse.t :=
  match decodeSalaryResponse body with
  | inr v => v
  | inl _ => salaryAfterError body
  end.

Definition decodedCredit (body : string) : CreditResponse.t :=
  match decodeCreditResponse body with
  | inr v => v
  | inl _ => creditAfterError body
  end.

Definition salaryURL : string := "http://localhost:8080/verify-salary".
Definition creditURL : string := "http://localhost:8080/check-credit".

Definition loanHandler (wd : World) (r : Request) : M unit :=
  if negb (String.eqb (Method r) "POST") then
    http_Error "Only POST allowed" StatusMethodNotAllowed
  else
    let reqID := GoStrconv.FormatInt (UnixNano wd) 36 in
    w_Header_Set "X-Request-ID" reqID ;;
    match decodeLoanRequest (RequestBody r) with
    | None => http_Error "Invalid request body" StatusBadRequest
    | Some request =>
    if String.eqb (LoanRequest.NationalID request) ""
       || (LoanRequest.LoanAmount request <=? 0)%float
       || (LoanRequest.TermMonths request <=? 0)%Z
    then http_Error "Invalid request body" StatusBadRequest
    else
    let annualRate := 20.0%float in
    salaryReq <- newUpstreamRequest validURL salaryURL (LoanRequest.NationalID request) reqID ;;
    salaryResp <- httpClient_Do wd salaryReq ;;
    match salaryResp with
    | DoError _ => http_Error "Failed to verify salary" StatusBadGateway
    | DoResponse StatusCode Body =>
    if negb (StatusCode =? StatusOK)%Z then
      if (StatusCode =? StatusNotFound)%Z then
        let monthly :=
          amortizedMonthlyPayment Exp Log (LoanRequest.LoanAmount request)
            (LoanRequest.TermMonths request) annualRate in
        discard (json_Encode (JsonLoan
          {| LoanResponse.Status := "DECLINED";
             LoanResponse.Reason := "Salary record not found";
             LoanResponse.Reasons := ["Salary record not found"];
             LoanResponse.MonthlyPayment := monthly;
             LoanResponse.AnnualInterest := annualRate;
             LoanResponse.SalaryEcho := None;
             LoanResponse.CreditEcho := None;
             LoanResponse.ApplicationEcho := Some request |}))
      else http_Error "Failed to verify salary" StatusBadGateway
    else
    let salary := decodedSalary Body in
    creditReq <- newUpstreamRequest validURL creditURL (LoanRequest.NationalID request) reqID ;;
    creditResp <- httpClient_Do wd creditReq ;;
    match creditResp with
    | DoError _ => http_Error "Failed to verify credit" StatusBadGateway
    | DoResponse StatusCode Body =>
    if negb (StatusCode =? StatusOK)%Z then
      if (StatusCode =? StatusNotFound)%Z then
        let monthly :=
          amortizedMonthlyPayment Exp Log (LoanRequest.LoanAmount request)
            (LoanRequest.TermMonths request) annualRate in
        discard (json_Encode (JsonLoan
          {| LoanResponse.Status := "DECLINED";
             LoanResponse.Reason := "Credit record not found";
             LoanResponse.Reasons := ["Credit record not found"];
             LoanResponse.MonthlyPayment := monthly;
             LoanResponse.AnnualInterest := annualRate;
             LoanResponse.SalaryEcho := Some salary;
             LoanResponse.CreditEcho := None;
             LoanResponse.ApplicationEcho := Some request |}))
      else http_Error "Failed to verify credit" StatusBadGateway
    else
    let credit := decodedCredit Body in
    let monthly :=
      amortizedMonthlyPayment Exp Log (LoanRequest.LoanAmount request)
        (LoanRequest.TermMonths request) annualRate in
    let reasons := decisionRules salary credit monthly in
    if (0 <? List.length reasons)%nat then
      discard (json_Encode (JsonLoan
        {| LoanResponse.Status := "DECLINED";
           LoanResponse.Reason := nth 0 reasons "";
           LoanResponse.Reasons := reasons;
           LoanResponse.MonthlyPayment := monthly;
           LoanResponse.AnnualInterest := annualRate;
           LoanResponse.SalaryEcho := Some salary;
           LoanResponse.CreditEcho := Some credit;
           LoanResponse.ApplicationEcho := Some request |}))
    else
      discard (json_Encode (JsonLoan
        {| LoanResponse.Status := "APPROVED";
           LoanResponse.Reason := "";
           LoanResponse.Reasons := [];
           LoanResponse.MonthlyPayment := monthly;
           LoanResponse.AnnualInterest := annualRate;
           LoanResponse.SalaryEcho := Some salary;
           LoanResponse.CreditEcho := Some credit;
           LoanResponse.ApplicationEcho := Some request |}))
    end
    end
    end.
End Handlers.
End Embedded.

(* ===================================================================== *)
(** ** The services put together                                         *)
(* ===================================================================== *)

(** The writer after [http.Error(w, msg, code)] on a writer whose headers
    were [hdr]. *)
Definition textResponse (hdr : Header) (code : Z) (msg : string) : ResponseWriter :=
  {| header := hdr ++ [("Content-Type", "text/plain; charset=utf-8");
                       ("X-Content-Type-Options", "nosniff")];
     status := Some code;
     written := [Text (msg ++ newline)] |}.

(** The writer after a lookup ended with the error [e]: the partial
    decline passed to the encoder for a 404, the 502 envelope otherwise. *)
Definition lookupFailure (which message reqID : string) (salary : option SalaryResponse.t)
    (monthly annualRate : float) (request : LoanRequest.t) (e : error) : ResponseWriter :=
  if isNotFound e then
    decisionResponse reqID
      (partialDecline (message ++ " record not found")%string monthly annualRate salary request)
  else
    jsonResponse reqID StatusBadGateway
      (JsonMap [("error", (which ++ "_service_unavailable")%string);
                ("message", ("Failed to verify " ++ which)%string);
                ("detail", Error e);
                ("request_id", reqID)]).

(** The last character of a string. *)
Fixpoint lastChar (s : string) : option ascii :=
  match s with
  | EmptyString => None
  | String c EmptyString => Some c
  | String _ rest => lastChar rest
  end.

(** An event of a lookup: a request to [req], or the sleep of the retry. *)
Definition lookupEvent (req : OutRequest) (ev : Event) : Prop :=
  ev = HTTPDo req \/ ev = Sleep delay.

Section Wire.
(** The bytes on the wire: [json.Marshal] of the map the eligibility
    handler sends, the decoder of the mock services for it, and what the
    mock services' writes put in the body of the reply. *)
Variable marshal : list (string * string) -> string.
Variable decodeRequest : string -> option string.
Variable encode : Mock.Payload -> string.

(** The request [r] is a POST whose body decodes to the non-empty id [id]. *)
Definition asksFor (r : Request) (id : string) : Prop :=
  Method r = "POST" /\ decodeRequest (RequestBody r) = Some id /\ id <> "".

(** The request a mock service receives when the client sends [req]. *)
Definition inbound (req : OutRequest) : Request :=
  {| Method := OutMethod req;
     RequestHeader := OutHeader req;
     RequestBody := marshal (OutBody req) |}.

(** What the client gets back from a handler's writer. *)
Definition reply (w : Mock.ResponseWriter) : DoResult :=
  DoResponse (match Mock.status w with Some c => c | None => StatusOK end)
             (String.concat "" (map encode (Mock.written w))).

(** The network when the two mock services run at the two base URLs. *)
Definition services (salaryBase creditBase : string) (k : nat) (req : OutRequest) : DoResult :=
  if String.eqb (URL req) (salaryBase ++ "/verify-salary") then
    reply (SalaryService.verifySalaryHandler decodeRequest Mock.fresh (inbound req))
  else if String.eqb (URL req) (creditBase ++ "/check-credit") then
    reply (CreditService.checkCreditHandler decodeRequest Mock.fresh (inbound req))
  else DoError "no such host".

Definition deployed (wd : World) : World :=
  {| Getenv := Getenv wd;
     UnixNano := UnixNano wd;
     Do := services (Getenv wd "SALARY_API_URL") (Getenv wd "CREDIT_API_URL") |}.

(** The network of the first version: the process calls itself. *)
Definition selfServed (k : nat) (req : OutRequest) : DoResult :=
  if String.eqb (URL req) Embedded.salaryURL then
    reply (Embedded.verifySalaryHandler decodeRequest Mock.fresh (inbound req))
  else if String.eqb (URL req) Embedded.creditURL then
    reply (Embedded.checkCreditHandler decodeRequest Mock.fresh (inbound req))
  else DoError "no such host".

Definition standalone (wd : World) : World :=
  {| Getenv := Getenv wd; UnixNano := UnixNano wd; Do := selfServed |}.

(** The network of [wd] has the two mock services at the two upstream
    locations: every request to either address is answered by the
    service's handler on a fresh writer. *)
Definition mocksUpstream (wd : World) : Prop :=
  (forall k req,
     URL req = (Getenv wd "SALARY_API_URL" ++ "/verify-salary")%string ->
     Do wd k req
     = reply (SalaryService.verifySalaryHandler decodeRequest Mock.fresh (inbound req)))
  /\ (forall k req,
        URL req = (Getenv wd "CREDIT_API_URL" ++ "/check-credit")%string ->
        Do wd k req
        = reply (CreditService.checkCreditHandler decodeRequest Mock.fresh (inbound req))).

(** The network of [wd] has the process of the first version at its fixed
    address: the two mock handlers of that version answer. *)
Definition mocksBuiltIn (wd : World) : Prop :=
  (forall k req,
     URL req = Embedded.salaryURL ->
     Do wd k req = reply (Embedded.verifySalaryHandler decodeRequest Mock.fresh (inbound req)))
  /\ (forall k req,
        URL req = Embedded.creditURL ->
        Do wd k req = reply (Embedded.checkCreditHandler decodeRequest Mock.fresh (inbound req))).

(** Decoding undoes encoding, on what the services send. *)
Definition wireRoundTrip
    (decodeSalaryResponse : string -> string + SalaryResponse.t)
    (decodeCreditResponse : string -> string + CreditResponse.t) : Prop :=
  (forall id, decodeRequest (marshal [("national_id", id)]) = Some id)
  /\ (forall id monthly, GoMap.get SalaryService.salaryData id = Some monthly ->
        decodeSalaryResponse (encode (Mock.JsonSalary (SalaryResponse.Build id monthly)))
        = inr (SalaryResponse.Build id monthly))
  /\ (forall id record, GoMap.get CreditService.creditData id = Some record ->
        decodeCreditResponse (encode (Mock.JsonCredit record)) = inr record).
End Wire.

(** A deployment with toy codecs: a request travels as its national id, a
    record as the id it is about. *)
Module Deployment.
Definition marshal (fields : list (string * string)) : string := Header_Get fields "national_id".
Definition decodeRequest (body : string) : option string := Some body.
Definition encode (p : Mock.Payload) : string :=
  match p with
  | Mock.Text s => s
  | Mock.JsonMap _ => "error"
  | Mock.JsonSalary r => SalaryResponse.NationalID r
  | Mock.JsonCredit r => CreditResponse.NationalID r
  end.
Definition afterErrorSalary (body : string) : SalaryResponse.t := SalaryResponse.zero.
Definition afterErrorCredit (body : string) : CreditResponse.t := CreditResponse.zero.

Definition world : World := deployed marshal decodeRequest encode Scenario.steady.
Definition own : World := standalone marshal decodeRequest encode Scenario.steady.

Definition handler : World -> Request -> M unit := Scenario.handler.
Definition embedded : World -> Request -> M unit :=
  Embedded.loanHandler Scenario.Exp Scenario.Log Scenario.validURL Scenario.decodeLoanRequest
    Scenario.decodeSalaryResponse Scenario.decodeCreditResponse
    afterErrorSalary afterErrorCredit.

(** The credit bureau is down; the salary service answers. *)
Definition creditDown : World :=
  {| Getenv := Scenario.environ "";
     UnixNano := Scenario.clock;
     Do := fun _ req => if Scenario.isSalaryCall req then Scenario.verifySalaryHandler req
                        else DoResponse 503 "overloaded" |}.

(** Every reply is 200 with a body that is not JSON. *)
Definition garbled : World :=
  {| Getenv := Scenario.environ "";
     UnixNano := Scenario.clock;
     Do := fun _ _ => DoResponse 200 "<html>" |}.
End Deployment.

(* ===================================================================== *)
(** ** Facts about [float64] comparisons                                 *)
(* ===================================================================== *)

Section FloatFacts.
Local Open Scope float_scope.

(** A positive float (NaN is not one) fails the guard [x <= 0]. *)
Lemma positive_not_le_zero (x : float) : (0 <? x) = true -> (x <=? 0) = false.
Proof.
  rewrite ltb_spec, leb_spec.
  change (Prim2SF 0) with (S754_zero false).
  destruct (Prim2SF x) as [s | s | | s m e]; try destruct s; cbn; congruence.
Qed.

Lemma eqb_neg_infinity (x : float) : (x =? neg_infinity) = true -> x = neg_infinity.
Proof.
  rewrite eqb_spec. intros H. rewrite <- (SF2Prim_Prim2SF x).
  change (Prim2SF neg_infinity) with (S754_infinity true) in H.
  destruct (Prim2SF x) as [s | s | | s m e]; try destruct s; cbn in H;
    try discriminate; reflexivity.
Qed.

(** The recursive call of [Pow] is answered by the case [x == 0]: the
    two unfoldings in the definition of [Pow] are a fixed point of its
    body. *)
Lemma Pow_unfold (Exp Log : float -> float) (x y : float) :
  GoMath.Pow Exp Log x y = GoMath.powBody Exp Log (GoMath.Pow Exp Log) x y.
Proof.
  unfold GoMath.Pow.
  set (f0 := fun _ _ : float => GoMath.NaN).
  unfold GoMath.powBody at 1 3. unfold GoMath.powSpecial.
  destruct ((y =? 0) || (x =? 1)); [reflexivity |].
  destruct (y =? 1); [reflexivity |].
  destruct (GoMath.IsNaN x || GoMath.IsNaN y); [reflexivity |].
  destruct (x =? 0); [reflexivity |].
  destruct (GoMath.IsInf y 0); [reflexivity |].
  destruct (GoMath.IsInf x 0); [| reflexivity].
  destruct (GoMath.IsInf x (-1)) eqn:Hinf; [| reflexivity].
  unfold GoMath.IsInf in Hinf. cbn [Z.leb Z.compare andb orb] in Hinf.
  apply eqb_neg_infinity in Hinf. subst x.
  change (1 / neg_infinity) with neg_zero.
  unfold GoMath.powBody, GoMath.powSpecial.
  destruct ((- y =? 0) || (neg_zero =? 1)); [reflexivity |].
  destruct (- y =? 1); [reflexivity |].
  destruct (GoMath.IsNaN neg_zero || GoMath.IsNaN (- y)); reflexivity.
Qed.

(** Two floats that [==] tells apart are different values. *)
Lemma neq_of_eqb_false (x y : float) : (x =? y) = false -> (y =? y) = true -> x <> y.
Proof. intros Hxy Hyy ->. congruence. Qed.
End FloatFacts.

(* ===================================================================== *)
(** ** The amortisation helper: properties                               *)
(* ===================================================================== *)

Section FinanceFacts.
Variables Exp Log : float -> float.
Local Open Scope float_scope.
Local Abbreviation payment := (amortizedMonthlyPayment Exp Log).

Lemma payment_guard (p : float) (n : Z) (r : float) :
  (n <= 0)%Z \/ (p <=? 0) = true -> payment p n r = 0.
Proof.
  intros [Hn | Hp]; unfold amortizedMonthlyPayment.
  - apply Z.leb_le in Hn. now rewrite Hn.
  - rewrite Hp. now rewrite orb_true_r.
Qed.

Lemma payment_past_guard (p : float) (n : Z) (r : float) :
  (0 < n)%Z -> (0 <? p) = true ->
  payment p n r =
    if spec_monthlyRate r =? 0 then spec_straight_line p n
    else spec_amortized Exp Log p n r.
Proof.
  intros Hn Hp. unfold amortizedMonthlyPayment.
  apply Z.leb_gt in Hn. rewrite Hn, (positive_not_le_zero p Hp). cbn [orb].
  reflexivity.
Qed.

(** The exact value of the document's example lies strictly between
    4631.725 and 4631.726: to two decimals it is 4631.73. *)
Lemma exact_amortized_50000_12_20 :
  (4631725 # 1000 < exact_amortized 50000 12 20)%Q
  /\ (exact_amortized 50000 12 20 < 4631726 # 1000)%Q.
Proof. split; vm_compute; reflexivity. Qed.

(** The value the program computes for the document's example. *)
Lemma payment_50000_12_20 : payment 50000 12 20 = 4631.73.
Proof. vm_compute. reflexivity. Qed.

(** C6 (amended): for a positive principal, a positive term and a monthly
    rate that is not zero, the payment is the standard amortising formula
    on [monthlyRate = annualRatePercent / 100 / 12], rounded to two decimal
    places with halves away from zero; and [payment(50000, 12, 20)] is
    4631.73. *)
Theorem payment_is_amortizing_formula (p : float) (n : Z) (r : float) :
  ((0 <? p) = true -> (0 < n)%Z -> (spec_monthlyRate r =? 0) = false ->
     payment p n r = spec_amortized Exp Log p n r)
  /\ payment 50000 12 20 = 4631.73.
Proof.
  split.
  - intros Hp Hn Hr. rewrite (payment_past_guard p n r Hn Hp). now rewrite Hr.
  - exact payment_50000_12_20.
Qed.

(** Straight-line payments whose exact value has more than two decimals:
    one third of 1000 is rounded down to 333.33, one third of 2000 up to
    666.67, and 0.125, which lies halfway, up to 0.13.  The values on the
    right of [==] are the roundings of the exact quotients. *)
Lemma straight_line_is_rounded :
  (payment 1000 3 0 = 333.33 /\ (exact_round2 (1000 # 3) == 33333 # 100)%Q)
  /\ (payment 2000 3 0 = 666.67 /\ (exact_round2 (2000 # 3) == 66667 # 100)%Q)
  /\ (payment 0.25 2 0 = 0.13 /\ (exact_round2 (1 # 8) == 13 # 100)%Q)
  /\ (payment 1000 3 0 =? 1000 / 3) = false.
Proof. repeat split; vm_compute; reflexivity. Qed.

(** C7: the payment is 0 whenever the term or the principal is not
    positive, so [payment(0, n, r) = 0] and [payment(p, 0, r) = 0]; past
    that guard, a monthly rate of zero gives the straight-line value
    [principal / termMonths] rounded to two decimals, and
    [payment(12000, 12, 0) = 1000.00].  The rounding is pinned where it
    shows: [payment(1000, 3, 0) = 333.33] (not 333.333...),
    [payment(2000, 3, 0) = 666.67], and the halfway case
    [payment(0.25, 2, 0) = 0.13]. *)
Theorem payment_zero_inputs_and_zero_rate (p : float) (n : Z) (r : float) :
  ((n <= 0)%Z \/ (p <=? 0) = true -> payment p n r = 0)
  /\ payment 0 n r = 0
  /\ payment p 0 r = 0
  /\ ((0 < n)%Z -> (0 <? p) = true -> (spec_monthlyRate r =? 0) = true ->
        payment p n r = spec_straight_line p n)
  /\ payment 12000 12 0 = 1000.00
  /\ (payment 1000 3 0 = 333.33 /\ (exact_round2 (1000 # 3) == 33333 # 100)%Q)
  /\ (payment 2000 3 0 = 666.67 /\ (exact_round2 (2000 # 3) == 66667 # 100)%Q)
  /\ (payment 0.25 2 0 = 0.13 /\ (exact_round2 (1 # 8) == 13 # 100)%Q)
  /\ (payment 1000 3 0 =? 1000 / 3) = false.
Proof.
  split; [| split; [| split; [| split; [| split]]]].
  - apply payment_guard.
  - apply payment_guard. now right.
  - apply payment_guard. left. lia.
  - intros Hn Hp Hr. rewrite (payment_past_guard p n r Hn Hp). now rewrite Hr.
  - vm_compute. reflexivity.
  - exact straight_line_is_rounded.
Qed.
End FinanceFacts.

(* ===================================================================== *)
(** ** The retry helpers: properties                                     *)
(* ===================================================================== *)

Lemma state_eq (s1 s2 : State) :
  w s1 = w s2 -> sent s1 = sent s2 -> trace s1 = trace s2 -> s1 = s2.
Proof. destruct s1, s2; cbn; intros; subst; reflexivity. Qed.

Lemma bind_run {A B : Type} (m : M A) (k : A -> M B) (s s' : State) (a : A) :
  m s = (Returned a, s') -> bind m k s = k a s'.
Proof. unfold bind. now intros ->. Qed.

Lemma bind_panic {A B : Type} (m : M A) (k : A -> M B) (s s' : State) (msg : string) :
  m s = (Panicked msg, s') -> bind m k s = (Panicked msg, s').
Proof. unfold bind. now intros ->. Qed.

Section RetryFacts.
Context {A : Type} (zero : A) (wd : World) (req : OutRequest).
Variable outcome : DoResult -> A * option error.
Variable fn : M (A * option error).
Variable sleep : Z.

(** [fn] is one call of the client on [req], classified by [outcome]. *)
Hypothesis fn_run :
  forall s, fn s = (Returned (outcome (Do wd (sent s) req)), attempted req s).

Local Abbreviation failed s i := (attemptFails outcome wd req (sent s + i)).

Lemma retryLoop_failed_once (n : nat) (s : State) (err0 : option error) :
  failed s 0 ->
  retryLoop zero fn sleep (S n) err0 s =
  retryLoop zero fn sleep n (snd (outcome (Do wd (sent s) req)))
    (logged (Sleep sleep) (attempted req s)).
Proof.
  unfold attemptFails. rewrite Nat.add_0_r. intros Hfail. cbn [retryLoop].
  rewrite (bind_run _ _ _ _ _ (fn_run s)).
  destruct (outcome (Do wd (sent s) req)) as [v [e |]]; cbn in *; [reflexivity | congruence].
Qed.

Lemma retried_step (j : nat) (s : State) :
  retried req sleep j (logged (Sleep sleep) (attempted req s)) = retried req sleep (S j) s.
Proof.
  apply state_eq; cbn; [reflexivity | lia |].
  now rewrite <- !app_assoc.
Qed.

(** The first attempt that succeeds ends the loop, whatever the failures
    before it were. *)
Lemma retryLoop_first_success (j n : nat) (s : State) (err0 : option error) (v : A) :
  j < n ->
  (forall i, i < j -> failed s i) ->
  outcome (Do wd (sent s + j) req) = (v, None) ->
  retryLoop zero fn sleep n err0 s
  = (Returned (v, None), attempted req (retried req sleep j s)).
Proof.
  revert n s err0. induction j as [| j IH]; intros n s err0 Hlt Hfail Hok.
  - destruct n as [| n]; [lia |]. cbn [retryLoop].
    rewrite (bind_run _ _ _ _ _ (fn_run s)).
    rewrite Nat.add_0_r in Hok. rewrite Hok. unfold ret. f_equal.
    apply state_eq; cbn; [reflexivity | lia | now rewrite app_nil_r].
  - destruct n as [| n]; [lia |].
    rewrite retryLoop_failed_once by (apply Hfail; lia).
    rewrite (IH n).
    + now rewrite retried_step.
    + lia.
    + intros i Hi. unfold attemptFails. cbn [sent logged attempted].
      replace (S (sent s) + i) with (sent s + S i) by lia. apply Hfail. lia.
    + cbn [sent logged attempted].
      replace (S (sent s) + j) with (sent s + S j) by lia. exact Hok.
Qed.

(** When every attempt fails, the error of the last one is returned. *)
Lemma retryLoop_exhausted (n : nat) (s : State) (err0 : option error) :
  (forall i, i < S n -> failed s i) ->
  retryLoop zero fn sleep (S n) err0 s =
  (Returned (zero, snd (outcome (Do wd (sent s + n) req))), retried req sleep (S n) s).
Proof.
  revert s err0. induction n as [| n IH]; intros s err0 Hfail.
  - rewrite retryLoop_failed_once by (apply Hfail; lia).
    cbn [retryLoop]. unfold ret. rewrite Nat.add_0_r. f_equal.
    apply state_eq; cbn; [reflexivity | lia | now rewrite <- app_assoc].
  - rewrite retryLoop_failed_once by (apply Hfail; lia).
    rewrite IH.
    + rewrite retried_step. cbn [sent logged attempted].
      now replace (S (sent s) + n) with (sent s + S n) by lia.
    + intros i Hi. unfold attemptFails. cbn [sent logged attempted].
      replace (S (sent s) + i) with (sent s + S i) by lia. apply Hfail. lia.
Qed.

(** The loop leaves the response writer alone. *)
Lemma retryLoop_writer (n : nat) (s : State) (err0 : option error) :
  w (snd (retryLoop zero fn sleep n err0 s)) = w s.
Proof.
  revert s err0. induction n as [| n IH]; intros s err0; [reflexivity |].
  cbn [retryLoop]. rewrite (bind_run _ _ _ _ _ (fn_run s)).
  destruct (outcome (Do wd (sent s) req)) as [v [e |]]; [| reflexivity].
  unfold bind, time_Sleep, emit. now rewrite IH.
Qed.
End RetryFacts.

(** A call that panics ends the loop at its first iteration: the panic
    goes through the helper. *)
Lemma retryLoop_panics {A : Type} (zero : A) (fn : M (A * option error)) (sleep : Z)
    (n : nat) (err0 : option error) (s : State) (msg : string) :
  fn s = (Panicked msg, s) ->
  retryLoop zero fn sleep (S n) err0 s = (Panicked msg, s).
Proof. intros H. cbn [retryLoop]. now rewrite (bind_panic _ _ _ _ _ H). Qed.

(* ===================================================================== *)
(** ** The upstream client: properties                                   *)
(* ===================================================================== *)

Section ClientFacts.
Variable validURL : string -> bool.
Variable decodeSalaryResponse : string -> string + SalaryResponse.t.
Variable decodeCreditResponse : string -> string + CreditResponse.t.
Local Abbreviation salaryAt wd req k := (salaryOutcome decodeSalaryResponse (Do wd k req)).
Local Abbreviation creditAt wd req k := (creditOutcome decodeCreditResponse (Do wd k req)).
Local Abbreviation salaryCall := (callSalaryAPI validURL decodeSalaryResponse).
Local Abbreviation creditCall := (callCreditAPI validURL decodeCreditResponse).
Local Abbreviation salaryLookup := (lookupSalary validURL decodeSalaryResponse).
Local Abbreviation creditLookup := (lookupCredit validURL decodeCreditResponse).

(** A URL that parses gives the request; one that does not gives the
    panic, before anything else happens. *)
Lemma newUpstreamRequest_run (url nationalID reqID : string) (s : State) :
  validURL url = true ->
  newUpstreamRequest validURL url nationalID reqID s
  = (Returned (upstreamRequest url nationalID reqID), s).
Proof. intros H. unfold newUpstreamRequest, http_NewRequest. now rewrite H. Qed.

Lemma newUpstreamRequest_panics (url nationalID reqID : string) (s : State) :
  validURL url = false ->
  newUpstreamRequest validURL url nationalID reqID s = (Panicked nilDereference, s).
Proof. intros H. unfold newUpstreamRequest, http_NewRequest. now rewrite H. Qed.

Lemma callSalaryAPI_run (wd : World) (baseURL nationalID reqID : string) (s : State) :
  let req := upstreamRequest (baseURL ++ "/verify-salary") nationalID reqID in
  validURL (baseURL ++ "/verify-salary") = true ->
  salaryCall wd baseURL nationalID reqID s
  = (Returned (salaryAt wd req (sent s)), attempted req s).
Proof.
  intros req Hurl. unfold callSalaryAPI.
  rewrite (bind_run _ _ _ _ _ (newUpstreamRequest_run _ nationalID reqID s Hurl)).
  fold req. unfold bind, httpClient_Do, salaryOutcome, ret, attempted.
  destruct (Do wd (sent s) req) as [msg | code body]; [reflexivity |].
  destruct (code =? StatusOK)%Z; cbn; [| reflexivity].
  destruct (decodeSalaryResponse body); reflexivity.
Qed.

Lemma callCreditAPI_run (wd : World) (baseURL nationalID reqID : string) (s : State) :
  let req := upstreamRequest (baseURL ++ "/check-credit") nationalID reqID in
  validURL (baseURL ++ "/check-credit") = true ->
  creditCall wd baseURL nationalID reqID s
  = (Returned (creditAt wd req (sent s)), attempted req s).
Proof.
  intros req Hurl. unfold callCreditAPI.
  rewrite (bind_run _ _ _ _ _ (newUpstreamRequest_run _ nationalID reqID s Hurl)).
  fold req. unfold bind, httpClient_Do, creditOutcome, ret, attempted.
  destruct (Do wd (sent s) req) as [msg | code body]; [reflexivity |].
  destruct (code =? StatusOK)%Z; cbn; [| reflexivity].
  destruct (decodeCreditResponse body); reflexivity.
Qed.

Lemma callSalaryAPI_panics (wd : World) (baseURL nationalID reqID : string) (s : State) :
  validURL (baseURL ++ "/verify-salary") = false ->
  salaryCall wd baseURL nationalID reqID s = (Panicked nilDereference, s).
Proof.
  intros Hurl. unfold callSalaryAPI.
  now rewrite (bind_panic _ _ _ _ _ (newUpstreamRequest_panics _ nationalID reqID s Hurl)).
Qed.

Lemma callCreditAPI_panics (wd : World) (baseURL nationalID reqID : string) (s : State) :
  validURL (baseURL ++ "/check-credit") = false ->
  creditCall wd baseURL nationalID reqID s = (Panicked nilDereference, s).
Proof.
  intros Hurl. unfold callCreditAPI.
  now rewrite (bind_panic _ _ _ _ _ (newUpstreamRequest_panics _ nationalID reqID s Hurl)).
Qed.

(** A lookup whose request cannot be built panics at its first attempt,
    the state as it was. *)
Lemma lookupSalary_panics (wd : World) (nationalID reqID : string) (s : State) :
  validURL (Getenv wd "SALARY_API_URL" ++ "/verify-salary") = false ->
  salaryLookup wd nationalID reqID s = (Panicked nilDereference, s).
Proof.
  intros Hurl. unfold lookupSalary, withRetrySalary. change (Z.to_nat 3) with 3.
  apply retryLoop_panics. now apply callSalaryAPI_panics.
Qed.

Lemma lookupCredit_panics (wd : World) (nationalID reqID : string) (s : State) :
  validURL (Getenv wd "CREDIT_API_URL" ++ "/check-credit") = false ->
  creditLookup wd nationalID reqID s = (Panicked nilDereference, s).
Proof.
  intros Hurl. unfold lookupCredit, withRetryCredit. change (Z.to_nat 3) with 3.
  apply retryLoop_panics. now apply callCreditAPI_panics.
Qed.

Lemma lookupSalary_writer (wd : World) (nationalID reqID : string) (s : State) :
  w (snd (salaryLookup wd nationalID reqID s)) = w s.
Proof.
  destruct (validURL (Getenv wd "SALARY_API_URL" ++ "/verify-salary")) eqn:Hurl.
  - unfold lookupSalary, withRetrySalary.
    apply retryLoop_writer with (wd := wd) (outcome := salaryOutcome decodeSalaryResponse)
      (req := salaryRequest wd nationalID reqID).
    intros s0. now apply callSalaryAPI_run.
  - now rewrite lookupSalary_panics.
Qed.

Lemma lookupCredit_writer (wd : World) (nationalID reqID : string) (s : State) :
  w (snd (creditLookup wd nationalID reqID s)) = w s.
Proof.
  destruct (validURL (Getenv wd "CREDIT_API_URL" ++ "/check-credit")) eqn:Hurl.
  - unfold lookupCredit, withRetryCredit.
    apply retryLoop_writer with (wd := wd) (outcome := creditOutcome decodeCreditResponse)
      (req := creditRequest wd nationalID reqID).
    intros s0. now apply callCreditAPI_run.
  - now rewrite lookupCredit_panics.
Qed.

Lemma lookupSalary_first_success (wd : World) (nationalID reqID : string) (s : State)
    (j : nat) (v : SalaryResponse.t) :
  let req := salaryRequest wd nationalID reqID in
  salaryURLParses validURL wd ->
  j < 3 ->
  (forall i, i < j -> attemptFails (salaryOutcome decodeSalaryResponse) wd req (sent s + i)) ->
  salaryAt wd req (sent s + j) = (v, None) ->
  salaryLookup wd nationalID reqID s
  = (Returned (v, None), attempted req (retried req delay j s)).
Proof.
  intros req Hurl Hj Hfail Hok. unfold lookupSalary, withRetrySalary.
  apply (retryLoop_first_success _ wd req (salaryOutcome decodeSalaryResponse)); auto.
  intros s0. now apply callSalaryAPI_run.
Qed.

Lemma lookupSalary_exhausted (wd : World) (nationalID reqID : string) (s : State) :
  let req := salaryRequest wd nationalID reqID in
  salaryURLParses validURL wd ->
  (forall i, i < 3 -> attemptFails (salaryOutcome decodeSalaryResponse) wd req (sent s + i)) ->
  salaryLookup wd nationalID reqID s
  = (Returned (SalaryResponse.zero, snd (salaryAt wd req (sent s + 2))), retried req delay 3 s).
Proof.
  intros req Hurl Hfail. unfold lookupSalary, withRetrySalary.
  apply (retryLoop_exhausted _ wd req (salaryOutcome decodeSalaryResponse)); auto.
  intros s0. now apply callSalaryAPI_run.
Qed.

Lemma lookupCredit_first_success (wd : World) (nationalID reqID : string) (s : State)
    (j : nat) (v : CreditResponse.t) :
  let req := creditRequest wd nationalID reqID in
  creditURLParses validURL wd ->
  j < 3 ->
  (forall i, i < j -> attemptFails (creditOutcome decodeCreditResponse) wd req (sent s + i)) ->
  creditAt wd req (sent s + j) = (v, None) ->
  creditLookup wd nationalID reqID s
  = (Returned (v, None), attempted req (retried req delay j s)).
Proof.
  intros req Hurl Hj Hfail Hok. unfold lookupCredit, withRetryCredit.
  apply (retryLoop_first_success _ wd req (creditOutcome decodeCreditResponse)); auto.
  intros s0. now apply callCreditAPI_run.
Qed.

Lemma lookupCredit_exhausted (wd : World) (nationalID reqID : string) (s : State) :
  let req := creditRequest wd nationalID reqID in
  creditURLParses validURL wd ->
  (forall i, i < 3 -> attemptFails (creditOutcome decodeCreditResponse) wd req (sent s + i)) ->
  creditLookup wd nationalID reqID s
  = (Returned (CreditResponse.zero, snd (creditAt wd req (sent s + 2))), retried req delay 3 s).
Proof.
  intros req Hurl Hfail. unfold lookupCredit, withRetryCredit.
  apply (retryLoop_exhausted _ wd req (creditOutcome decodeCreditResponse)); auto.
  intros s0. now apply callCreditAPI_run.
Qed.

(** C1 (amended): in both upstream calls, once the request is built (the
    upstream location is a URL), every failed attempt, a 404 like any
    other failure, is followed by the 250 ms sleep and retried, up to 3
    attempts in all.  The first attempt that succeeds gives the answer;
    when all 3 fail, the failure surfaced is that of the third attempt. *)
Theorem every_failure_is_retried (wd : World) (nationalID reqID : string) (s : State) :
  let sreq := salaryRequest wd nationalID reqID in
  let creq := creditRequest wd nationalID reqID in
  (salaryURLParses validURL wd ->
     (forall j v, j < 3 ->
        (forall i, i < j ->
           attemptFails (salaryOutcome decodeSalaryResponse) wd sreq (sent s + i)) ->
        salaryAt wd sreq (sent s + j) = (v, None) ->
        salaryLookup wd nationalID reqID s
        = (Returned (v, None), attempted sreq (retried sreq delay j s)))
     /\ ((forall i, i < 3 ->
            attemptFails (salaryOutcome decodeSalaryResponse) wd sreq (sent s + i)) ->
         salaryLookup wd nationalID reqID s
         = (Returned (SalaryResponse.zero, snd (salaryAt wd sreq (sent s + 2))),
            retried sreq delay 3 s)))
  /\ (creditURLParses validURL wd ->
        (forall j v, j < 3 ->
           (forall i, i < j ->
              attemptFails (creditOutcome decodeCreditResponse) wd creq (sent s + i)) ->
           creditAt wd creq (sent s + j) = (v, None) ->
           creditLookup wd nationalID reqID s
           = (Returned (v, None), attempted creq (retried creq delay j s)))
        /\ ((forall i, i < 3 ->
               attemptFails (creditOutcome decodeCreditResponse) wd creq (sent s + i)) ->
            creditLookup wd nationalID reqID s
            = (Returned (CreditResponse.zero, snd (creditAt wd creq (sent s + 2))),
               retried creq delay 3 s))).
Proof.
  intros sreq creq. split; intros Hurl; split.
  - intros j v. now apply lookupSalary_first_success.
  - now apply lookupSalary_exhausted.
  - intros j v. now apply lookupCredit_first_success.
  - now apply lookupCredit_exhausted.
Qed.
End ClientFacts.

(* ===================================================================== *)
(** ** The decision rules: properties                                    *)
(* ===================================================================== *)

Lemma decisionRules_spec (salary : SalaryResponse.t) (credit : CreditResponse.t)
    (monthly : float) :
  decisionRules salary credit monthly = spec_reasons salary credit monthly.
Proof.
  unfold decisionRules, spec_reasons, spec_rules.
  rewrite !Z.gtb_ltb. cbn [filter fst map snd].
  destruct (SalaryResponse.MonthlySalary salary <? 3 * monthly)%float,
    (CreditResponse.CreditScore credit <? 600)%Z,
    (0 <? CreditResponse.ActiveDefaults credit)%Z,
    (3 <? CreditResponse.ActiveLoans credit)%Z; reflexivity.
Qed.

(** C9: with every other input fixed, raising [activeDefaults] from 0 to 1
    keeps every reason there was, in the same order, and adds
    "Active defaults present" (after the salary and score reasons, before
    the loans reason); no reason is removed. *)
Theorem active_default_only_adds_its_reason
    (salary : SalaryResponse.t) (id : string) (score loans : Z) (monthly : float) :
  exists before after : list string,
    decisionRules salary (CreditResponse.Build id score 0 loans) monthly = before ++ after
    /\ decisionRules salary (CreditResponse.Build id score 1 loans) monthly
       = before ++ "Active defaults present" :: after.
Proof.
  exists (map snd (filter fst
            [((SalaryResponse.MonthlySalary salary <? 3 * monthly)%float,
              "Monthly salary is less than 3x the amortized monthly repayment");
             ((score <? 600)%Z, "Credit score below 600")])),
         (if (loans >? 3)%Z then ["More than 3 active loans"] else []).
  unfold decisionRules. cbn [CreditResponse.CreditScore CreditResponse.ActiveDefaults
    CreditResponse.ActiveLoans SalaryResponse.MonthlySalary].
  change (0 >? 0)%Z with false. change (1 >? 0)%Z with true.
  destruct (SalaryResponse.MonthlySalary salary <? 3 * monthly)%float,
    (score <? 600)%Z, (loans >? 3)%Z; split; reflexivity.
Qed.

(* ===================================================================== *)
(** ** The handler: properties                                           *)
(* ===================================================================== *)

(** What the encoder leaves of the writer. *)
Lemma discard_Encode_loan (resp : LoanResponse.t) (s : State) :
  discard (json_Encode (JsonLoan resp)) s
  = (Returned tt, {| w := encodeOn (w s) resp; sent := sent s; trace := trace s |}).
Proof.
  unfold discard, json_Encode, marshals, encodeOn, bind, ret, w_Write, onWriter.
  destruct (encodable resp); [reflexivity | now destruct s].
Qed.

Lemma discard_Encode_map (fields : list (string * string)) (s : State) :
  discard (json_Encode (JsonMap fields)) s
  = (Returned tt,
     {| w := {| header := header (w s);
                status := match status (w s) with Some c => Some c | None => Some StatusOK end;
                written := written (w s) ++ [JsonMap fields] |};
        sent := sent s; trace := trace s |}).
Proof. reflexivity. Qed.

Lemma encodeOn_two_headers (reqID : string) (resp : LoanResponse.t) :
  encodeOn {| header := [("X-Request-ID", reqID); ("Content-Type", "application/json")];
              status := None; written := [] |} resp
  = decisionResponse reqID resp.
Proof. unfold encodeOn, decisionResponse. now destruct (encodable resp). Qed.

Lemma decisionResponse_encodable (reqID : string) (resp : LoanResponse.t) :
  encodable resp = true ->
  decisionResponse reqID resp = jsonResponse reqID StatusOK (JsonLoan resp).
Proof. unfold decisionResponse. now intros ->. Qed.

Lemma decisionResponse_refused (reqID : string) (resp : LoanResponse.t) :
  encodable resp = false -> decisionResponse reqID resp = noDocument reqID.
Proof. unfold decisionResponse. now intros ->. Qed.

(** The handler of a validated application, run up to the salary lookup. *)
Ltac enter_handler Hm Hdec Hid Hamt Hterm Hsal Hcred :=
  unfold exec, loanHandler; rewrite Hm;
  cbn [String.eqb Ascii.eqb Bool.eqb negb];
  rewrite Hdec, Hid, Hamt, Hterm, Hsal, Hcred; cbn [orb];
  cbv [bind w_Header_Set onWriter emit ret];
  cbn [w sent trace header status written initial Header_Set Header_Del filter app].

Ltac finish_response :=
  cbv [bind w_Header_Set w_WriteHeader onWriter emit ret];
  cbn [Nat.ltb Nat.leb List.length];
  rewrite ?discard_Encode_loan, ?discard_Encode_map;
  cbn [w sent trace header status written Header_Set Header_Del filter app
       String.eqb Ascii.eqb Bool.eqb negb fst snd nth];
  try reflexivity.

Ltac settle_writer :=
  cbn [header status written Header_Set Header_Del filter app
       String.eqb Ascii.eqb Bool.eqb negb fst snd].

Section HandlerFacts.
Variables Exp Log : float -> float.
Variable ParseFloat : string -> option float.
Variable validURL : string -> bool.
Variable decodeLoanRequest : string -> option LoanRequest.t.
Variable decodeSalaryResponse : string -> string + SalaryResponse.t.
Variable decodeCreditResponse : string -> string + CreditResponse.t.

Local Abbreviation handler :=
  (loanHandler Exp Log ParseFloat validURL decodeLoanRequest decodeSalaryResponse
     decodeCreditResponse).
Local Abbreviation salaryLookup := (lookupSalary validURL decodeSalaryResponse).
Local Abbreviation creditLookup := (lookupCredit validURL decodeCreditResponse).
Local Abbreviation payment := (amortizedMonthlyPayment Exp Log).
Local Abbreviation rate := (annualRateOf ParseFloat).
Local Abbreviation isValidated := (validated decodeLoanRequest).

Lemma salaryLookup_keeps_writer (wd : World) (reqID nationalID : string)
    (res : Result (SalaryResponse.t * option error)) (s : State) :
  salaryLookup wd nationalID reqID (salaryPending wd reqID nationalID) = (res, s) ->
  w s = {| header := [("X-Request-ID", reqID)]; status := None; written := [] |}.
Proof.
  intros H.
  pose proof (lookupSalary_writer validURL decodeSalaryResponse wd nationalID reqID
                (salaryPending wd reqID nationalID)) as Hw.
  now rewrite H in Hw.
Qed.

Lemma creditLookup_keeps_writer (wd : World) (reqID nationalID : string)
    (res : Result (CreditResponse.t * option error)) (s1 s2 : State) :
  creditLookup wd nationalID reqID (creditPending wd reqID nationalID s1) = (res, s2) ->
  w s2 = w s1.
Proof.
  intros H.
  pose proof (lookupCredit_writer validURL decodeCreditResponse wd nationalID reqID
                (creditPending wd reqID nationalID s1)) as Hw.
  now rewrite H in Hw.
Qed.

(** The run of a validated application whose salary lookup returned an
    error. *)
Lemma failed_salary_lookup_run (wd : World) (r : Request) (request : LoanRequest.t)
    (v : SalaryResponse.t) (e : error) (s1 : State) :
  let reqID := getOrCreateReqID wd r in
  let id := LoanRequest.NationalID request in
  let monthly :=
    payment (LoanRequest.LoanAmount request) (LoanRequest.TermMonths request) (rate wd) in
  isValidated wd r request ->
  salaryLookup wd id reqID (salaryPending wd reqID id) = (Returned (v, Some e), s1) ->
  handler wd r initial =
  (Returned tt,
   {| w := lookupFailure "salary" "Salary" reqID None monthly (rate wd) request e;
      sent := sent s1; trace := trace s1 |}).
Proof.
  intros reqID id monthly (Hm & (Hdec & Hid & Hamt & Hterm) & (Hsal & Hcred)) Hsalary.
  enter_handler Hm Hdec Hid Hamt Hterm Hsal Hcred.
  change (salaryLookup wd (LoanRequest.NationalID request) (getOrCreateReqID wd r) _)
    with (salaryLookup wd id reqID (salaryPending wd reqID id)).
  rewrite Hsalary. unfold lookupFailure.
  destruct (isNotFound e); finish_response;
    rewrite (salaryLookup_keeps_writer _ _ _ _ _ Hsalary); [| reflexivity].
  settle_writer. now rewrite encodeOn_two_headers.
Qed.

Lemma failed_credit_lookup_run (wd : World) (r : Request) (request : LoanRequest.t)
    (salary : SalaryResponse.t) (v : CreditResponse.t) (e : error) (s1 s2 : State) :
  let reqID := getOrCreateReqID wd r in
  let id := LoanRequest.NationalID request in
  let monthly :=
    payment (LoanRequest.LoanAmount request) (LoanRequest.TermMonths request) (rate wd) in
  isValidated wd r request ->
  salaryLookup wd id reqID (salaryPending wd reqID id) = (Returned (salary, None), s1) ->
  creditLookup wd id reqID (creditPending wd reqID id s1) = (Returned (v, Some e), s2) ->
  handler wd r initial =
  (Returned tt,
   {| w := lookupFailure "credit" "Credit" reqID (Some salary) monthly (rate wd) request e;
      sent := sent s2; trace := trace s2 |}).
Proof.
  intros reqID id monthly (Hm & (Hdec & Hid & Hamt & Hterm) & (Hsal & Hcred)) Hsalary Hcredit.
  enter_handler Hm Hdec Hid Hamt Hterm Hsal Hcred.
  change (salaryLookup wd (LoanRequest.NationalID request) (getOrCreateReqID wd r) _)
    with (salaryLookup wd id reqID (salaryPending wd reqID id)).
  rewrite Hsalary.
  change (creditLookup wd (LoanRequest.NationalID request) (getOrCreateReqID wd r) _)
    with (creditLookup wd id reqID (creditPending wd reqID id s1)).
  rewrite Hcredit. unfold lookupFailure.
  destruct (isNotFound e); finish_response;
    rewrite (creditLookup_keeps_writer _ _ _ _ _ _ Hcredit);
    rewrite (salaryLookup_keeps_writer _ _ _ _ _ Hsalary); [| reflexivity].
  settle_writer. now rewrite encodeOn_two_headers.
Qed.

(** The run of a validated application whose two lookups returned facts. *)
Lemma decision_run (wd : World) (r : Request) (request : LoanRequest.t)
    (salary : SalaryResponse.t) (credit : CreditResponse.t) (s1 s2 : State) :
  let reqID := getOrCreateReqID wd r in
  let id := LoanRequest.NationalID request in
  let monthly :=
    payment (LoanRequest.LoanAmount request) (LoanRequest.TermMonths request) (rate wd) in
  isValidated wd r request ->
  salaryLookup wd id reqID (salaryPending wd reqID id) = (Returned (salary, None), s1) ->
  creditLookup wd id reqID (creditPending wd reqID id s1) = (Returned (credit, None), s2) ->
  handler wd r initial =
  (Returned tt,
   {| w := decisionResponse reqID (spec_decide salary credit monthly (rate wd) request);
      sent := sent s2;
      trace := trace s2 ++ [match spec_reasons salary credit monthly with
                            | [] => LogApproved reqID id monthly
                            | primary :: others =>
                                LogDeclined reqID id (primary :: others) monthly
                            end] |}).
Proof.
  intros reqID id monthly (Hm & (Hdec & Hid & Hamt & Hterm) & (Hsal & Hcred)) Hsalary Hcredit.
  enter_handler Hm Hdec Hid Hamt Hterm Hsal Hcred.
  change (salaryLookup wd (LoanRequest.NationalID request) (getOrCreateReqID wd r) _)
    with (salaryLookup wd id reqID (salaryPending wd reqID id)).
  rewrite Hsalary.
  change (creditLookup wd (LoanRequest.NationalID request) (getOrCreateReqID wd r) _)
    with (creditLookup wd id reqID (creditPending wd reqID id s1)).
  rewrite Hcredit.
  fold monthly. rewrite decisionRules_spec. unfold spec_decide.
  destruct (spec_reasons salary credit monthly); finish_response;
    rewrite (creditLookup_keeps_writer _ _ _ _ _ _ Hcredit);
    rewrite (salaryLookup_keeps_writer _ _ _ _ _ Hsalary);
    settle_writer; now rewrite encodeOn_two_headers.
Qed.

Lemma classified_not_found (e : error) : classify (Some e) = NotFound -> isNotFound e = true.
Proof. unfold classify. destruct (isNotFound e); [reflexivity | discriminate]. Qed.

Lemma classified_unavailable (e : error) :
  classify (Some e) = Unavailable -> isNotFound e = false.
Proof. unfold classify. destruct (isNotFound e); [discriminate | reflexivity]. Qed.

(** C4 (amended): a validated application whose salary lookup returns
    NotFound, and whose decline can be encoded (the payment, the rate and
    the amount are finite numbers), is answered DECLINED with the reasons
    list ["Salary record not found"], no salary and no credit fact, the
    monthly payment computed from the requested amount and term, and the
    application echoed.  When the decline cannot be encoded the handler
    returns having written nothing. *)
Theorem salary_not_found_declines
    (wd : World) (r : Request) (request : LoanRequest.t)
    (v : SalaryResponse.t) (e : error) (s : State) :
  let reqID := getOrCreateReqID wd r in
  let nationalID := LoanRequest.NationalID request in
  let decline :=
    partialDecline "Salary record not found"
      (payment (LoanRequest.LoanAmount request) (LoanRequest.TermMonths request) (rate wd))
      (rate wd) None request in
  isValidated wd r request ->
  salaryLookup wd nationalID reqID (salaryPending wd reqID nationalID)
  = (Returned (v, Some e), s) ->
  classify (Some e) = NotFound ->
  (encodable decline = true ->
     handler wd r initial =
     (Returned tt,
      {| w := jsonResponse reqID StatusOK (JsonLoan decline);
         sent := sent s;
         trace := trace s |}))
  /\ (encodable decline = false ->
        handler wd r initial =
        (Returned tt, {| w := noDocument reqID; sent := sent s; trace := trace s |})).
Proof.
  intros reqID nationalID decline Hvalid Hlook Hnf.
  rewrite (failed_salary_lookup_run wd r request v e s Hvalid Hlook).
  unfold lookupFailure. rewrite (classified_not_found e Hnf).
  split; intros Henc.
  - now rewrite decisionResponse_encodable.
  - now rewrite decisionResponse_refused.
Qed.

(** C5 (amended): a validated application whose salary lookup succeeds and
    whose credit lookup returns NotFound, and whose decline can be encoded
    (the payment, the rate, the amount and the salary are finite numbers),
    is answered DECLINED with the reason "Credit record not found", the
    salary fact included and no credit fact.  When the decline cannot be
    encoded the handler returns having written nothing. *)
Theorem credit_not_found_declines
    (wd : World) (r : Request) (request : LoanRequest.t)
    (salary : SalaryResponse.t) (v : CreditResponse.t) (e : error) (s1 s2 : State) :
  let reqID := getOrCreateReqID wd r in
  let nationalID := LoanRequest.NationalID request in
  let decline :=
    partialDecline "Credit record not found"
      (payment (LoanRequest.LoanAmount request) (LoanRequest.TermMonths request) (rate wd))
      (rate wd) (Some salary) request in
  isValidated wd r request ->
  salaryLookup wd nationalID reqID (salaryPending wd reqID nationalID)
  = (Returned (salary, None), s1) ->
  creditLookup wd nationalID reqID (creditPending wd reqID nationalID s1)
  = (Returned (v, Some e), s2) ->
  classify (Some e) = NotFound ->
  (encodable decline = true ->
     handler wd r initial =
     (Returned tt,
      {| w := jsonResponse reqID StatusOK (JsonLoan decline);
         sent := sent s2;
         trace := trace s2 |}))
  /\ (encodable decline = false ->
        handler wd r initial =
        (Returned tt, {| w := noDocument reqID; sent := sent s2; trace := trace s2 |})).
Proof.
  intros reqID nationalID decline Hvalid Hsalary Hcredit Hnf.
  rewrite (failed_credit_lookup_run wd r request salary v e s1 s2 Hvalid Hsalary Hcredit).
  unfold lookupFailure. rewrite (classified_not_found e Hnf).
  split; intros Henc.
  - now rewrite decisionResponse_encodable.
  - now rewrite decisionResponse_refused.
Qed.

Lemma spec_decide_status (salary : SalaryResponse.t) (credit : CreditResponse.t)
    (monthly annualRate : float) (request : LoanRequest.t) :
  LoanResponse.Status (spec_decide salary credit monthly annualRate request) = "APPROVED"
  <-> spec_reasons salary credit monthly = [].
Proof.
  unfold spec_decide. destruct (spec_reasons salary credit monthly); cbn; split;
    intros; congruence.
Qed.

Lemma spec_decide_declined (salary : SalaryResponse.t) (credit : CreditResponse.t)
    (monthly annualRate : float) (request : LoanRequest.t) :
  spec_reasons salary credit monthly <> [] ->
  let outcome := spec_decide salary credit monthly annualRate request in
  LoanResponse.Status outcome = "DECLINED"
  /\ LoanResponse.Reasons outcome = spec_reasons salary credit monthly
  /\ Some (LoanResponse.Reason outcome) = head (spec_reasons salary credit monthly).
Proof.
  unfold spec_decide. destruct (spec_reasons salary credit monthly); cbn; intros;
    [congruence | auto].
Qed.

(** C2: on resolved salary and credit facts the handler looks at the four
    rules in their fixed order, none skipped, each violated rule giving its
    reason; the outcome is APPROVED exactly when no reason was collected,
    and otherwise DECLINED with the whole ordered list and its first
    element as the primary reason.  The handler logs that outcome and
    passes it to the encoder, which writes it as the one document of the
    response whenever its numbers are finite. *)
Theorem decision_follows_the_four_rules
    (wd : World) (r : Request) (request : LoanRequest.t)
    (salary : SalaryResponse.t) (credit : CreditResponse.t) (s1 s2 : State) :
  let reqID := getOrCreateReqID wd r in
  let nationalID := LoanRequest.NationalID request in
  let monthly :=
    payment (LoanRequest.LoanAmount request) (LoanRequest.TermMonths request) (rate wd) in
  let reasons := spec_reasons salary credit monthly in
  let outcome := spec_decide salary credit monthly (rate wd) request in
  let decided :=
    trace s2 ++ [match reasons with
                 | [] => LogApproved reqID nationalID monthly
                 | primary :: others =>
                     LogDeclined reqID nationalID (primary :: others) monthly
                 end] in
  isValidated wd r request ->
  salaryLookup wd nationalID reqID (salaryPending wd reqID nationalID)
  = (Returned (salary, None), s1) ->
  creditLookup wd nationalID reqID (creditPending wd reqID nationalID s1)
  = (Returned (credit, None), s2) ->
  decisionRules salary credit monthly = reasons
  /\ (LoanResponse.Status outcome = "APPROVED" <-> reasons = [])
  /\ (reasons <> [] ->
      LoanResponse.Status outcome = "DECLINED"
      /\ LoanResponse.Reasons outcome = reasons
      /\ Some (LoanResponse.Reason outcome) = head reasons)
  /\ handler wd r initial =
     (Returned tt,
      {| w := encodeOn (noDocument reqID) outcome; sent := sent s2; trace := decided |})
  /\ (encodable outcome = true ->
      handler wd r initial =
      (Returned tt,
       {| w := jsonResponse reqID StatusOK (JsonLoan outcome);
          sent := sent s2;
          trace := decided |})).
Proof.
  intros reqID nationalID monthly reasons outcome decided Hvalid Hsalary Hcredit.
  split; [apply decisionRules_spec |].
  split; [apply spec_decide_status |].
  split; [apply spec_decide_declined |].
  rewrite (decision_run wd r request salary credit s1 s2 Hvalid Hsalary Hcredit).
  fold monthly outcome reasons. split.
  - unfold noDocument. now rewrite encodeOn_two_headers.
  - intros Henc. now rewrite decisionResponse_encodable.
Qed.

(** C3: a validated application whose salary call fails with Unavailable
    is answered 502 with the error "salary_service_unavailable", a message,
    the detail of the failure and the request id, and the handler returns
    in the state the salary lookup ended in: nothing is sent or logged
    after it, no credit call, no decision.  In particular, when the
    request to the salary location is built and all 3 attempts fail with a
    non-404 error, the detail is that of the third failure and the trace
    is the three salary requests with their sleeps and nothing else. *)
Theorem salary_unavailable_is_bad_gateway
    (wd : World) (r : Request) (request : LoanRequest.t) :
  let reqID := getOrCreateReqID wd r in
  let nationalID := LoanRequest.NationalID request in
  let req := salaryRequest wd nationalID reqID in
  let envelope e :=
    jsonResponse reqID StatusBadGateway
      (JsonMap [("error", "salary_service_unavailable");
                ("message", "Failed to verify salary");
                ("detail", Error e);
                ("request_id", reqID)]) in
  isValidated wd r request ->
  (forall v e s1,
     salaryLookup wd nationalID reqID (salaryPending wd reqID nationalID)
     = (Returned (v, Some e), s1) ->
     classify (Some e) = Unavailable ->
     handler wd r initial
     = (Returned tt, {| w := envelope e; sent := sent s1; trace := trace s1 |}))
  /\ (salaryURLParses validURL wd ->
      (forall k, k < 3 ->
         classify (snd (salaryOutcome decodeSalaryResponse (Do wd k req))) = Unavailable) ->
      exists e : error,
        snd (salaryOutcome decodeSalaryResponse (Do wd 2 req)) = Some e
        /\ handler wd r initial =
           (Returned tt,
            {| w := envelope e;
               sent := 3;
               trace := [LogCallingSalary reqID (Getenv wd "SALARY_API_URL") nationalID;
                         HTTPDo req; Sleep delay;
                         HTTPDo req; Sleep delay;
                         HTTPDo req; Sleep delay] |})).
Proof.
  intros reqID nationalID req envelope Hvalid.
  assert (Hrun : forall v e s1,
            salaryLookup wd nationalID reqID (salaryPending wd reqID nationalID)
            = (Returned (v, Some e), s1) ->
            classify (Some e) = Unavailable ->
            handler wd r initial
            = (Returned tt, {| w := envelope e; sent := sent s1; trace := trace s1 |})).
  { intros v e s1 Hlook Hclass.
    rewrite (failed_salary_lookup_run wd r request v e s1 Hvalid Hlook).
    unfold lookupFailure. now rewrite (classified_unavailable e Hclass). }
  split; [exact Hrun |].
  intros Hurl Hdown.
  assert (Hfail : forall i, i < 3 ->
            attemptFails (salaryOutcome decodeSalaryResponse) wd req
              (sent (salaryPending wd reqID nationalID) + i)).
  { intros i Hi. unfold attemptFails. cbn [sent salaryPending plus].
    specialize (Hdown i Hi). revert Hdown.
    destruct (snd (salaryOutcome decodeSalaryResponse (Do wd i req)));
      [intros _; discriminate | intros H; discriminate H]. }
  pose proof (lookupSalary_exhausted validURL decodeSalaryResponse wd nationalID reqID _
                Hurl Hfail) as Hlook.
  cbn [sent salaryPending plus] in Hlook. fold req in Hlook.
  specialize (Hdown 2 ltac:(lia)).
  destruct (snd (salaryOutcome decodeSalaryResponse (Do wd 2 req))) as [e |] eqn:He;
    [| discriminate Hdown].
  exists e. split; [reflexivity |].
  now rewrite (Hrun _ e _ Hlook Hdown).
Qed.

(** C8 (amended): for every inbound POST request, a body that does not
    parse or has an invalid field is answered 400 whatever the
    configuration is; a valid body with [SALARY_API_URL] or
    [CREDIT_API_URL] unset is answered 500 with the JSON object
    [{error: "config_error", message, request_id}]; in both cases nothing
    was sent upstream. *)
Theorem config_error_after_validation (wd : World) (r : Request) :
  let reqID := getOrCreateReqID wd r in
  let final := exec (handler wd r) initial in
  Method r = "POST" ->
  (invalidBody decodeLoanRequest r ->
     status (w final) = Some StatusBadRequest /\ sent final = 0 /\ trace final = [])
  /\ (forall request, validBody decodeLoanRequest r request ->
        Getenv wd "SALARY_API_URL" = "" \/ Getenv wd "CREDIT_API_URL" = "" ->
        final = {| w := jsonResponse reqID StatusInternalServerError
                          (JsonMap [("error", "config_error");
                                    ("message", "Service URLs not configured");
                                    ("request_id", reqID)]);
                   sent := 0;
                   trace := [] |}).
Proof.
  intros reqID final Hm. subst final. unfold exec, loanHandler. rewrite Hm.
  cbn [String.eqb Ascii.eqb Bool.eqb negb]. split.
  - unfold invalidBody. destruct (decodeLoanRequest (RequestBody r)) as [request |].
    + intros Hbad.
      assert (Hguard : String.eqb (LoanRequest.NationalID request) ""
                       || (LoanRequest.LoanAmount request <=? 0)%float
                       || (LoanRequest.TermMonths request <=? 0)%Z = true).
      { destruct Hbad as [-> | [-> | ->]]; rewrite ?orb_true_r; reflexivity. }
      rewrite Hguard. auto.
    + auto.
  - intros request (Hdec & Hid & Hamt & Hterm) Hunset.
    rewrite Hdec, Hid, Hamt, Hterm. cbn [orb].
    assert (Hguard : String.eqb (Getenv wd "SALARY_API_URL") ""
                     || String.eqb (Getenv wd "CREDIT_API_URL") "" = true).
    { destruct Hunset as [-> | ->]; rewrite ?orb_true_r; reflexivity. }
    rewrite Hguard. finish_response.
Qed.

(** C10: when [ANNUAL_INTEREST_PERCENT] holds a string that does not parse
    as a float, the rate used is the default 20.0 and the handler does, on
    every request, exactly what it does with the variable unset: nothing at
    the interface shows the parse failure. *)
Theorem unparsable_rate_is_the_default (wd : World) (r : Request) :
  ParseFloat (Getenv wd "ANNUAL_INTEREST_PERCENT") = None ->
  rate wd = 20%float
  /\ forall s, handler wd r s = handler (unsetenv "ANNUAL_INTEREST_PERCENT" wd) r s.
Proof.
  intros Hparse.
  assert (Hrate : rate wd = 20%float).
  { unfold annualRateOf. rewrite Hparse. now destruct (negb _). }
  split; [exact Hrate |].
  intros s. unfold loanHandler. rewrite Hrate. reflexivity.
Qed.
End HandlerFacts.

(* ===================================================================== *)
(** ** The scenarios, run                                                *)
(* ===================================================================== *)

Section ScenarioRuns.
Import Scenario.

Local Abbreviation applicationA := (LoanRequest.Build "12345678" 50000 12).
Local Abbreviation applicationB := (LoanRequest.Build "87654321" 50000 12).
Local Abbreviation stranger := (LoanRequest.Build "00000000" 50000 12).
Local Abbreviation hugeA := (LoanRequest.Build "12345678" 1e308 12).
Local Abbreviation hugeStranger := (LoanRequest.Build "00000000" 1e308 12).
Local Abbreviation salaryA := (SalaryResponse.Build "12345678" 350000).
Local Abbreviation salaryB := (SalaryResponse.Build "87654321" 120000).
Local Abbreviation creditB := (CreditResponse.Build "87654321" 540 0 1).
Local Abbreviation salaryOf wd id :=
  (lookupSalary validURL decodeSalaryResponse wd id "req-1" (salaryPending wd "req-1" id)).
Local Abbreviation creditOf wd id s :=
  (lookupCredit validURL decodeCreditResponse wd id "req-1" (creditPending wd "req-1" id s)).

(** The salary service answers 404 and then 200: the call makes a second
    attempt and returns the fact.  It answers 404 and then 503 twice: the
    call makes three attempts and surfaces Unavailable.  In neither run is
    NotFound returned after the attempt that yielded it. *)
Lemma not_found_is_retried :
  let req := salaryRequest recovering "12345678" "req-1" in
  classify (snd (salaryOutcome decodeSalaryResponse (Do recovering 0 req))) = NotFound
  /\ lookupSalary validURL decodeSalaryResponse recovering "12345678" "req-1" initial
     = (Returned (salaryA, None),
        {| w := w initial; sent := 2; trace := [HTTPDo req; Sleep delay; HTTPDo req] |})
  /\ classify (snd (salaryOutcome decodeSalaryResponse (Do breaking 0 req))) = NotFound
  /\ result (lookupSalary validURL decodeSalaryResponse breaking "12345678" "req-1") initial
     = Returned (SalaryResponse.zero, Some (httpError 503 "overloaded"))
  /\ classify (Some (httpError 503 "overloaded")) = Unavailable
  /\ sent (exec (lookupSalary validURL decodeSalaryResponse breaking "12345678" "req-1")
             initial) = 3.
Proof. repeat split. Qed.

Lemma every_failure_is_retried_witness :
  let req := salaryRequest recovering "12345678" "req-1" in
  lookupSalary validURL decodeSalaryResponse recovering "12345678" "req-1" initial
  = (Returned (salaryA, None), attempted req (retried req delay 1 initial))
  /\ lookupSalary validURL decodeSalaryResponse down "12345678" "req-1" initial
     = (Returned (SalaryResponse.zero, Some (otherError "connection refused")),
        retried req delay 3 initial).
Proof.
  split.
  - apply (proj1 (proj1 (every_failure_is_retried validURL decodeSalaryResponse
                           decodeCreditResponse recovering "12345678" "req-1" initial)
                    eq_refl) 1 salaryA).
    + lia.
    + intros i Hi. destruct i as [| i]; [| lia]. vm_compute. discriminate.
    + reflexivity.
  - apply (proj2 (proj1 (every_failure_is_retried validURL decodeSalaryResponse
                           decodeCreditResponse down "12345678" "req-1" initial)
                    eq_refl)).
    intros i _. vm_compute. discriminate.
Defined.

Lemma decision_follows_the_four_rules_witness :
  handler steady (post "application B") initial =
  (Returned tt,
   {| w := jsonResponse "req-1" StatusOK
             (JsonLoan
                {| LoanResponse.Status := "DECLINED";
                   LoanResponse.Reason := "Credit score below 600";
                   LoanResponse.Reasons := ["Credit score below 600"];
                   LoanResponse.MonthlyPayment := 4631.73;
                   LoanResponse.AnnualInterest := 20;
                   LoanResponse.SalaryEcho := Some salaryB;
                   LoanResponse.CreditEcho := Some creditB;
                   LoanResponse.ApplicationEcho := Some applicationB |});
      sent := 2;
      trace := [LogCallingSalary "req-1" "http://salary:8081" "87654321";
                HTTPDo (salaryRequest steady "87654321" "req-1");
                LogCallingCredit "req-1" "http://credit:8082" "87654321";
                HTTPDo (creditRequest steady "87654321" "req-1");
                LogDeclined "req-1" "87654321" ["Credit score below 600"] 4631.73] |}).
Proof.
  refine (proj2 (proj2 (proj2 (proj2
            (decision_follows_the_four_rules Exp Log ParseFloat validURL decodeLoanRequest
               decodeSalaryResponse decodeCreditResponse steady (post "application B")
               applicationB salaryB creditB
               (snd (salaryOf steady "87654321"))
               (snd (creditOf steady "87654321" (snd (salaryOf steady "87654321"))))
               _ _ _)))) _).
  - repeat split.
  - reflexivity.
  - reflexivity.
  - reflexivity.
Defined.

Lemma salary_unavailable_is_bad_gateway_witness :
  status (w (exec (handler down (post "application A")) initial)) = Some StatusBadGateway
  /\ sent (exec (handler down (post "application A")) initial) = 3.
Proof.
  destruct (proj2 (salary_unavailable_is_bad_gateway Exp Log ParseFloat validURL
                     decodeLoanRequest decodeSalaryResponse decodeCreditResponse down
                     (post "application A") applicationA ltac:(repeat split)))
    as (e & _ & Hfinal).
  - reflexivity.
  - intros k _. reflexivity.
  - unfold handler, exec. rewrite Hfinal. split; reflexivity.
Defined.

Lemma salary_not_found_declines_witness :
  handler steady (post "application of a stranger") initial =
  (Returned tt,
   {| w := jsonResponse "req-1" StatusOK
             (JsonLoan (partialDecline "Salary record not found" 4631.73 20 None stranger));
      sent := 3;
      trace := trace (snd (salaryOf steady "00000000")) |}).
Proof.
  refine (proj1 (salary_not_found_declines Exp Log ParseFloat validURL decodeLoanRequest
                   decodeSalaryResponse decodeCreditResponse steady
                   (post "application of a stranger") stranger
                   SalaryResponse.zero (httpError 404 "salary record not found")
                   (snd (salaryOf steady "00000000")) _ _ _) _).
  - repeat split.
  - reflexivity.
  - reflexivity.
  - reflexivity.
Defined.

(** An application for 1e308 over 12 months at 20 percent is validated.
    Its payment overflows to +Inf, which JSON cannot carry: when the salary
    service knows nobody of that id, the lookup returns NotFound and the
    handler returns with no status and no body written: no DECLINED
    response, no reasons, no payment. *)
Lemma salary_not_found_with_infinite_payment :
  let r := post "application of a stranger for 1e308" in
  validated decodeLoanRequest steady r hugeStranger
  /\ salaryOf steady "00000000"
     = (Returned (SalaryResponse.zero, Some (httpError 404 "salary record not found")),
        snd (salaryOf steady "00000000"))
  /\ classify (Some (httpError 404 "salary record not found")) = NotFound
  /\ amortizedMonthlyPayment Exp Log 1e308 12 20 = infinity
  /\ handler steady r initial
     = (Returned tt,
        {| w := noDocument "req-1";
           sent := 3;
           trace := trace (snd (salaryOf steady "00000000")) |})
  /\ written (w (exec (handler steady r) initial)) = []
  /\ status (w (exec (handler steady r) initial)) = None.
Proof. repeat split. Qed.

Lemma credit_not_found_declines_witness :
  handler noBureau (post "application A") initial =
  (Returned tt,
   {| w := jsonResponse "req-1" StatusOK
             (JsonLoan (partialDecline "Credit record not found" 4631.73 20
                          (Some salaryA) applicationA));
      sent := 4;
      trace :=
        trace (snd (creditOf noBureau "12345678" (snd (salaryOf noBureau "12345678")))) |}).
Proof.
  refine (proj1 (credit_not_found_declines Exp Log ParseFloat validURL decodeLoanRequest
                   decodeSalaryResponse decodeCreditResponse noBureau
                   (post "application A") applicationA salaryA
                   CreditResponse.zero (httpError 404 "credit record not found")
                   (snd (salaryOf noBureau "12345678"))
                   (snd (creditOf noBureau "12345678" (snd (salaryOf noBureau "12345678"))))
                   _ _ _ _) _).
  - repeat split.
  - reflexivity.
  - reflexivity.
  - reflexivity.
  - reflexivity.
Defined.

(** The same application from a person the salary service knows and the
    credit bureau does not: the salary lookup succeeds, the credit lookup
    returns NotFound, and the handler returns with nothing written. *)
Lemma credit_not_found_with_infinite_payment :
  let r := post "application A for 1e308" in
  let s1 := snd (salaryOf noBureau "12345678") in
  validated decodeLoanRequest noBureau r hugeA
  /\ salaryOf noBureau "12345678" = (Returned (salaryA, None), s1)
  /\ creditOf noBureau "12345678" s1
     = (Returned (CreditResponse.zero, Some (httpError 404 "credit record not found")),
        snd (creditOf noBureau "12345678" s1))
  /\ classify (Some (httpError 404 "credit record not found")) = NotFound
  /\ amortizedMonthlyPayment Exp Log 1e308 12 20 = infinity
  /\ handler noBureau r initial
     = (Returned tt,
        {| w := noDocument "req-1";
           sent := 4;
           trace := trace (snd (creditOf noBureau "12345678" s1)) |})
  /\ written (w (exec (handler noBureau r) initial)) = []
  /\ status (w (exec (handler noBureau r) initial)) = None.
Proof. repeat split. Qed.

(** The document's example: the premises of the formula hold at
    (50000, 12, 20), and the payment there is not 4632.27. *)
Lemma payment_50000_12_20_is_not_4632_27 :
  (0 <? 50000)%float = true /\ (0 < 12)%Z /\ (spec_monthlyRate 20 =? 0)%float = false
  /\ forall Exp Log : float -> float,
       amortizedMonthlyPayment Exp Log 50000 12 20 <> 4632.27%float.
Proof.
  repeat split. intros E L. rewrite payment_50000_12_20.
  apply neq_of_eqb_false; reflexivity.
Qed.

Lemma payment_is_amortizing_formula_witness :
  amortizedMonthlyPayment Exp Log 50000 12 20 = spec_amortized Exp Log 50000 12 20.
Proof.
  apply (proj1 (payment_is_amortizing_formula Exp Log 50000 12 20)).
  - reflexivity.
  - lia.
  - reflexivity.
Defined.

Lemma payment_zero_inputs_and_zero_rate_witness :
  amortizedMonthlyPayment Exp Log (-100) 12 20 = 0%float
  /\ amortizedMonthlyPayment Exp Log 1000 3 0 = spec_straight_line 1000 3.
Proof.
  split.
  - apply (proj1 (payment_zero_inputs_and_zero_rate Exp Log (-100) 12 20)).
    right. reflexivity.
  - apply (proj1 (proj2 (proj2 (proj2
             (payment_zero_inputs_and_zero_rate Exp Log 1000 3 0))))).
    + lia.
    + reflexivity.
    + reflexivity.
Defined.

(** A GET with a valid body, received by a service without its upstream
    locations, is answered 405, not 500. *)
Lemma get_without_configuration_is_405 :
  Getenv unconfigured "SALARY_API_URL" = ""
  /\ validBody decodeLoanRequest (get "application A") applicationA
  /\ status (w (exec (handler unconfigured (get "application A")) initial))
     = Some StatusMethodNotAllowed
  /\ written (w (exec (handler unconfigured (get "application A")) initial))
     = [Text ("Only POST requests allowed" ++ newline)].
Proof. repeat split. Qed.

Lemma config_error_after_validation_witness :
  status (w (exec (handler unconfigured (post "empty object")) initial)) = Some StatusBadRequest
  /\ exec (handler unconfigured (post "application A")) initial
     = {| w := jsonResponse "req-1" StatusInternalServerError
                 (JsonMap [("error", "config_error");
                           ("message", "Service URLs not configured");
                           ("request_id", "req-1")]);
          sent := 0;
          trace := [] |}.
Proof.
  split.
  - apply (proj1 (config_error_after_validation Exp Log ParseFloat validURL decodeLoanRequest
                    decodeSalaryResponse decodeCreditResponse unconfigured
                    (post "empty object") eq_refl)).
    left. reflexivity.
  - apply (proj2 (config_error_after_validation Exp Log ParseFloat validURL decodeLoanRequest
                    decodeSalaryResponse decodeCreditResponse unconfigured
                    (post "application A") eq_refl) applicationA).
    + repeat split.
    + left. reflexivity.
Defined.

Lemma unparsable_rate_is_the_default_witness :
  annualRateOf ParseFloat badRate = 20%float
  /\ handler badRate (post "application A") initial
     = handler (unsetenv "ANNUAL_INTEREST_PERCENT" badRate) (post "application A") initial.
Proof.
  destruct (unparsable_rate_is_the_default Exp Log ParseFloat validURL decodeLoanRequest
              decodeSalaryResponse decodeCreditResponse badRate (post "application A"))
    as [Hrate Hsame].
  - reflexivity.
  - split; [exact Hrate | apply Hsame].
Defined.
End ScenarioRuns.

(* ===================================================================== *)
(** ** The retry helpers for any number of attempts                      *)
(* ===================================================================== *)

Lemma Forall_lookupEvent_retried (req : OutRequest) (n : nat) :
  Forall (lookupEvent req) (List.concat (repeat [HTTPDo req; Sleep delay] n)).
Proof.
  induction n as [| n IH]; cbn; [constructor |].
  constructor; [now left |]. constructor; [now right | exact IH].
Qed.

Section RetryCases.
Context {A : Type} (zero : A) (wd : World) (req : OutRequest).
Variable outcome : DoResult -> A * option error.
Variable fn : M (A * option error).
Variable sleep : Z.
Hypothesis fn_run :
  forall s, fn s = (Returned (outcome (Do wd (sent s) req)), attempted req s).

(** Among the next [n] answers of the network there is a first one that
    makes the call succeed, or all of them make it fail. *)
Lemma first_success_or_none (k0 n : nat) :
  (exists j v, j < n
     /\ (forall i, i < j -> attemptFails outcome wd req (k0 + i))
     /\ outcome (Do wd (k0 + j) req) = (v, None))
  \/ (forall i, i < n -> attemptFails outcome wd req (k0 + i)).
Proof.
  induction n as [| n [(j & v & Hj & Hfail & Hok) | Hall]].
  - right. intros i Hi. lia.
  - left. exists j, v. repeat split; auto.
  - destruct (outcome (Do wd (k0 + n) req)) as [v [e |]] eqn:Hn.
    + right. intros i Hi. destruct (Nat.eq_dec i n) as [-> | Hne].
      * unfold attemptFails. rewrite Hn. discriminate.
      * apply Hall. lia.
    + left. exists n, v. repeat split; auto.
Qed.

Lemma retried_zero (s : State) : retried req sleep 0 s = s.
Proof. apply state_eq; cbn; [reflexivity | lia | apply app_nil_r]. Qed.

(** The loop, whatever the number of iterations. *)
Lemma retryLoop_cases (n : nat) (s : State) (err0 : option error) :
  (exists j v, j < n
     /\ (forall i, i < j -> attemptFails outcome wd req (sent s + i))
     /\ outcome (Do wd (sent s + j) req) = (v, None)
     /\ retryLoop zero fn sleep n err0 s
        = (Returned (v, None), attempted req (retried req sleep j s)))
  \/ ((forall i, i < n -> attemptFails outcome wd req (sent s + i))
      /\ retryLoop zero fn sleep n err0 s
         = (Returned (zero, match n with
                            | O => err0
                            | S m => snd (outcome (Do wd (sent s + m) req))
                            end),
            retried req sleep n s)).
Proof.
  destruct (first_success_or_none (sent s) n) as [(j & v & Hj & Hfail & Hok) | Hall].
  - left. exists j, v. repeat split; auto.
    now apply (retryLoop_first_success zero wd req outcome fn sleep fn_run).
  - right. split; [exact Hall |]. destruct n as [| m].
    + cbn [retryLoop]. unfold ret. now rewrite retried_zero.
    + now apply (retryLoop_exhausted zero wd req outcome fn sleep fn_run).
Qed.
End RetryCases.

Ltac classify_cases :=
  repeat match goal with
         | |- _ /\ _ => split
         | |- _ <-> _ => split
         | |- forall _, _ => intro
         | |- ~ _ => intro
         | H : exists _, _ |- _ => destruct H
         | H : _ /\ _ |- _ => destruct H
         | H : DoResponse _ _ = DoResponse _ _ |- _ => inversion H; clear H; subst
         | H : DoError _ = DoError _ |- _ => inversion H; clear H; subst
         end;
  try discriminate; try congruence; eauto.

Section ClientCases.
Variable validURL : string -> bool.
Variable decodeSalaryResponse : string -> string + SalaryResponse.t.
Variable decodeCreditResponse : string -> string + CreditResponse.t.
Local Abbreviation salaryCall := (callSalaryAPI validURL decodeSalaryResponse).
Local Abbreviation creditCall := (callCreditAPI validURL decodeCreditResponse).
Local Abbreviation salaryLookup := (lookupSalary validURL decodeSalaryResponse).
Local Abbreviation creditLookup := (lookupCredit validURL decodeCreditResponse).

(** X1: with [attempts <= 0] a retry helper does not call [fn] at all and
    returns the zero value with a nil error: the caller sees a success. *)
Theorem no_attempts_is_a_silent_success
    (attempts sleep : Z)
    (fnSalary : M (SalaryResponse.t * option error))
    (fnCredit : M (CreditResponse.t * option error)) (s : State) :
  (attempts <= 0)%Z ->
  withRetrySalary attempts sleep fnSalary s = (Returned (SalaryResponse.zero, None), s)
  /\ withRetryCredit attempts sleep fnCredit s = (Returned (CreditResponse.zero, None), s).
Proof.
  intros Hle. unfold withRetrySalary, withRetryCredit.
  replace (Z.to_nat attempts) with 0 by lia. split; reflexivity.
Qed.

(** X2: for any positive number of attempts and any sleep, a retry helper
    around an upstream call whose request can be built (the URL parses)
    ends in one of two ways.  Either some attempt [j] is the first to
    succeed: its fact is returned after [j + 1] requests and [j] sleeps.
    Or all [attempts] requests fail: the zero value and the error of the
    last one are returned, after [attempts] requests and as many sleeps,
    the last sleep coming after the last failure.  Never is a request made
    beyond [attempts].  When the request cannot be built, the helper
    panics with the first call, nothing sent. *)
Theorem retry_ends_at_first_success_or_exhaustion
    (wd : World) (baseURL nationalID reqID : string) (attempts sleep : Z) (s : State) :
  (0 < attempts)%Z ->
  let n := Z.to_nat attempts in
  let sreq := upstreamRequest (baseURL ++ "/verify-salary") nationalID reqID in
  let creq := upstreamRequest (baseURL ++ "/check-credit") nationalID reqID in
  let salaryRun :=
    withRetrySalary attempts sleep (salaryCall wd baseURL nationalID reqID) s in
  let creditRun :=
    withRetryCredit attempts sleep (creditCall wd baseURL nationalID reqID) s in
  (validURL (URL sreq) = true ->
     (exists j v, j < n
        /\ (forall i, i < j ->
              attemptFails (salaryOutcome decodeSalaryResponse) wd sreq (sent s + i))
        /\ salaryOutcome decodeSalaryResponse (Do wd (sent s + j) sreq) = (v, None)
        /\ salaryRun = (Returned (v, None), attempted sreq (retried sreq sleep j s)))
     \/ ((forall i, i < n ->
            attemptFails (salaryOutcome decodeSalaryResponse) wd sreq (sent s + i))
         /\ salaryRun
            = (Returned
                 (SalaryResponse.zero,
                  snd (salaryOutcome decodeSalaryResponse (Do wd (sent s + (n - 1)) sreq))),
               retried sreq sleep n s)))
  /\ (validURL (URL sreq) = false -> salaryRun = (Panicked nilDereference, s))
  /\ (validURL (URL creq) = true ->
        (exists j v, j < n
           /\ (forall i, i < j ->
                 attemptFails (creditOutcome decodeCreditResponse) wd creq (sent s + i))
           /\ creditOutcome decodeCreditResponse (Do wd (sent s + j) creq) = (v, None)
           /\ creditRun = (Returned (v, None), attempted creq (retried creq sleep j s)))
        \/ ((forall i, i < n ->
               attemptFails (creditOutcome decodeCreditResponse) wd creq (sent s + i))
            /\ creditRun
               = (Returned
                    (CreditResponse.zero,
                     snd (creditOutcome decodeCreditResponse (Do wd (sent s + (n - 1)) creq))),
                  retried creq sleep n s)))
  /\ (validURL (URL creq) = false -> creditRun = (Panicked nilDereference, s)).
Proof.
  intros Hpos n sreq creq salaryRun creditRun.
  assert (Hn : exists m, n = S m) by (exists (n - 1); lia).
  destruct Hn as [m Hm].
  replace (n - 1) with m by lia.
  subst salaryRun creditRun. unfold withRetrySalary, withRetryCredit. fold n. rewrite Hm.
  cbn [URL upstreamRequest].
  split; [| split; [| split]]; intros Hurl.
  - apply (retryLoop_cases SalaryResponse.zero wd sreq (salaryOutcome decodeSalaryResponse)).
    intros s0. now apply callSalaryAPI_run.
  - apply retryLoop_panics. now apply callSalaryAPI_panics.
  - apply (retryLoop_cases CreditResponse.zero wd creq (creditOutcome decodeCreditResponse)).
    intros s0. now apply callCreditAPI_run.
  - apply retryLoop_panics. now apply callCreditAPI_panics.
Qed.

Lemma salaryOutcome_classified (answer : DoResult) :
  let result := salaryOutcome decodeSalaryResponse answer in
  (classify (snd result) = NotFound <-> exists body, answer = DoResponse StatusNotFound body)
  /\ (classify (snd result) = Success <->
      exists body, answer = DoResponse StatusOK body
                   /\ decodeSalaryResponse body = inr (fst result))
  /\ (snd result <> None -> fst result = SalaryResponse.zero)
  /\ (forall msg, answer = DoError msg -> snd result = Some (otherError msg))
  /\ (forall code body, answer = DoResponse code body -> code <> StatusOK ->
        snd result = Some (httpError code body)).
Proof.
  intros result. subst result. unfold salaryOutcome, classify, isNotFound.
  destruct answer as [msg | code body].
  - cbn. classify_cases.
  - destruct (code =? StatusOK)%Z eqn:Hcode.
    + apply Z.eqb_eq in Hcode. subst code.
      destruct (decodeSalaryResponse body) as [m | sr] eqn:Hdec; cbn; classify_cases.
    + apply Z.eqb_neq in Hcode. cbn.
      destruct (code =? StatusNotFound)%Z eqn:Hnf;
        [apply Z.eqb_eq in Hnf; subst code | apply Z.eqb_neq in Hnf]; classify_cases.
Qed.

Lemma creditOutcome_classified (answer : DoResult) :
  let result := creditOutcome decodeCreditResponse answer in
  (classify (snd result) = NotFound <-> exists body, answer = DoResponse StatusNotFound body)
  /\ (classify (snd result) = Success <->
      exists body, answer = DoResponse StatusOK body
                   /\ decodeCreditResponse body = inr (fst result))
  /\ (snd result <> None -> fst result = CreditResponse.zero)
  /\ (forall msg, answer = DoError msg -> snd result = Some (otherError msg))
  /\ (forall code body, answer = DoResponse code body -> code <> StatusOK ->
        snd result = Some (httpError code body)).
Proof.
  intros result. subst result. unfold creditOutcome, classify, isNotFound.
  destruct answer as [msg | code body].
  - cbn. classify_cases.
  - destruct (code =? StatusOK)%Z eqn:Hcode.
    + apply Z.eqb_eq in Hcode. subst code.
      destruct (decodeCreditResponse body) as [m | cr] eqn:Hdec; cbn; classify_cases.
    + apply Z.eqb_neq in Hcode. cbn.
      destruct (code =? StatusNotFound)%Z eqn:Hnf;
        [apply Z.eqb_eq in Hnf; subst code | apply Z.eqb_neq in Hnf]; classify_cases.
Qed.

(** X3: one upstream call, for the salary call and for the credit call
    alike.  When [url.Parse] rejects the URL, the call panics on the nil
    request and nothing is sent.  Otherwise exactly one request is sent, a
    POST, and what the client gives back is classified: the error is
    NotFound exactly when a response with status 404 came back; it is nil
    exactly when the status is 200 and the body decodes, and the fact
    returned is then the decoded body; a transport error, any other status
    and a 200 whose body does not decode are errors that are not NotFound;
    and with any error the fact returned is the zero value. *)
Theorem upstream_call_classification
    (wd : World) (baseURL nationalID reqID : string) (s : State) :
  let sreq := upstreamRequest (baseURL ++ "/verify-salary") nationalID reqID in
  let creq := upstreamRequest (baseURL ++ "/check-credit") nationalID reqID in
  let salaryAnswer := Do wd (sent s) sreq in
  let creditAnswer := Do wd (sent s) creq in
  let salaryRun := salaryCall wd baseURL nationalID reqID s in
  let creditRun := creditCall wd baseURL nationalID reqID s in
  OutMethod sreq = "POST" /\ OutMethod creq = "POST"
  /\ (validURL (URL sreq) = false -> salaryRun = (Panicked nilDereference, s))
  /\ (validURL (URL creq) = false -> creditRun = (Panicked nilDereference, s))
  /\ (validURL (URL sreq) = true ->
      exists salary,
        salaryRun = (Returned salary, attempted sreq s)
        /\ (classify (snd salary) = NotFound <->
              exists body, salaryAnswer = DoResponse StatusNotFound body)
        /\ (classify (snd salary) = Success <->
              exists body, salaryAnswer = DoResponse StatusOK body
                           /\ decodeSalaryResponse body = inr (fst salary))
        /\ (snd salary <> None -> fst salary = SalaryResponse.zero)
        /\ (forall msg, salaryAnswer = DoError msg -> snd salary = Some (otherError msg))
        /\ (forall code body, salaryAnswer = DoResponse code body -> code <> StatusOK ->
              snd salary = Some (httpError code body)))
  /\ (validURL (URL creq) = true ->
      exists credit,
        creditRun = (Returned credit, attempted creq s)
        /\ (classify (snd credit) = NotFound <->
              exists body, creditAnswer = DoResponse StatusNotFound body)
        /\ (classify (snd credit) = Success <->
              exists body, creditAnswer = DoResponse StatusOK body
                           /\ decodeCreditResponse body = inr (fst credit))
        /\ (snd credit <> None -> fst credit = CreditResponse.zero)
        /\ (forall msg, creditAnswer = DoError msg -> snd credit = Some (otherError msg))
        /\ (forall code body, creditAnswer = DoResponse code body -> code <> StatusOK ->
              snd credit = Some (httpError code body))).
Proof.
  intros sreq creq salaryAnswer creditAnswer salaryRun creditRun.
  subst salaryRun creditRun. cbn [URL OutMethod upstreamRequest sreq creq].
  split; [reflexivity |]. split; [reflexivity |].
  split; [apply callSalaryAPI_panics |]. split; [apply callCreditAPI_panics |].
  split; intros Hurl.
  - exists (salaryOutcome decodeSalaryResponse salaryAnswer).
    split; [now apply callSalaryAPI_run | apply salaryOutcome_classified].
  - exists (creditOutcome decodeCreditResponse creditAnswer).
    split; [now apply callCreditAPI_run | apply creditOutcome_classified].
Qed.

(** A lookup ends in one of three ways. *)
Lemma lookupSalary_cases (wd : World) (nationalID reqID : string) (s : State) :
  let req := salaryRequest wd nationalID reqID in
  (salaryURLParses validURL wd
   /\ exists j v, j < 3
        /\ salaryLookup wd nationalID reqID s
           = (Returned (v, None), attempted req (retried req delay j s)))
  \/ (salaryURLParses validURL wd
      /\ exists e, salaryLookup wd nationalID reqID s
                   = (Returned (SalaryResponse.zero, Some e), retried req delay 3 s))
  \/ (validURL (URL req) = false
      /\ salaryLookup wd nationalID reqID s = (Panicked nilDereference, s)).
Proof.
  intros req. unfold salaryURLParses.
  destruct (validURL (Getenv wd "SALARY_API_URL" ++ "/verify-salary")) eqn:Hurl.
  2:{ right. right. split; [exact Hurl | now apply lookupSalary_panics]. }
  unfold lookupSalary, withRetrySalary. change (Z.to_nat 3) with 3. fold delay.
  destruct (retryLoop_cases SalaryResponse.zero wd req (salaryOutcome decodeSalaryResponse)
              (salaryCall wd (Getenv wd "SALARY_API_URL") nationalID reqID)
              delay
              (fun s0 => callSalaryAPI_run validURL decodeSalaryResponse wd _ nationalID
                           reqID s0 Hurl)
              3 s None) as [(j & v & Hj & _ & _ & Hrun) | [Hall Hrun]].
  - left. split; [reflexivity |]. now exists j, v.
  - right. left. split; [reflexivity |].
    specialize (Hall 2 ltac:(lia)). unfold attemptFails in Hall.
    destruct (snd (salaryOutcome decodeSalaryResponse (Do wd (sent s + 2) req))) as [e |];
      [now exists e | now contradiction Hall].
Qed.

Lemma lookupCredit_cases (wd : World) (nationalID reqID : string) (s : State) :
  let req := creditRequest wd nationalID reqID in
  (creditURLParses validURL wd
   /\ exists j v, j < 3
        /\ creditLookup wd nationalID reqID s
           = (Returned (v, None), attempted req (retried req delay j s)))
  \/ (creditURLParses validURL wd
      /\ exists e, creditLookup wd nationalID reqID s
                   = (Returned (CreditResponse.zero, Some e), retried req delay 3 s))
  \/ (validURL (URL req) = false
      /\ creditLookup wd nationalID reqID s = (Panicked nilDereference, s)).
Proof.
  intros req. unfold creditURLParses.
  destruct (validURL (Getenv wd "CREDIT_API_URL" ++ "/check-credit")) eqn:Hurl.
  2:{ right. right. split; [exact Hurl | now apply lookupCredit_panics]. }
  unfold lookupCredit, withRetryCredit. change (Z.to_nat 3) with 3. fold delay.
  destruct (retryLoop_cases CreditResponse.zero wd req (creditOutcome decodeCreditResponse)
              (creditCall wd (Getenv wd "CREDIT_API_URL") nationalID reqID)
              delay
              (fun s0 => callCreditAPI_run validURL decodeCreditResponse wd _ nationalID
                           reqID s0 Hurl)
              3 s None) as [(j & v & Hj & _ & _ & Hrun) | [Hall Hrun]].
  - left. split; [reflexivity |]. now exists j, v.
  - right. left. split; [reflexivity |].
    specialize (Hall 2 ltac:(lia)). unfold attemptFails in Hall.
    destruct (snd (creditOutcome decodeCreditResponse (Do wd (sent s + 2) req))) as [e |];
      [now exists e | now contradiction Hall].
Qed.

(** What a lookup does to the state: the writer is left alone, at most 3
    requests are sent (at least one when the lookup returns, none when
    it panics), and every event added is a request to the one upstream
    or the sleep of the retry. *)
Lemma lookupSalary_effects (wd : World) (nationalID reqID : string) (s : State) :
  let run := salaryLookup wd nationalID reqID s in
  w (snd run) = w s
  /\ exists k added,
       k <= 3 /\ sent (snd run) = sent s + k /\ trace (snd run) = trace s ++ added
       /\ Forall (lookupEvent (salaryRequest wd nationalID reqID)) added
       /\ ((exists res, fst run = Returned res) -> 1 <= k /\ salaryURLParses validURL wd)
       /\ (forall msg, fst run = Panicked msg -> k = 0).
Proof.
  destruct (lookupSalary_cases wd nationalID reqID s)
    as [(Hurl & j & v & Hj & ->) | [(Hurl & e & ->) | (Hurl & ->)]];
    cbn [fst snd attempted retried w sent trace]; (split; [reflexivity |]).
  - exists (S j), (List.concat (repeat [HTTPDo (salaryRequest wd nationalID reqID); Sleep delay] j)
                   ++ [HTTPDo (salaryRequest wd nationalID reqID)]).
    split; [lia |]. split; [lia |]. split; [now rewrite app_assoc |].
    split; [| split; [intros _; split; [lia | exact Hurl] | intros msg H; discriminate H]].
    apply Forall_app. split; [apply Forall_lookupEvent_retried |].
    constructor; [now left | constructor].
  - exists 3, (List.concat (repeat [HTTPDo (salaryRequest wd nationalID reqID); Sleep delay] 3)).
    split; [lia |]. split; [lia |]. split; [reflexivity |].
    split; [apply Forall_lookupEvent_retried |].
    split; [intros _; split; [lia | exact Hurl] | intros msg H; discriminate H].
  - exists 0, []. split; [lia |]. split; [lia |]. split; [now rewrite app_nil_r |].
    split; [constructor |]. split; [intros [res H]; discriminate H | reflexivity].
Qed.

Lemma lookupCredit_effects (wd : World) (nationalID reqID : string) (s : State) :
  let run := creditLookup wd nationalID reqID s in
  w (snd run) = w s
  /\ exists k added,
       k <= 3 /\ sent (snd run) = sent s + k /\ trace (snd run) = trace s ++ added
       /\ Forall (lookupEvent (creditRequest wd nationalID reqID)) added
       /\ ((exists res, fst run = Returned res) -> 1 <= k /\ creditURLParses validURL wd)
       /\ (forall msg, fst run = Panicked msg -> k = 0).
Proof.
  destruct (lookupCredit_cases wd nationalID reqID s)
    as [(Hurl & j & v & Hj & ->) | [(Hurl & e & ->) | (Hurl & ->)]];
    cbn [fst snd attempted retried w sent trace]; (split; [reflexivity |]).
  - exists (S j), (List.concat (repeat [HTTPDo (creditRequest wd nationalID reqID); Sleep delay] j)
                   ++ [HTTPDo (creditRequest wd nationalID reqID)]).
    split; [lia |]. split; [lia |]. split; [now rewrite app_assoc |].
    split; [| split; [intros _; split; [lia | exact Hurl] | intros msg H; discriminate H]].
    apply Forall_app. split; [apply Forall_lookupEvent_retried |].
    constructor; [now left | constructor].
  - exists 3, (List.concat (repeat [HTTPDo (creditRequest wd nationalID reqID); Sleep delay] 3)).
    split; [lia |]. split; [lia |]. split; [reflexivity |].
    split; [apply Forall_lookupEvent_retried |].
    split; [intros _; split; [lia | exact Hurl] | intros msg H; discriminate H].
  - exists 0, []. split; [lia |]. split; [lia |]. split; [now rewrite app_nil_r |].
    split; [constructor |]. split; [intros [res H]; discriminate H | reflexivity].
Qed.
End ClientCases.

(* ===================================================================== *)
(** ** Integer formatting: properties                                    *)
(* ===================================================================== *)

Lemma formatBits_nonempty (fuel : nat) (u base : Z) (acc : string) :
  acc <> "" -> GoStrconv.formatBits fuel u base acc <> "".
Proof.
  revert u acc. induction fuel as [| fuel IH]; intros u acc Hacc; cbn; [exact Hacc |].
  destruct (u / base =? 0)%Z; [discriminate | apply IH; discriminate].
Qed.

Lemma FormatInt_nonempty (i base : Z) : GoStrconv.FormatInt i base <> "".
Proof.
  unfold GoStrconv.FormatInt. destruct (i <? 0)%Z; [discriminate |].
  change 64 with (S 63). generalize 63. intros fuel. cbn [GoStrconv.formatBits].
  destruct (i / base =? 0)%Z; [discriminate | apply formatBits_nonempty; discriminate].
Qed.

(* ===================================================================== *)
(** ** The handler on every request                                      *)
(* ===================================================================== *)

Section HandlerPaths.
Variables Exp Log : float -> float.
Variable ParseFloat : string -> option float.
Variable validURL : string -> bool.
Variable decodeLoanRequest : string -> option LoanRequest.t.
Variable decodeSalaryResponse : string -> string + SalaryResponse.t.
Variable decodeCreditResponse : string -> string + CreditResponse.t.

Local Abbreviation handler :=
  (loanHandler Exp Log ParseFloat validURL decodeLoanRequest decodeSalaryResponse
     decodeCreditResponse).
Local Abbreviation salaryLookup := (lookupSalary validURL decodeSalaryResponse).
Local Abbreviation creditLookup := (lookupCredit validURL decodeCreditResponse).
Local Abbreviation payment := (amortizedMonthlyPayment Exp Log).
Local Abbreviation rate := (annualRateOf ParseFloat).
Local Abbreviation monthlyOf wd request :=
  (payment (LoanRequest.LoanAmount request) (LoanRequest.TermMonths request) (rate wd)).

Lemma body_valid_or_not (r : Request) :
  invalidBody decodeLoanRequest r \/ exists request, validBody decodeLoanRequest r request.
Proof.
  unfold invalidBody, validBody.
  destruct (decodeLoanRequest (RequestBody r)) as [request |]; [| now left].
  destruct (String.eqb (LoanRequest.NationalID request) "") eqn:Hid; [now left; left |].
  destruct (LoanRequest.LoanAmount request <=? 0)%float eqn:Hamt; [now left; right; left |].
  destruct (LoanRequest.TermMonths request <=? 0)%Z eqn:Hterm; [now left; right; right |].
  right. now exists request.
Qed.

(** The run of a validated application one of whose lookups panicked. *)
Lemma salary_panic_run (wd : World) (r : Request) (request : LoanRequest.t)
    (msg : string) (s1 : State) :
  let reqID := getOrCreateReqID wd r in
  let id := LoanRequest.NationalID request in
  validated decodeLoanRequest wd r request ->
  salaryLookup wd id reqID (salaryPending wd reqID id) = (Panicked msg, s1) ->
  handler wd r initial = (Panicked msg, s1).
Proof.
  intros reqID id (Hm & (Hdec & Hid & Hamt & Hterm) & (Hsal & Hcred)) Hsalary.
  enter_handler Hm Hdec Hid Hamt Hterm Hsal Hcred.
  change (salaryLookup wd (LoanRequest.NationalID request) (getOrCreateReqID wd r) _)
    with (salaryLookup wd id reqID (salaryPending wd reqID id)).
  now rewrite Hsalary.
Qed.

Lemma credit_panic_run (wd : World) (r : Request) (request : LoanRequest.t)
    (salary : SalaryResponse.t) (msg : string) (s1 s2 : State) :
  let reqID := getOrCreateReqID wd r in
  let id := LoanRequest.NationalID request in
  validated decodeLoanRequest wd r request ->
  salaryLookup wd id reqID (salaryPending wd reqID id) = (Returned (salary, None), s1) ->
  creditLookup wd id reqID (creditPending wd reqID id s1) = (Panicked msg, s2) ->
  handler wd r initial = (Panicked msg, s2).
Proof.
  intros reqID id (Hm & (Hdec & Hid & Hamt & Hterm) & (Hsal & Hcred)) Hsalary Hcredit.
  enter_handler Hm Hdec Hid Hamt Hterm Hsal Hcred.
  change (salaryLookup wd (LoanRequest.NationalID request) (getOrCreateReqID wd r) _)
    with (salaryLookup wd id reqID (salaryPending wd reqID id)).
  rewrite Hsalary.
  change (creditLookup wd (LoanRequest.NationalID request) (getOrCreateReqID wd r) _)
    with (creditLookup wd id reqID (creditPending wd reqID id s1)).
  now rewrite Hcredit.
Qed.

(** Every run of the handler is one of eight: three that end before any
    lookup, a panic, an error or a fact from the salary lookup, and after a
    fact the same three from the credit lookup, the last being the
    decision. *)
Lemma loanHandler_paths (wd : World) (r : Request) :
  let reqID := getOrCreateReqID wd r in
  let run := handler wd r initial in
  (String.eqb (Method r) "POST" = false
   /\ run = (Returned tt,
             {| w := textResponse [] StatusMethodNotAllowed "Only POST requests allowed";
                sent := 0; trace := [] |}))
  \/ (Method r = "POST" /\ invalidBody decodeLoanRequest r
      /\ exists msg,
           run = (Returned tt,
                  {| w := textResponse [("X-Request-ID", reqID)] StatusBadRequest msg;
                     sent := 0; trace := [] |}))
  \/ exists request,
       Method r = "POST" /\ validBody decodeLoanRequest r request
       /\ let id := LoanRequest.NationalID request in
          ((Getenv wd "SALARY_API_URL" = "" \/ Getenv wd "CREDIT_API_URL" = "")
           /\ run = (Returned tt,
                     {| w := jsonResponse reqID StatusInternalServerError
                               (JsonMap [("error", "config_error");
                                         ("message", "Service URLs not configured");
                                         ("request_id", reqID)]);
                        sent := 0; trace := [] |}))
          \/ (configured wd
              /\ exists msg s1,
                   salaryLookup wd id reqID (salaryPending wd reqID id) = (Panicked msg, s1)
                   /\ run = (Panicked msg, s1))
          \/ (configured wd
              /\ exists v e s1,
                   salaryLookup wd id reqID (salaryPending wd reqID id)
                   = (Returned (v, Some e), s1)
                   /\ run = (Returned tt,
                             {| w := lookupFailure "salary" "Salary" reqID None
                                       (monthlyOf wd request) (rate wd) request e;
                                sent := sent s1; trace := trace s1 |}))
          \/ (configured wd
              /\ exists salary s1 msg s2,
                   salaryLookup wd id reqID (salaryPending wd reqID id)
                   = (Returned (salary, None), s1)
                   /\ creditLookup wd id reqID (creditPending wd reqID id s1)
                      = (Panicked msg, s2)
                   /\ run = (Panicked msg, s2))
          \/ (configured wd
              /\ exists salary s1 v e s2,
                   salaryLookup wd id reqID (salaryPending wd reqID id)
                   = (Returned (salary, None), s1)
                   /\ creditLookup wd id reqID (creditPending wd reqID id s1)
                      = (Returned (v, Some e), s2)
                   /\ run = (Returned tt,
                             {| w := lookupFailure "credit" "Credit" reqID (Some salary)
                                       (monthlyOf wd request) (rate wd) request e;
                                sent := sent s2; trace := trace s2 |}))
          \/ (configured wd
              /\ exists salary s1 credit s2,
                   salaryLookup wd id reqID (salaryPending wd reqID id)
                   = (Returned (salary, None), s1)
                   /\ creditLookup wd id reqID (creditPending wd reqID id s1)
                      = (Returned (credit, None), s2)
                   /\ run = (Returned tt,
                             {| w := decisionResponse reqID
                                       (spec_decide salary credit (monthlyOf wd request)
                                          (rate wd) request);
                                sent := sent s2;
                                trace := trace s2 ++
                                  [match spec_reasons salary credit (monthlyOf wd request) with
                                   | [] => LogApproved reqID id (monthlyOf wd request)
                                   | primary :: others =>
                                       LogDeclined reqID id (primary :: others)
                                         (monthlyOf wd request)
                                   end] |})).
Proof.
  intros reqID run.
  destruct (String.eqb (Method r) "POST") eqn:Hm.
  2:{ left. split; [reflexivity |]. subst run. unfold loanHandler. rewrite Hm.
      reflexivity. }
  apply String.eqb_eq in Hm. right.
  destruct (body_valid_or_not r) as [Hbad | [request Hok]].
  { left. split; [exact Hm |]. split; [exact Hbad |].
    subst run. unfold loanHandler. rewrite Hm.
    cbn [String.eqb Ascii.eqb Bool.eqb negb].
    unfold invalidBody in Hbad.
    destruct (decodeLoanRequest (RequestBody r)) as [request |].
    - assert (Hguard : String.eqb (LoanRequest.NationalID request) ""
                       || (LoanRequest.LoanAmount request <=? 0)%float
                       || (LoanRequest.TermMonths request <=? 0)%Z = true).
      { destruct Hbad as [-> | [-> | ->]]; rewrite ?orb_true_r; reflexivity. }
      rewrite Hguard. now exists "Missing or invalid fields".
    - now exists "Invalid request body". }
  right. exists request. split; [exact Hm |]. split; [exact Hok |].
  pose proof Hok as (Hdec & Hid & Hamt & Hterm). intros id.
  destruct (String.eqb (Getenv wd "SALARY_API_URL") "") eqn:Hsal.
  { left. apply String.eqb_eq in Hsal. split; [now left |].
    subst run. unfold loanHandler. rewrite Hm.
    cbn [String.eqb Ascii.eqb Bool.eqb negb].
    rewrite Hdec, Hid, Hamt, Hterm, Hsal. reflexivity. }
  destruct (String.eqb (Getenv wd "CREDIT_API_URL") "") eqn:Hcred.
  { left. apply String.eqb_eq in Hcred. split; [now right |].
    subst run. unfold loanHandler. rewrite Hm.
    cbn [String.eqb Ascii.eqb Bool.eqb negb].
    rewrite Hdec, Hid, Hamt, Hterm, Hcred, orb_true_r. reflexivity. }
  right.
  assert (Hconf : configured wd) by (split; assumption).
  assert (Hvalid : validated decodeLoanRequest wd r request) by (repeat split; assumption).
  destruct (salaryLookup wd id reqID (salaryPending wd reqID id))
    as [[[salary [e |]] | msg] s1] eqn:Hsalary.
  - right. left. split; [exact Hconf |]. exists salary, e, s1. split; [reflexivity |].
    exact (failed_salary_lookup_run Exp Log ParseFloat validURL decodeLoanRequest
             decodeSalaryResponse decodeCreditResponse wd r request _ _ _ Hvalid Hsalary).
  - right. right.
    destruct (creditLookup wd id reqID (creditPending wd reqID id s1))
      as [[[credit [e |]] | msg] s2] eqn:Hcredit.
    + right. left. split; [exact Hconf |]. exists salary, s1, credit, e, s2.
      split; [reflexivity |]. split; [exact Hcredit |].
      exact (failed_credit_lookup_run Exp Log ParseFloat validURL decodeLoanRequest
               decodeSalaryResponse decodeCreditResponse wd r request _ _ _ _ _
               Hvalid Hsalary Hcredit).
    + right. right. split; [exact Hconf |]. exists salary, s1, credit, s2.
      split; [reflexivity |]. split; [exact Hcredit |].
      exact (decision_run Exp Log ParseFloat validURL decodeLoanRequest
               decodeSalaryResponse decodeCreditResponse wd r request _ _ _ _
               Hvalid Hsalary Hcredit).
    + left. split; [exact Hconf |]. exists salary, s1, msg, s2.
      split; [reflexivity |]. split; [exact Hcredit |].
      exact (credit_panic_run wd r request _ _ _ _ Hvalid Hsalary Hcredit).
  - left. split; [exact Hconf |]. exists msg, s1. split; [reflexivity |].
    exact (salary_panic_run wd r request _ _ Hvalid Hsalary).
Qed.

Ltac handler_paths wd r :=
  let H := fresh "Hpaths" in
  pose proof (loanHandler_paths wd r) as H; cbv zeta in H;
  destruct H as
    [[?Hm ?Hrun]
    | [(?Hm & ?Hbad & ?msg & ?Hrun)
      | (?request & ?Hm & ?Hok &
         [[?Hunset ?Hrun]
         | [(?Hconf & ?msg & ?s1 & ?Hsalary & ?Hrun)
           | [(?Hconf & ?v & ?e & ?s1 & ?Hsalary & ?Hrun)
             | [(?Hconf & ?salary & ?s1 & ?msg & ?s2 & ?Hsalary & ?Hcredit & ?Hrun)
               | [(?Hconf & ?salary & ?s1 & ?v & ?e & ?s2 & ?Hsalary & ?Hcredit & ?Hrun)
                 | (?Hconf & ?salary & ?s1 & ?credit & ?s2 & ?Hsalary & ?Hcredit & ?Hrun)
                 ]]]]])]].

Lemma salaryLookup_sent (wd : World) (reqID id : string)
    (res : Result (SalaryResponse.t * option error)) (s1 : State) :
  salaryLookup wd id reqID (salaryPending wd reqID id) = (res, s1) ->
  sent s1 <= 3
  /\ ((exists v, res = Returned v) -> 1 <= sent s1 /\ salaryURLParses validURL wd)
  /\ ((exists msg, res = Panicked msg) -> sent s1 = 0)
  /\ exists added,
       trace s1 = LogCallingSalary reqID (Getenv wd "SALARY_API_URL") id :: added
       /\ Forall (lookupEvent (salaryRequest wd id reqID)) added.
Proof.
  intros H.
  destruct (lookupSalary_effects validURL decodeSalaryResponse wd id reqID
              (salaryPending wd reqID id))
    as (_ & k & added & Hk & Hsent & Htrace & Hall & Hret & Hpanic).
  rewrite H in Hsent, Htrace, Hret, Hpanic.
  cbn [fst snd sent trace salaryPending plus app] in Hsent, Htrace, Hret, Hpanic.
  split; [lia |]. split; [| split].
  - intros Hv. destruct (Hret Hv). split; [lia | assumption].
  - intros [msg Hmsg]. rewrite (Hpanic msg) in Hsent; [lia | now subst res].
  - now exists added.
Qed.

Lemma creditLookup_sent (wd : World) (reqID id : string)
    (res : Result (CreditResponse.t * option error)) (s1 s2 : State) :
  creditLookup wd id reqID (creditPending wd reqID id s1) = (res, s2) ->
  sent s1 <= sent s2 <= sent s1 + 3
  /\ ((exists v, res = Returned v) -> sent s1 + 1 <= sent s2 /\ creditURLParses validURL wd)
  /\ exists added,
       trace s2 = trace s1 ++ LogCallingCredit reqID (Getenv wd "CREDIT_API_URL") id :: added
       /\ Forall (lookupEvent (creditRequest wd id reqID)) added.
Proof.
  intros H.
  destruct (lookupCredit_effects validURL decodeCreditResponse wd id reqID
              (creditPending wd reqID id s1))
    as (_ & k & added & Hk & Hsent & Htrace & Hall & Hret & _).
  rewrite H in Hsent, Htrace, Hret.
  cbn [fst snd sent trace creditPending logged] in Hsent, Htrace, Hret.
  split; [lia |]. split.
  - intros Hv. destruct (Hret Hv). split; [lia | assumption].
  - exists added. split; [| exact Hall]. now rewrite Htrace, <- app_assoc.
Qed.

(** X4: whatever the request and whatever the upstreams do, the handler
    sends at most 6 upstream requests, and it sends none unless the request
    is a POST with a valid body and both upstream locations are set. *)
Theorem at_most_six_upstream_requests (wd : World) (r : Request) :
  let final := exec (handler wd r) initial in
  sent final <= 6
  /\ (0 < sent final ->
      Method r = "POST"
      /\ (exists request, validBody decodeLoanRequest r request)
      /\ configured wd).
Proof.
  intros final. subst final. unfold exec.
  handler_paths wd r; rewrite Hrun; cbn [snd sent];
    try (split; lia);
    pose proof (salaryLookup_sent _ _ _ _ _ Hsalary) as [Hs1 _];
    try pose proof (creditLookup_sent _ _ _ _ _ _ Hcredit) as [Hs2 _];
    (split; [lia |]); intros _;
    (split; [exact Hm | split; [now exists request | exact Hconf]]).
Qed.

Lemma reqID_nonempty (wd : World) (r : Request) : getOrCreateReqID wd r <> "".
Proof.
  unfold getOrCreateReqID.
  destruct (String.eqb_spec (Header_Get (RequestHeader r) "X-Request-ID") "") as [_ | Hne];
    [apply FormatInt_nonempty | exact Hne].
Qed.

Lemma decisionResponse_header (reqID : string) (resp : LoanResponse.t) :
  header (decisionResponse reqID resp)
  = [("X-Request-ID", reqID); ("Content-Type", "application/json")].
Proof. unfold decisionResponse. now destruct (encodable resp). Qed.

Lemma lookupFailure_header (which message reqID : string) (salary : option SalaryResponse.t)
    (monthly annualRate : float) (request : LoanRequest.t) (e : error) :
  header (lookupFailure which message reqID salary monthly annualRate request e)
  = [("X-Request-ID", reqID); ("Content-Type", "application/json")].
Proof.
  unfold lookupFailure. destruct (isNotFound e); [apply decisionResponse_header | reflexivity].
Qed.

(** X5: the correlation id.  It is never empty, and it is the client's
    [X-Request-ID] when the request has one.  Every response to a POST
    carries it in its [X-Request-ID] header, on the error paths too; the
    405 given to another method carries no such header. *)
Theorem correlation_id_on_every_post_response (wd : World) (r : Request) :
  let reqID := getOrCreateReqID wd r in
  let final := exec (handler wd r) initial in
  reqID <> ""
  /\ (Header_Get (RequestHeader r) "X-Request-ID" <> "" ->
      reqID = Header_Get (RequestHeader r) "X-Request-ID")
  /\ (Method r = "POST" -> Header_Get (header (w final)) "X-Request-ID" = reqID)
  /\ (Method r <> "POST" -> Header_Get (header (w final)) "X-Request-ID" = "").
Proof.
  intros reqID final. split; [apply reqID_nonempty |]. split.
  { intros Hne. subst reqID. unfold getOrCreateReqID.
    destruct (String.eqb_spec (Header_Get (RequestHeader r) "X-Request-ID") "");
      [contradiction | reflexivity]. }
  subst final. unfold exec.
  handler_paths wd r; rewrite Hrun; cbn [snd w]; split; intros Hmethod;
    try (apply String.eqb_neq in Hm; contradiction);
    try contradiction;
    rewrite ?lookupFailure_header, ?decisionResponse_header;
    try reflexivity.
  - now rewrite (salaryLookup_keeps_writer validURL decodeSalaryResponse _ _ _ _ _ Hsalary).
  - rewrite (creditLookup_keeps_writer validURL decodeCreditResponse _ _ _ _ _ _ Hcredit).
    now rewrite (salaryLookup_keeps_writer validURL decodeSalaryResponse _ _ _ _ _ Hsalary).
Qed.

Lemma lookup_request (target req : OutRequest) (added : list Event) :
  Forall (lookupEvent target) added -> In (HTTPDo req) added -> req = target.
Proof.
  intros Hall Hin. rewrite Forall_forall in Hall.
  destruct (Hall _ Hin) as [Heq | Heq]; [now inversion Heq | discriminate].
Qed.

(** X6: every request the handler sends upstream is one of two: the POST to
    the salary location or the POST to the credit location.  Either carries
    the correlation id of the inbound request in [X-Request-ID], the JSON
    content type and, as its body, the national id of the application. *)
Theorem upstream_requests_carry_the_correlation_id
    (wd : World) (r : Request) (req : OutRequest) :
  let reqID := getOrCreateReqID wd r in
  let final := exec (handler wd r) initial in
  In (HTTPDo req) (trace final) ->
  OutMethod req = "POST"
  /\ Header_Get (OutHeader req) "X-Request-ID" = reqID
  /\ Header_Get (OutHeader req) "Content-Type" = "application/json"
  /\ exists request,
       validBody decodeLoanRequest r request
       /\ OutBody req = [("national_id", LoanRequest.NationalID request)]
       /\ (URL req = (Getenv wd "SALARY_API_URL" ++ "/verify-salary")%string
           \/ URL req = (Getenv wd "CREDIT_API_URL" ++ "/check-credit")%string).
Proof.
  intros reqID final. subst final. unfold exec.
  assert (Hshape : forall request,
            validBody decodeLoanRequest r request ->
            req = salaryRequest wd (LoanRequest.NationalID request) reqID
            \/ req = creditRequest wd (LoanRequest.NationalID request) reqID ->
            OutMethod req = "POST"
            /\ Header_Get (OutHeader req) "X-Request-ID" = reqID
            /\ Header_Get (OutHeader req) "Content-Type" = "application/json"
            /\ exists request0,
                 validBody decodeLoanRequest r request0
                 /\ OutBody req = [("national_id", LoanRequest.NationalID request0)]
                 /\ (URL req = (Getenv wd "SALARY_API_URL" ++ "/verify-salary")%string
                     \/ URL req = (Getenv wd "CREDIT_API_URL" ++ "/check-credit")%string)).
  { intros request Hvalid [-> | ->];
      (split; [reflexivity |]); (split; [reflexivity |]); (split; [reflexivity |]);
      exists request; (split; [exact Hvalid |]); (split; [reflexivity |]);
      [now left | now right]. }
  handler_paths wd r; rewrite Hrun; cbn [snd trace]; intros Hin;
    try (now destruct Hin);
    destruct (salaryLookup_sent _ _ _ _ _ Hsalary) as (_ & _ & _ & addedS & HtS & HallS);
    try (destruct (creditLookup_sent _ _ _ _ _ _ Hcredit) as (_ & _ & addedC & HtC & HallC);
         rewrite HtC in Hin);
    rewrite HtS in Hin;
    repeat (rewrite in_app_iff in Hin || cbn [In] in Hin);
    repeat match goal with
           | H : _ \/ _ |- _ => destruct H
           | H : False |- _ => destruct H
           | H : match ?x with _ => _ end = HTTPDo _ |- _ => destruct x
           end;
    try discriminate;
    apply (Hshape request Hok);
    solve [left; eapply lookup_request; eassumption
          | right; eapply lookup_request; eassumption].
Qed.

(** X7: when the salary lookup of a validated application returns an
    error, of either kind and after whatever sequence of attempts, the
    credit upstream is left alone: the handler sends between 1 and 3
    requests, and after the log line of the salary call its trace holds
    nothing but requests to the salary location and the sleeps of the
    retry. *)
Theorem credit_untouched_when_salary_fails
    (wd : World) (r : Request) (request : LoanRequest.t)
    (v : SalaryResponse.t) (e : error) (s1 : State) :
  let reqID := getOrCreateReqID wd r in
  let id := LoanRequest.NationalID request in
  let final := exec (handler wd r) initial in
  validated decodeLoanRequest wd r request ->
  salaryLookup wd id reqID (salaryPending wd reqID id) = (Returned (v, Some e), s1) ->
  1 <= sent final <= 3
  /\ exists added,
       trace final = LogCallingSalary reqID (Getenv wd "SALARY_API_URL") id :: added
       /\ Forall (lookupEvent (salaryRequest wd id reqID)) added.
Proof.
  intros reqID id final Hvalid Hsalary. subst final. unfold exec.
  rewrite (failed_salary_lookup_run Exp Log ParseFloat validURL decodeLoanRequest
             decodeSalaryResponse decodeCreditResponse wd r request v e s1 Hvalid Hsalary).
  cbn [snd sent trace].
  destruct (salaryLookup_sent _ _ _ _ _ Hsalary) as (Hle & Hret & _ & Hadded).
  destruct Hret as [Hge _]; [now eexists |]. split; [lia | exact Hadded].
Qed.

(** X8: an infrastructure failure has its own envelope.  When the lookup
    of a validated application returns an error that is not a 404, be it
    the salary lookup or, after a salary fact was resolved, the credit
    lookup, the answer is 502 with the JSON object of [error] (the service
    that failed), [message], [detail] (the text of the error) and
    [request_id]; nothing is decided and nothing more is sent. *)
Theorem unavailable_upstream_is_bad_gateway
    (wd : World) (r : Request) (request : LoanRequest.t) :
  let reqID := getOrCreateReqID wd r in
  let id := LoanRequest.NationalID request in
  let run := handler wd r initial in
  validated decodeLoanRequest wd r request ->
  (forall v e s1,
     salaryLookup wd id reqID (salaryPending wd reqID id) = (Returned (v, Some e), s1) ->
     classify (Some e) = Unavailable ->
     run = (Returned tt,
            {| w := jsonResponse reqID StatusBadGateway
                      (JsonMap [("error", "salary_service_unavailable");
                                ("message", "Failed to verify salary");
                                ("detail", Error e);
                                ("request_id", reqID)]);
               sent := sent s1; trace := trace s1 |}))
  /\ (forall salary s1 v e s2,
        salaryLookup wd id reqID (salaryPending wd reqID id)
        = (Returned (salary, None), s1) ->
        creditLookup wd id reqID (creditPending wd reqID id s1)
        = (Returned (v, Some e), s2) ->
        classify (Some e) = Unavailable ->
        run = (Returned tt,
               {| w := jsonResponse reqID StatusBadGateway
                         (JsonMap [("error", "credit_service_unavailable");
                                   ("message", "Failed to verify credit");
                                   ("detail", Error e);
                                   ("request_id", reqID)]);
                  sent := sent s2; trace := trace s2 |})).
Proof.
  intros reqID id run Hvalid. subst run. split.
  - intros v e s1 Hsalary Hclass.
    rewrite (failed_salary_lookup_run Exp Log ParseFloat validURL decodeLoanRequest
               decodeSalaryResponse decodeCreditResponse wd r request v e s1 Hvalid Hsalary).
    unfold lookupFailure. now rewrite (classified_unavailable e Hclass).
  - intros salary s1 v e s2 Hsalary Hcredit Hclass.
    rewrite (failed_credit_lookup_run Exp Log ParseFloat validURL decodeLoanRequest
               decodeSalaryResponse decodeCreditResponse wd r request salary v e s1 s2
               Hvalid Hsalary Hcredit).
    unfold lookupFailure. now rewrite (classified_unavailable e Hclass).
Qed.

Lemma spec_decide_shape (salary : SalaryResponse.t) (credit : CreditResponse.t)
    (monthly annualRate : float) (request : LoanRequest.t) :
  let resp := spec_decide salary credit monthly annualRate request in
  (LoanResponse.Status resp = "APPROVED" /\ LoanResponse.Reasons resp = []
   /\ LoanResponse.Reason resp = ""
   /\ LoanResponse.SalaryEcho resp <> None /\ LoanResponse.CreditEcho resp <> None)
  \/ (LoanResponse.Status resp = "DECLINED" /\ LoanResponse.Reasons resp <> []
      /\ Some (LoanResponse.Reason resp) = head (LoanResponse.Reasons resp)).
Proof.
  unfold spec_decide. destruct (spec_reasons salary credit monthly); cbn.
  - left. repeat split; discriminate.
  - right. repeat split; discriminate.
Qed.

Lemma spec_decide_echo (salary : SalaryResponse.t) (credit : CreditResponse.t)
    (monthly annualRate : float) (request : LoanRequest.t) :
  let resp := spec_decide salary credit monthly annualRate request in
  LoanResponse.MonthlyPayment resp = monthly
  /\ LoanResponse.AnnualInterest resp = annualRate
  /\ LoanResponse.ApplicationEcho resp = Some request.
Proof. unfold spec_decide. now destruct (spec_reasons salary credit monthly). Qed.

Lemma partialDecline_shape (monthly annualRate : float) (request : LoanRequest.t)
    (reason : string) (salary : option SalaryResponse.t) :
  decisionShape monthly annualRate request
    (partialDecline reason monthly annualRate salary request).
Proof.
  unfold decisionShape. cbn. repeat split. right. repeat split. discriminate.
Qed.

Lemma decision_shape (monthly annualRate : float) (request : LoanRequest.t)
    (salary : SalaryResponse.t) (credit : CreditResponse.t) :
  decisionShape monthly annualRate request
    (spec_decide salary credit monthly annualRate request).
Proof.
  unfold decisionShape.
  destruct (spec_decide_echo salary credit monthly annualRate request) as (-> & -> & ->).
  repeat split. apply spec_decide_shape.
Qed.



(** X19: a location that is set but is not a URL.  For a validated
    application the handler panics on the nil request: at the salary call
    when [SALARY_API_URL] does not parse, nothing sent and nothing written;
    at the credit call, after a salary lookup that returned a fact, when
    [CREDIT_API_URL] does not parse, nothing sent to the credit location
    and nothing written. *)
Theorem unparsable_location_panics
    (wd : World) (r : Request) (request : LoanRequest.t) :
  let reqID := getOrCreateReqID wd r in
  let id := LoanRequest.NationalID request in
  let run := handler wd r initial in
  validated decodeLoanRequest wd r request ->
  (validURL (Getenv wd "SALARY_API_URL" ++ "/verify-salary") = false ->
     run = (Panicked nilDereference, salaryPending wd reqID id))
  /\ (forall salary s1,
        salaryLookup wd id reqID (salaryPending wd reqID id)
        = (Returned (salary, None), s1) ->
        validURL (Getenv wd "CREDIT_API_URL" ++ "/check-credit") = false ->
        run = (Panicked nilDereference, creditPending wd reqID id s1)
        /\ w s1 = idOnly reqID).
Proof.
  intros reqID id run Hvalid. subst run. split.
  - intros Hurl. apply (salary_panic_run wd r request _ _ Hvalid).
    now apply lookupSalary_panics.
  - intros salary s1 Hsalary Hurl. split.
    + apply (credit_panic_run wd r request salary _ s1 _ Hvalid Hsalary).
      now apply lookupCredit_panics.
    + exact (salaryLookup_keeps_writer validURL decodeSalaryResponse _ _ _ _ _ Hsalary).
Qed.

Lemma shape_not_encodable (monthly annualRate : float) (request : LoanRequest.t)
    (resp : LoanResponse.t) :
  decisionShape monthly annualRate request resp ->
  isFinite monthly = false \/ isFinite annualRate = false
  \/ isFinite (LoanRequest.LoanAmount request) = false ->
  encodable resp = false.
Proof.
  intros (HM & HA & HE & _) Hnot. unfold encodable. rewrite HM, HA, HE.
  destruct Hnot as [-> | [-> | ->]]; rewrite ?andb_false_r; reflexivity.
Qed.

(** X20: numbers JSON cannot carry.  When the payment computed for a
    validated application, the rate in force or the amount asked for is
    NaN or an infinity, no loan decision is ever written: the handler ends
    with nothing written and no status (a decision or a decline went to
    the encoder, which refused it, or the handler panicked), or with the
    502 envelope of an unavailable upstream. *)
Theorem no_decision_written_without_finite_numbers
    (wd : World) (r : Request) (request : LoanRequest.t) :
  let run := handler wd r initial in
  let final := snd run in
  validated decodeLoanRequest wd r request ->
  isFinite (monthlyOf wd request) = false \/ isFinite (rate wd) = false
  \/ isFinite (LoanRequest.LoanAmount request) = false ->
  (written (w final) = [] /\ status (w final) = None)
  \/ (fst run = Returned tt
      /\ status (w final) = Some StatusBadGateway
      /\ exists fields, written (w final) = [JsonMap fields]).
Proof.
  intros run final Hvalid Hnot. subst final run.
  set (reqID := getOrCreateReqID wd r).
  set (id := LoanRequest.NationalID request).
  assert (Hrefused : forall reason salary,
            decisionResponse reqID
              (partialDecline reason (monthlyOf wd request) (rate wd) salary request)
            = noDocument reqID).
  { intros reason salary. apply decisionResponse_refused.
    exact (shape_not_encodable _ _ request _ (partialDecline_shape _ _ request _ _) Hnot). }
  destruct (salaryLookup wd id reqID (salaryPending wd reqID id))
    as [[[salary [e |]] | msg] s1] eqn:Hsalary.
  - rewrite (failed_salary_lookup_run Exp Log ParseFloat validURL decodeLoanRequest
               decodeSalaryResponse decodeCreditResponse wd r request _ _ _ Hvalid Hsalary).
    unfold lookupFailure. destruct (isNotFound e).
    + fold reqID. rewrite Hrefused. now left.
    + right. cbn. split; [reflexivity |]. split; [reflexivity |]. now eexists.
  - destruct (creditLookup wd id reqID (creditPending wd reqID id s1))
      as [[[credit [e |]] | msg] s2] eqn:Hcredit.
    + rewrite (failed_credit_lookup_run Exp Log ParseFloat validURL decodeLoanRequest
                 decodeSalaryResponse decodeCreditResponse wd r request _ _ _ _ _
                 Hvalid Hsalary Hcredit).
      unfold lookupFailure. destruct (isNotFound e).
      * fold reqID. rewrite Hrefused. now left.
      * right. cbn. split; [reflexivity |]. split; [reflexivity |]. now eexists.
    + rewrite (decision_run Exp Log ParseFloat validURL decodeLoanRequest
                 decodeSalaryResponse decodeCreditResponse wd r request _ _ _ _
                 Hvalid Hsalary Hcredit).
      fold reqID. rewrite decisionResponse_refused; [now left |].
      exact (shape_not_encodable _ _ request _ (decision_shape _ _ request _ _) Hnot).
    + rewrite (credit_panic_run wd r request _ _ _ _ Hvalid Hsalary Hcredit). cbn [snd].
      rewrite (creditLookup_keeps_writer validURL decodeCreditResponse _ _ _ _ _ _ Hcredit).
      cbn [creditPending logged w].
      rewrite (salaryLookup_keeps_writer validURL decodeSalaryResponse _ _ _ _ _ Hsalary).
      now left.
  - rewrite (salary_panic_run wd r request _ _ Hvalid Hsalary). cbn [snd].
    rewrite (salaryLookup_keeps_writer validURL decodeSalaryResponse _ _ _ _ _ Hsalary).
    now left.
Qed.
End HandlerPaths.

(** X10: the approval criterion.  No reason is given exactly when the
    salary is not below three times the payment, the score is at least 600,
    there is no active default and there are at most 3 active loans.  The
    salary test is the float comparison of the code: a salary that is not a
    number is not below anything. *)
Theorem no_reason_iff_all_four_rules_pass
    (salary : SalaryResponse.t) (credit : CreditResponse.t) (monthly : float) :
  decisionRules salary credit monthly = []
  <-> (SalaryResponse.MonthlySalary salary <? 3 * monthly)%float = false
      /\ (600 <= CreditResponse.CreditScore credit)%Z
      /\ (CreditResponse.ActiveDefaults credit <= 0)%Z
      /\ (CreditResponse.ActiveLoans credit <= 3)%Z.
Proof.
  unfold decisionRules. split.
  - intros H.
    destruct (SalaryResponse.MonthlySalary salary <? 3 * monthly)%float;
      destruct (Z.ltb_spec (CreditResponse.CreditScore credit) 600);
      destruct (Z.gtb_spec (CreditResponse.ActiveDefaults credit) 0);
      destruct (Z.gtb_spec (CreditResponse.ActiveLoans credit) 3);
      cbn in H; try discriminate H.
    split; [reflexivity |]. split; [assumption |]. split; assumption.
  - intros (H1 & H2 & H3 & H4). rewrite H1.
    destruct (Z.ltb_spec (CreditResponse.CreditScore credit) 600); [lia |].
    destruct (Z.gtb_spec (CreditResponse.ActiveDefaults credit) 0); [lia |].
    destruct (Z.gtb_spec (CreditResponse.ActiveLoans credit) 3); [lia |].
    reflexivity.
Qed.

(* ===================================================================== *)
(** ** The mock services: properties                                     *)
(* ===================================================================== *)

Lemma Header_Get_Set_same (h : Header) (key value : string) :
  Header_Get (Header_Set h key value) key = value.
Proof.
  unfold Header_Set, Header_Del.
  induction h as [| [k v] h IH]; cbn.
  - now rewrite String.eqb_refl.
  - destruct (String.eqb k key) eqn:Hk; cbn; [exact IH |]. now rewrite Hk.
Qed.

Lemma Header_Get_Set_other (h : Header) (key key' value : string) :
  String.eqb key key' = false ->
  Header_Get (Header_Set h key value) key' = Header_Get h key'.
Proof.
  intros Hne. unfold Header_Set, Header_Del.
  induction h as [| [k v] h IH]; cbn.
  - now rewrite Hne.
  - destruct (String.eqb k key) eqn:Hk; cbn.
    + apply String.eqb_eq in Hk. subst k. now rewrite Hne.
    + destruct (String.eqb k key'); [reflexivity | exact IH].
Qed.

Lemma echoRequestID_header (r : Request) :
  Header_Get (Mock.header (Mock.echoRequestID Mock.fresh r)) "X-Request-ID"
  = Header_Get (RequestHeader r) "X-Request-ID".
Proof.
  unfold Mock.echoRequestID.
  destruct (String.eqb_spec (Header_Get (RequestHeader r) "X-Request-ID") "") as [-> | Hne];
    cbn; reflexivity.
Qed.

(** Every record of the credit table is filed under its own national id. *)
Lemma creditData_keys (id : string) (record : CreditResponse.t) :
  GoMap.get CreditService.creditData id = Some record ->
  CreditResponse.NationalID record = id.
Proof.
  unfold CreditService.creditData. cbn [GoMap.get].
  repeat match goal with
         | |- context [String.eqb ?k id] => destruct (String.eqb_spec k id)
         end; intros H; inversion H; subst; reflexivity.
Qed.

Arguments GoMap.get : simpl never.

Ltac refute :=
  repeat match goal with
         | H : _ /\ _ |- _ => destruct H
         | H : exists _, _ |- _ => destruct H
         | H : Some _ = Some _ |- _ => inversion H; clear H; subst
         end;
  try contradiction; try discriminate; try congruence.

Section MockFacts.
Variable decodeRequest : string -> option string.

Local Abbreviation asks := (asksFor decodeRequest).

(** X11: the salary service.  It answers 200 exactly to a POST whose body
    decodes to a non-empty national id found in its table, and the record
    sent carries that id and the salary of the table; it answers 404
    exactly to such a POST for an id that is not in the table.  Whatever
    the answer, it is one JSON document, and the [X-Request-ID] header of
    the response is that of the request, absent when the request had none. *)
Theorem salary_service_answers (r : Request) :
  let w := SalaryService.verifySalaryHandler decodeRequest Mock.fresh r in
  (Mock.status w = Some StatusOK <->
     exists id monthly, asks r id /\ GoMap.get SalaryService.salaryData id = Some monthly)
  /\ (forall id monthly,
        asks r id -> GoMap.get SalaryService.salaryData id = Some monthly ->
        Mock.written w = [Mock.JsonSalary (SalaryResponse.Build id monthly)])
  /\ (Mock.status w = Some StatusNotFound <->
        exists id, asks r id /\ GoMap.get SalaryService.salaryData id = None)
  /\ Header_Get (Mock.header w) "X-Request-ID" = Header_Get (RequestHeader r) "X-Request-ID"
  /\ Header_Get (Mock.header w) "Content-Type" = "application/json"
  /\ List.length (Mock.written w) = 1.
Proof.
  intros w. subst w. unfold asksFor, SalaryService.verifySalaryHandler, Mock.jsonError.
  pose proof (echoRequestID_header r) as Hecho.
  set (w0 := Mock.echoRequestID Mock.fresh r) in *.
  assert (Hstatus : Mock.status w0 = None /\ Mock.written w0 = []).
  { subst w0. unfold Mock.echoRequestID. now destruct (negb _). }
  destruct Hstatus as [Hst Hwr].
  destruct (String.eqb_spec (Method r) "POST") as [Hm | Hm]; cbn [negb].
  2:{ cbn. rewrite Hst, Hwr, Header_Get_Set_same.
      rewrite Header_Get_Set_other by reflexivity.
      repeat split; try discriminate; try assumption;
        try (intros (? & ? & (? & _) & _); contradiction);
        try (intros (? & (? & _) & _); contradiction);
        try (intros ? ? (? & _); contradiction). }
  destruct (decodeRequest (RequestBody r)) as [id |] eqn:Hdec.
  2:{ cbn. rewrite Hst, Hwr, Header_Get_Set_same.
      rewrite Header_Get_Set_other by reflexivity.
      repeat split; try discriminate; try assumption;
        try (intros (? & ? & (_ & ? & _) & _); discriminate);
        try (intros (? & (_ & ? & _) & _); discriminate);
        try (intros ? ? (_ & ? & _); discriminate). }
  destruct (String.eqb_spec id "") as [Hid | Hid].
  { cbn. rewrite Hst, Hwr, Header_Get_Set_same.
    rewrite Header_Get_Set_other by reflexivity.
    repeat split; try discriminate; try assumption;
      try (intros (? & ? & (_ & H & ?) & _); inversion H; subst; contradiction);
      try (intros (? & (_ & H & ?) & _); inversion H; subst; contradiction);
      try (intros ? ? (_ & H & ?); inversion H; subst; contradiction). }
  destruct (GoMap.get SalaryService.salaryData id) as [monthly |] eqn:Hget.
  - cbn. rewrite Hst, Hwr, Header_Get_Set_same.
    rewrite Header_Get_Set_other by reflexivity.
    repeat split; try discriminate; try assumption.
    + intros _. exists id, monthly. repeat split; assumption.
    + intros id' monthly' (_ & H & _) Hget'. inversion H; subst. cbn. congruence.
    + intros (id' & (_ & H & _) & Hget'). inversion H; subst. congruence.
  - cbn. rewrite Hst, Hwr, Header_Get_Set_same.
    rewrite Header_Get_Set_other by reflexivity.
    repeat split; try discriminate; try assumption.
    + intros (id' & monthly' & (_ & H & _) & Hget'). inversion H; subst. congruence.
    + intros id' monthly' (_ & H & _) Hget'. inversion H; subst. congruence.
    + intros _. exists id. repeat split; assumption.
Qed.

(** X12: the credit service.  It answers 200 exactly to a POST whose body
    decodes to a non-empty national id found in its table, and the record
    sent is the one of the table, which is about that id; it answers 404
    exactly to such a POST for an id that is not in the table.  Whatever
    the answer, it is one JSON document, and the [X-Request-ID] header of
    the response is that of the request. *)
Theorem credit_service_answers (r : Request) :
  let w := CreditService.checkCreditHandler decodeRequest Mock.fresh r in
  (Mock.status w = Some StatusOK <->
     exists id record, asks r id /\ GoMap.get CreditService.creditData id = Some record)
  /\ (forall id record,
        asks r id -> GoMap.get CreditService.creditData id = Some record ->
        Mock.written w = [Mock.JsonCredit record] /\ CreditResponse.NationalID record = id)
  /\ (Mock.status w = Some StatusNotFound <->
        exists id, asks r id /\ GoMap.get CreditService.creditData id = None)
  /\ Header_Get (Mock.header w) "X-Request-ID" = Header_Get (RequestHeader r) "X-Request-ID"
  /\ Header_Get (Mock.header w) "Content-Type" = "application/json"
  /\ List.length (Mock.written w) = 1.
Proof.
  intros w. subst w. unfold asksFor, CreditService.checkCreditHandler, Mock.jsonError.
  pose proof (echoRequestID_header r) as Hecho.
  set (w0 := Mock.echoRequestID Mock.fresh r) in *.
  assert (Hstatus : Mock.status w0 = None /\ Mock.written w0 = []).
  { subst w0. unfold Mock.echoRequestID. now destruct (negb _). }
  destruct Hstatus as [Hst Hwr].
  destruct (String.eqb_spec (Method r) "POST") as [Hm | Hm]; cbn [negb].
  2:{ cbn. rewrite Hst, Hwr, Header_Get_Set_same.
      rewrite Header_Get_Set_other by reflexivity.
      repeat split; try discriminate; try assumption; intros; refute. }
  destruct (decodeRequest (RequestBody r)) as [id |] eqn:Hdec.
  2:{ cbn. rewrite Hst, Hwr, Header_Get_Set_same.
      rewrite Header_Get_Set_other by reflexivity.
      repeat split; try discriminate; try assumption; intros; refute. }
  destruct (String.eqb_spec id "") as [Hid | Hid].
  { cbn. rewrite Hst, Hwr, Header_Get_Set_same.
    rewrite Header_Get_Set_other by reflexivity.
    repeat split; try discriminate; try assumption; intros; refute. }
  destruct (GoMap.get CreditService.creditData id) as [record |] eqn:Hget.
  - cbn. rewrite Hst, Hwr, Header_Get_Set_same.
    rewrite Header_Get_Set_other by reflexivity.
    split; [| split; [| split; [| split; [| split]]]]; try assumption; try reflexivity.
    + split; [| reflexivity]. intros _. exists id, record. repeat split; assumption.
    + intros id' record' (_ & H & _) Hget'. inversion H; subst.
      split; [cbn; congruence | now apply creditData_keys].
    + split; [discriminate |].
      intros (id' & (_ & H & _) & Hget'). inversion H; subst. congruence.
  - cbn. rewrite Hst, Hwr, Header_Get_Set_same.
    rewrite Header_Get_Set_other by reflexivity.
    split; [| split; [| split; [| split; [| split]]]]; try assumption; try reflexivity.
    + split; [discriminate |].
      intros (id' & record' & (_ & H & _) & Hget'). inversion H; subst. congruence.
    + intros id' record' (_ & H & _) Hget'. inversion H; subst. congruence.
    + split; [| reflexivity]. intros _. exists id. repeat split; assumption.
Qed.
End MockFacts.

(* ===================================================================== *)
(** ** The eligibility service in front of the mock services             *)
(* ===================================================================== *)

Lemma lastChar_app (a s : string) : s <> "" -> lastChar (a ++ s) = lastChar s.
Proof.
  intros Hs. induction a as [| c a IH]; [reflexivity |].
  cbn [String.append lastChar]. rewrite IH.
  destruct (a ++ s)%string eqn:Happ; [| reflexivity].
  destruct a; cbn in Happ; [contradiction | discriminate].
Qed.

Lemma credit_url_is_not_salary_url (c s : string) :
  String.eqb (c ++ "/check-credit") (s ++ "/verify-salary") = false.
Proof.
  apply String.eqb_neq. intros H. apply (f_equal lastChar) in H.
  rewrite !lastChar_app in H by discriminate. discriminate H.
Qed.


Section Together.
Variables Exp Log : float -> float.
Variable ParseFloat : string -> option float.
Variable validURL : string -> bool.
Variable decodeLoanRequest : string -> option LoanRequest.t.
Variable decodeSalaryResponse : string -> string + SalaryResponse.t.
Variable decodeCreditResponse : string -> string + CreditResponse.t.
Variable marshal : list (string * string) -> string.
Variable decodeRequest : string -> option string.
Variable encode : Mock.Payload -> string.

Hypothesis round_trip :
  wireRoundTrip marshal decodeRequest encode decodeSalaryResponse decodeCreditResponse.

Local Abbreviation handler :=
  (loanHandler Exp Log ParseFloat validURL decodeLoanRequest decodeSalaryResponse
     decodeCreditResponse).
Local Abbreviation salaryLookup := (lookupSalary validURL decodeSalaryResponse).
Local Abbreviation creditLookup := (lookupCredit validURL decodeCreditResponse).
Local Abbreviation upstreamMocks := (mocksUpstream marshal decodeRequest encode).
Local Abbreviation payment := (amortizedMonthlyPayment Exp Log).
Local Abbreviation rate := (annualRateOf ParseFloat).

(** The network built from the two services has them at the two
    locations. *)
Lemma deployed_mocksUpstream (wd : World) :
  upstreamMocks (deployed marshal decodeRequest encode wd).
Proof.
  split; intros k req Hurl; cbn [Do deployed Getenv] in *; unfold services; rewrite Hurl.
  - now rewrite String.eqb_refl.
  - now rewrite credit_url_is_not_salary_url, String.eqb_refl.
Qed.

Lemma mock_writer_untouched (r : Request) :
  Mock.status (Mock.echoRequestID Mock.fresh r) = None
  /\ Mock.written (Mock.echoRequestID Mock.fresh r) = [].
Proof. unfold Mock.echoRequestID. now destruct (negb _). Qed.

Lemma salary_service_reply (wd : World) (k : nat) (id reqID : string) :
  upstreamMocks wd ->
  id <> "" ->
  salaryOutcome decodeSalaryResponse (Do wd k (salaryRequest wd id reqID))
  = match GoMap.get SalaryService.salaryData id with
    | Some monthly => (SalaryResponse.Build id monthly, None)
    | None =>
        (SalaryResponse.zero,
         Some (httpError StatusNotFound
                 (encode (Mock.JsonMap [("error", "not_found");
                                        ("message", "salary record not found")]))))
    end.
Proof.
  intros [Hserved _] Hid. destruct round_trip as (Hreq & Hsalary & _).
  rewrite (Hserved k (salaryRequest wd id reqID) eq_refl).
  unfold SalaryService.verifySalaryHandler, inbound, salaryRequest.
  cbn [Method RequestBody OutBody OutMethod upstreamRequest].
  cbn [String.eqb Ascii.eqb Bool.eqb negb]. rewrite Hreq.
  apply String.eqb_neq in Hid. rewrite Hid.
  destruct (mock_writer_untouched
              {| Method := "POST";
                 RequestHeader := OutHeader (upstreamRequest
                   (Getenv wd "SALARY_API_URL" ++ "/verify-salary") id reqID);
                 RequestBody := marshal [("national_id", id)] |}) as [Hst Hwr].
  destruct (GoMap.get SalaryService.salaryData id) as [monthly |] eqn:Hget.
  - unfold reply. cbn [Mock.Write Mock.Set_ Mock.status Mock.written].
    rewrite Hst, Hwr. cbn. now rewrite (Hsalary id monthly Hget).
  - unfold reply, Mock.jsonError. cbn [Mock.Write Mock.WriteHeader Mock.Set_ Mock.status Mock.written].
    rewrite Hst, Hwr. reflexivity.
Qed.

Lemma credit_service_reply (wd : World) (k : nat) (id reqID : string) :
  upstreamMocks wd ->
  id <> "" ->
  creditOutcome decodeCreditResponse (Do wd k (creditRequest wd id reqID))
  = match GoMap.get CreditService.creditData id with
    | Some record => (record, None)
    | None =>
        (CreditResponse.zero,
         Some (httpError StatusNotFound
                 (encode (Mock.JsonMap [("error", "not_found");
                                        ("message", "credit record not found")]))))
    end.
Proof.
  intros [_ Hserved] Hid. destruct round_trip as (Hreq & _ & Hcredit).
  rewrite (Hserved k (creditRequest wd id reqID) eq_refl).
  unfold CreditService.checkCreditHandler, inbound, creditRequest.
  cbn [Method RequestBody OutBody OutMethod upstreamRequest].
  cbn [String.eqb Ascii.eqb Bool.eqb negb]. rewrite Hreq.
  apply String.eqb_neq in Hid. rewrite Hid.
  destruct (mock_writer_untouched
              {| Method := "POST";
                 RequestHeader := OutHeader (upstreamRequest
                   (Getenv wd "CREDIT_API_URL" ++ "/check-credit") id reqID);
                 RequestBody := marshal [("national_id", id)] |}) as [Hst Hwr].
  destruct (GoMap.get CreditService.creditData id) as [record |] eqn:Hget.
  - unfold reply. cbn [Mock.Write Mock.Set_ Mock.status Mock.written].
    rewrite Hst, Hwr. cbn. now rewrite (Hcredit id record Hget).
  - unfold reply, Mock.jsonError. cbn [Mock.Write Mock.WriteHeader Mock.Set_ Mock.status Mock.written].
    rewrite Hst, Hwr. reflexivity.
Qed.

(** The two lookups in front of the mock services. *)
Lemma lookups_in_front (wd : World) (id reqID : string) :
  upstreamMocks wd ->
  salaryURLParses validURL wd ->
  creditURLParses validURL wd ->
  id <> "" ->
  match GoMap.get SalaryService.salaryData id with
  | None =>
      exists e s1,
        isNotFound e = true
        /\ salaryLookup wd id reqID (salaryPending wd reqID id)
           = (Returned (SalaryResponse.zero, Some e), s1)
        /\ sent s1 = 3
  | Some salary =>
      exists s1,
        salaryLookup wd id reqID (salaryPending wd reqID id)
        = (Returned (SalaryResponse.Build id salary, None), s1)
        /\ match GoMap.get CreditService.creditData id with
           | None =>
               exists e s2,
                 isNotFound e = true
                 /\ creditLookup wd id reqID (creditPending wd reqID id s1)
                    = (Returned (CreditResponse.zero, Some e), s2)
                 /\ sent s2 = 4
           | Some credit =>
               exists s2,
                 creditLookup wd id reqID (creditPending wd reqID id s1)
                 = (Returned (credit, None), s2)
                 /\ sent s2 = 2
           end
  end.
Proof.
  intros Hserved HurlS HurlC Hid.
  pose proof (fun k => salary_service_reply wd k id reqID Hserved Hid) as HS.
  pose proof (fun k => credit_service_reply wd k id reqID Hserved Hid) as HC.
  destruct (GoMap.get SalaryService.salaryData id) as [salary |] eqn:Hsalary.
  - eexists. split.
    { apply lookupSalary_first_success with (j := 0);
        [exact HurlS | lia | intros i Hi; lia | apply HS]. }
    destruct (GoMap.get CreditService.creditData id) as [credit |] eqn:Hcredit.
    + eexists. split;
        [apply lookupCredit_first_success with (j := 0);
           [exact HurlC | lia | intros i Hi; lia | apply HC]
        | reflexivity].
    + eexists. eexists. split; [| split].
      2:{ rewrite (lookupCredit_exhausted validURL decodeCreditResponse wd id reqID).
          - rewrite HC. cbn [snd]. reflexivity.
          - exact HurlC.
          - intros i Hi. unfold attemptFails. rewrite HC. discriminate. }
      * reflexivity.
      * reflexivity.
  - eexists. eexists. split; [| split].
    2:{ rewrite (lookupSalary_exhausted validURL decodeSalaryResponse wd id reqID).
        - rewrite HS. cbn [snd]. reflexivity.
        - exact HurlS.
        - intros i Hi. unfold attemptFails. rewrite HS. discriminate. }
    + reflexivity.
    + reflexivity.
Qed.

(** The run of the handler in front of the mock services. *)
Lemma run_in_front (wd : World) (r : Request) (request : LoanRequest.t) :
  let reqID := getOrCreateReqID wd r in
  let id := LoanRequest.NationalID request in
  let monthly :=
    payment (LoanRequest.LoanAmount request) (LoanRequest.TermMonths request) (rate wd) in
  validated decodeLoanRequest wd r request ->
  salaryURLParses validURL wd ->
  creditURLParses validURL wd ->
  upstreamMocks wd ->
  exists tr,
    handler wd r initial =
    (Returned tt,
     match GoMap.get SalaryService.salaryData id with
     | None =>
         {| w := decisionResponse reqID
                   (partialDecline "Salary record not found" monthly (rate wd) None request);
            sent := 3; trace := tr |}
     | Some salary =>
         match GoMap.get CreditService.creditData id with
         | None =>
             {| w := decisionResponse reqID
                       (partialDecline "Credit record not found" monthly (rate wd)
                          (Some (SalaryResponse.Build id salary)) request);
                sent := 4; trace := tr |}
         | Some credit =>
             {| w := decisionResponse reqID
                       (spec_decide (SalaryResponse.Build id salary) credit monthly (rate wd)
                          request);
                sent := 2; trace := tr |}
         end
     end).
Proof.
  intros reqID id monthly Hvalid HurlS HurlC Hserved.
  assert (Hid : id <> "").
  { destruct Hvalid as (_ & (_ & Hid & _) & _). now apply String.eqb_neq. }
  pose proof (lookups_in_front wd id reqID Hserved HurlS HurlC Hid) as Hlook.
  destruct (GoMap.get SalaryService.salaryData id) as [salary |].
  - destruct Hlook as (s1 & Hs1 & Hlook).
    destruct (GoMap.get CreditService.creditData id) as [credit |].
    + destruct Hlook as (s2 & Hs2 & Hsent). eexists.
      rewrite (decision_run Exp Log ParseFloat validURL decodeLoanRequest
                 decodeSalaryResponse decodeCreditResponse wd r request _ _ _ _
                 Hvalid Hs1 Hs2).
      rewrite Hsent. reflexivity.
    + destruct Hlook as (e & s2 & Hnf & Hs2 & Hsent). eexists.
      rewrite (failed_credit_lookup_run Exp Log ParseFloat validURL decodeLoanRequest
                 decodeSalaryResponse decodeCreditResponse wd r request _ _ _ _ _
                 Hvalid Hs1 Hs2).
      unfold lookupFailure. rewrite Hnf, Hsent. reflexivity.
  - destruct Hlook as (e & s1 & Hnf & Hs1 & Hsent). eexists.
    rewrite (failed_salary_lookup_run Exp Log ParseFloat validURL decodeLoanRequest
               decodeSalaryResponse decodeCreditResponse wd r request _ _ _
               Hvalid Hs1).
    unfold lookupFailure. rewrite Hnf, Hsent. reflexivity.
Qed.

(** X13: the eligibility service in front of the two mock services, when
    the two locations are URLs and decoding undoes encoding on what the
    services exchange.  For every validated application the handler
    returns, and what it passes to the encoder is read off the two tables.
    An id the salary table lacks is declined with "Salary record not
    found", after 3 salary requests (the 404 is retried) and no credit
    request.  An id the credit table lacks is declined with "Credit record
    not found" and the salary fact of the table, after 1 + 3 requests.
    Otherwise the four rules decide on the two facts of the tables, after
    exactly 2 requests.  What is encoded is the one document of the
    response, with status 200, whenever its payment, rate and amount are
    finite; a 502 never occurs. *)
Theorem eligibility_in_front_of_the_mock_services
    (wd : World) (r : Request) (request : LoanRequest.t) :
  let reqID := getOrCreateReqID wd r in
  let id := LoanRequest.NationalID request in
  let monthly :=
    payment (LoanRequest.LoanAmount request) (LoanRequest.TermMonths request) (rate wd) in
  let run := handler wd r initial in
  let answer :=
    match GoMap.get SalaryService.salaryData id with
    | None => (partialDecline "Salary record not found" monthly (rate wd) None request, 3)
    | Some salary =>
        match GoMap.get CreditService.creditData id with
        | None =>
            (partialDecline "Credit record not found" monthly (rate wd)
               (Some (SalaryResponse.Build id salary)) request, 4)
        | Some credit =>
            (spec_decide (SalaryResponse.Build id salary) credit monthly (rate wd) request, 2)
        end
    end in
  validated decodeLoanRequest wd r request ->
  salaryURLParses validURL wd ->
  creditURLParses validURL wd ->
  upstreamMocks wd ->
  fst run = Returned tt
  /\ sent (snd run) = snd answer
  /\ w (snd run) = encodeOn (noDocument reqID) (fst answer)
  /\ (encodable (fst answer) = true ->
      w (snd run) = jsonResponse reqID StatusOK (JsonLoan (fst answer))).
Proof.
  intros reqID id monthly run answer Hvalid HurlS HurlC Hserved. subst run answer.
  destruct (run_in_front wd r request Hvalid HurlS HurlC Hserved) as [tr ->].
  fold reqID id monthly. unfold noDocument. rewrite encodeOn_two_headers.
  destruct (GoMap.get SalaryService.salaryData id) as [salary |];
    [destruct (GoMap.get CreditService.creditData id) as [credit |] |];
    cbn [fst snd w sent];
    (split; [reflexivity |]); (split; [reflexivity |]); (split; [reflexivity |]);
    apply decisionResponse_encodable.
Qed.
End Together.

(* ===================================================================== *)
(** ** The version with the mocks built in: properties                   *)
(* ===================================================================== *)

Ltac run_handler :=
  cbv [bind ret httpClient_Do http_Error w_Header_Set w_WriteHeader w_Write onWriter];
  rewrite ?discard_Encode_loan;
  cbn [w sent trace header status written initial fst snd app Header_Set Header_Del filter
       String.eqb Ascii.eqb Bool.eqb negb].

Section EmbeddedFacts.
Variables Exp Log : float -> float.
Variable validURL : string -> bool.
Variable decodeLoanRequest : string -> option LoanRequest.t.
Variable decodeSalaryResponse : string -> string + SalaryResponse.t.
Variable decodeCreditResponse : string -> string + CreditResponse.t.
Variable salaryAfterError : string -> SalaryResponse.t.
Variable creditAfterError : string -> CreditResponse.t.

Local Abbreviation embedded :=
  (Embedded.loanHandler Exp Log validURL decodeLoanRequest decodeSalaryResponse
     decodeCreditResponse salaryAfterError creditAfterError).
Local Abbreviation generated wd := (GoStrconv.FormatInt (UnixNano wd) 36).
Local Abbreviation salaryCall wd request :=
  (upstreamRequest Embedded.salaryURL (LoanRequest.NationalID request) (generated wd)).
Local Abbreviation creditCall wd request :=
  (upstreamRequest Embedded.creditURL (LoanRequest.NationalID request) (generated wd)).
Local Abbreviation payment20 request :=
  (amortizedMonthlyPayment Exp Log (LoanRequest.LoanAmount request)
     (LoanRequest.TermMonths request) 20%float).

(** The handler of a POST with a valid body, run up to the salary call. *)
Ltac enter_embedded Hm Hdec Hid Hamt Hterm :=
  unfold Embedded.loanHandler; rewrite Hm;
  cbn [String.eqb Ascii.eqb Bool.eqb negb];
  rewrite Hdec, Hid, Hamt, Hterm; cbn [orb]; run_handler.

(** X14: in the version with the mocks built in, the salary call is made
    once.  Whatever comes back other than a 200 ends the request after that
    one request: on a 404 the decline "Salary record not found" goes to the
    encoder (and is the response when its numbers are finite), anything
    else (a transport error, another status) is a 502 in plain text; the
    credit call is not made. *)
Theorem embedded_salary_failure_is_final
    (wd : World) (r : Request) (request : LoanRequest.t) :
  let run := embedded wd r initial in
  let final := snd run in
  let answer := Do wd 0 (salaryCall wd request) in
  let decline :=
    partialDecline "Salary record not found" (payment20 request) 20%float None request in
  Method r = "POST" ->
  validBody decodeLoanRequest r request ->
  validURL Embedded.salaryURL = true ->
  (forall body, answer <> DoResponse StatusOK body) ->
  fst run = Returned tt
  /\ sent final = 1
  /\ trace final = [HTTPDo (salaryCall wd request)]
  /\ w final =
     match answer with
     | DoResponse 404 _ => encodeOn (idOnly (generated wd)) decline
     | _ => textResponse [("X-Request-ID", generated wd)] StatusBadGateway
              "Failed to verify salary"
     end
  /\ (encodable decline = true ->
      encodeOn (idOnly (generated wd)) decline
      = {| header := [("X-Request-ID", generated wd)];
           status := Some StatusOK;
           written := [JsonLoan decline] |}).
Proof.
  intros run final answer decline Hm (Hdec & Hid & Hamt & Hterm) Hurl Hnot.
  subst final run.
  enter_embedded Hm Hdec Hid Hamt Hterm.
  rewrite (newUpstreamRequest_run validURL _ _ _ _ Hurl). run_handler.
  fold answer. destruct answer as [msg | code body].
  - run_handler. repeat split. unfold encodeOn, idOnly. now intros ->.
  - destruct (Z.eqb_spec code StatusOK) as [-> | Hcode]; [now contradiction (Hnot body) |].
    cbn [negb]. destruct (Z.eqb_spec code StatusNotFound) as [-> | Hnf].
    + run_handler. repeat split. unfold encodeOn, idOnly. now intros ->.
    + run_handler. repeat split; [| unfold encodeOn, idOnly; now intros ->].
      destruct code as [| p | p]; try reflexivity.
      do 9 (destruct p as [p | p |]; try reflexivity). now contradiction Hnf.
Qed.

Ltac embedded_step :=
  match goal with
  | |- context [validURL ?u] => destruct (validURL u) eqn:?
  | |- context [Do ?wd ?k ?req] => destruct (Do wd k req) eqn:?
  | |- context [encodable ?x] => destruct (encodable x) eqn:?
  | |- context [if ?b then _ else _] => destruct b eqn:?
  | |- context [match ?x with _ => _ end] => destruct x eqn:?
  end.

Ltac embedded_cases :=
  unfold exec, Embedded.loanHandler, newUpstreamRequest, http_NewRequest;
  repeat (run_handler; cbv [panic encodeOn];
          cbn [w sent trace header status written fst snd app];
          embedded_step).

(** X15: the version with the mocks built in never retries and never
    sleeps.  Whatever the request and the network, it sends at most 2
    requests, its trace consists of those requests alone, and it writes
    at most one document. *)
Theorem embedded_handler_never_retries (wd : World) (r : Request) :
  let final := exec (embedded wd r) initial in
  sent final <= 2
  /\ List.length (trace final) = sent final
  /\ Forall (fun ev => exists req, ev = HTTPDo req) (trace final)
  /\ List.length (written (w final)) <= 1.
Proof.
  intros final. subst final. embedded_cases;
    (split; [cbn; lia |]); (split; [reflexivity |]); (split; [| cbn; lia]);
    repeat constructor; eauto.
Qed.

(** X16: the version with the mocks built in makes its own request id
    from the clock and does not look at the [X-Request-ID] of the request.
    Every response to a POST carries the id made, and so does every request
    sent upstream. *)
Theorem embedded_request_id_is_generated (wd : World) (r : Request) :
  let final := exec (embedded wd r) initial in
  Method r = "POST" ->
  Header_Get (header (w final)) "X-Request-ID" = generated wd
  /\ Forall (fun ev => match ev with
                       | HTTPDo req => Header_Get (OutHeader req) "X-Request-ID" = generated wd
                       | _ => True
                       end) (trace final).
Proof.
  intros final Hm. subst final.
  unfold exec, Embedded.loanHandler, newUpstreamRequest, http_NewRequest. rewrite Hm.
  cbn [String.eqb Ascii.eqb Bool.eqb negb].
  repeat (run_handler; cbv [panic encodeOn];
          cbn [w sent trace header status written fst snd app];
          embedded_step);
    (split; [reflexivity |]); repeat constructor.
Qed.

(** X17: in the version with the mocks built in, two 200 replies always
    lead to a decision, at the fixed rate 20, on whatever the two decodings
    left: the error of a decoding is not looked at, so a body that does not
    decode is no failure here.  The decision of the four rules goes to the
    encoder, and is the one document of the response when its numbers are
    finite. *)
Theorem embedded_decides_on_two_replies
    (wd : World) (r : Request) (request : LoanRequest.t) (salaryBody creditBody : string) :
  let salary :=
    Embedded.decodedSalary decodeSalaryResponse salaryAfterError salaryBody in
  let credit :=
    Embedded.decodedCredit decodeCreditResponse creditAfterError creditBody in
  let outcome := spec_decide salary credit (payment20 request) 20%float request in
  let calls := [HTTPDo (salaryCall wd request); HTTPDo (creditCall wd request)] in
  Method r = "POST" ->
  validBody decodeLoanRequest r request ->
  validURL Embedded.salaryURL = true ->
  validURL Embedded.creditURL = true ->
  Do wd 0 (salaryCall wd request) = DoResponse StatusOK salaryBody ->
  Do wd 1 (creditCall wd request) = DoResponse StatusOK creditBody ->
  embedded wd r initial =
  (Returned tt,
   {| w := encodeOn (idOnly (generated wd)) outcome; sent := 2; trace := calls |})
  /\ (encodable outcome = true ->
      embedded wd r initial =
      (Returned tt,
       {| w := {| header := [("X-Request-ID", generated wd)];
                  status := Some StatusOK;
                  written := [JsonLoan outcome] |};
          sent := 2;
          trace := calls |})).
Proof.
  intros salary credit outcome calls Hm (Hdec & Hid & Hamt & Hterm) HurlS HurlC Hs Hc.
  assert (Hrun : embedded wd r initial =
                 (Returned tt,
                  {| w := encodeOn (idOnly (generated wd)) outcome;
                     sent := 2; trace := calls |})).
  { enter_embedded Hm Hdec Hid Hamt Hterm.
    rewrite (newUpstreamRequest_run validURL _ _ _ _ HurlS). run_handler.
    rewrite Hs. cbn [Z.eqb StatusOK Pos.eqb negb]. run_handler.
    rewrite (newUpstreamRequest_run validURL _ _ _ _ HurlC). run_handler.
    rewrite Hc. cbn [Z.eqb StatusOK Pos.eqb negb].
    fold salary credit. rewrite decisionRules_spec.
    subst outcome. unfold spec_decide.
    destruct (spec_reasons salary credit (payment20 request));
      cbn [Nat.ltb Nat.leb List.length]; run_handler; reflexivity. }
  split; [exact Hrun |].
  intros Henc. rewrite Hrun. unfold encodeOn, idOnly. now rewrite Henc.
Qed.
End EmbeddedFacts.

(* ===================================================================== *)
(** ** The two versions side by side                                     *)
(* ===================================================================== *)

Section Versions.
Variables Exp Log : float -> float.
Variable ParseFloat : string -> option float.
Variable validURL : string -> bool.
Variable decodeLoanRequest : string -> option LoanRequest.t.
Variable decodeSalaryResponse : string -> string + SalaryResponse.t.
Variable decodeCreditResponse : string -> string + CreditResponse.t.
Variable salaryAfterError : string -> SalaryResponse.t.
Variable creditAfterError : string -> CreditResponse.t.
Variable marshal : list (string * string) -> string.
Variable decodeRequest : string -> option string.
Variable encode : Mock.Payload -> string.

Hypothesis round_trip :
  wireRoundTrip marshal decodeRequest encode decodeSalaryResponse decodeCreditResponse.

Local Abbreviation handler :=
  (loanHandler Exp Log ParseFloat validURL decodeLoanRequest decodeSalaryResponse
     decodeCreditResponse).
Local Abbreviation embedded :=
  (Embedded.loanHandler Exp Log validURL decodeLoanRequest decodeSalaryResponse
     decodeCreditResponse salaryAfterError creditAfterError).
Local Abbreviation upstreamMocks := (mocksUpstream marshal decodeRequest encode).
Local Abbreviation builtInMocks := (mocksBuiltIn marshal decodeRequest encode).
Local Abbreviation rate := (annualRateOf ParseFloat).

(** The network of a process that calls itself has the built-in mocks. *)
Lemma standalone_mocksBuiltIn (wd : World) :
  builtInMocks (standalone marshal decodeRequest encode wd).
Proof.
  split; intros k req Hurl; cbn [Do standalone]; unfold selfServed; rewrite Hurl;
    reflexivity.
Qed.

Lemma embedded_salary_reply (own : World) (k : nat) (id reqID : string) :
  builtInMocks own ->
  id <> "" ->
  Do own k (upstreamRequest Embedded.salaryURL id reqID)
  = match GoMap.get SalaryService.salaryData id with
    | Some monthly =>
        DoResponse StatusOK (encode (Mock.JsonSalary (SalaryResponse.Build id monthly)))
    | None =>
        DoResponse StatusNotFound (encode (Mock.Text ("Salary record not found" ++ newline)))
    end.
Proof.
  intros [Hserved _] Hid. destruct round_trip as (Hreq & _ & _).
  rewrite (Hserved k (upstreamRequest Embedded.salaryURL id reqID) eq_refl).
  unfold Embedded.verifySalaryHandler, inbound.
  cbn [Method RequestBody OutBody OutMethod upstreamRequest].
  cbn [String.eqb Ascii.eqb Bool.eqb negb]. rewrite Hreq.
  apply String.eqb_neq in Hid. rewrite Hid.
  destruct (mock_writer_untouched
              {| Method := "POST";
                 RequestHeader := OutHeader (upstreamRequest Embedded.salaryURL id reqID);
                 RequestBody := marshal [("national_id", id)] |}) as [Hst Hwr].
  unfold Embedded.salaryData.
  destruct (GoMap.get SalaryService.salaryData id) as [monthly |].
  - unfold reply. cbn [Mock.Write Mock.status Mock.written]. now rewrite Hst, Hwr.
  - unfold reply, Mock.Error_.
    cbn [Mock.Write Mock.WriteHeader Mock.Set_ Mock.status Mock.written].
    now rewrite Hst, Hwr.
Qed.

Lemma embedded_credit_reply (own : World) (k : nat) (id reqID : string) :
  builtInMocks own ->
  id <> "" ->
  Do own k (upstreamRequest Embedded.creditURL id reqID)
  = match GoMap.get CreditService.creditData id with
    | Some record => DoResponse StatusOK (encode (Mock.JsonCredit record))
    | None =>
        DoResponse StatusNotFound (encode (Mock.Text ("Credit record not found" ++ newline)))
    end.
Proof.
  intros [_ Hserved] Hid. destruct round_trip as (Hreq & _ & _).
  rewrite (Hserved k (upstreamRequest Embedded.creditURL id reqID) eq_refl).
  unfold Embedded.checkCreditHandler, inbound.
  cbn [Method RequestBody OutBody OutMethod upstreamRequest].
  cbn [String.eqb Ascii.eqb Bool.eqb negb]. rewrite Hreq.
  apply String.eqb_neq in Hid. rewrite Hid.
  destruct (mock_writer_untouched
              {| Method := "POST";
                 RequestHeader := OutHeader (upstreamRequest Embedded.creditURL id reqID);
                 RequestBody := marshal [("national_id", id)] |}) as [Hst Hwr].
  unfold Embedded.creditData.
  destruct (GoMap.get CreditService.creditData id) as [record |].
  - unfold reply. cbn [Mock.Write Mock.status Mock.written]. now rewrite Hst, Hwr.
  - unfold reply, Mock.Error_.
    cbn [Mock.Write Mock.WriteHeader Mock.Set_ Mock.status Mock.written].
    now rewrite Hst, Hwr.
Qed.

(** One value passed to the encoder on two writers that hold nothing yet:
    the same document and status on both, or nothing on either. *)
Lemma same_document (id1 id2 : string) (resp : LoanResponse.t) :
  written (encodeOn (idOnly id1) resp) = written (decisionResponse id2 resp)
  /\ status (encodeOn (idOnly id1) resp) = status (decisionResponse id2 resp).
Proof. unfold encodeOn, decisionResponse, idOnly. now destruct (encodable resp). Qed.

(** X18: the two versions answer alike.  With decoding undoing encoding,
    all four addresses being URLs and the rate of the second version at
    its default, a validated application gets the same document and the
    same status (or, when the decision cannot be encoded, nothing from
    either) from the version that calls its own mocks as from the version
    placed in front of the two mock services: the same decline for an id a
    table lacks, the same decision otherwise.  Both return.  They differ
    in the number of requests it takes (the first does not retry a 404)
    and in the request id. *)
Theorem both_versions_answer_alike
    (own front : World) (r : Request) (request : LoanRequest.t) :
  let first := embedded own r initial in
  let second := handler front r initial in
  validated decodeLoanRequest front r request ->
  rate front = 20%float ->
  salaryURLParses validURL front ->
  creditURLParses validURL front ->
  validURL Embedded.salaryURL = true ->
  validURL Embedded.creditURL = true ->
  builtInMocks own ->
  upstreamMocks front ->
  fst first = Returned tt
  /\ fst second = Returned tt
  /\ written (w (snd first)) = written (w (snd second))
  /\ status (w (snd first)) = status (w (snd second))
  /\ sent (snd first) <= sent (snd second).
Proof.
  intros first second Hvalid Hrate HurlS HurlC HownS HownC Hown Hfront.
  subst first second.
  assert (Hid : LoanRequest.NationalID request <> "").
  { destruct Hvalid as (_ & (_ & Hid & _) & _). now apply String.eqb_neq. }
  destruct (run_in_front Exp Log ParseFloat validURL decodeLoanRequest decodeSalaryResponse
              decodeCreditResponse marshal decodeRequest encode round_trip
              front r request Hvalid HurlS HurlC Hfront) as [tr ->].
  rewrite Hrate.
  set (id := LoanRequest.NationalID request) in *.
  pose proof (fun k rid => embedded_salary_reply own k id rid Hown Hid) as HS.
  pose proof (fun k rid => embedded_credit_reply own k id rid Hown Hid) as HC.
  destruct round_trip as (_ & Hsal & Hcred).
  destruct Hvalid as (Hm & (Hdec & Hid' & Hamt & Hterm) & Hconf).
  unfold Embedded.loanHandler. rewrite Hm.
  cbn [String.eqb Ascii.eqb Bool.eqb negb].
  rewrite Hdec, Hid', Hamt, Hterm. cbn [orb]. run_handler. fold id.
  rewrite (newUpstreamRequest_run validURL _ _ _ _ HownS). run_handler.
  rewrite HS.
  destruct (GoMap.get SalaryService.salaryData id) as [salary |] eqn:Hsalary.
  - cbn [Z.eqb StatusOK Pos.eqb negb]. run_handler.
    rewrite (newUpstreamRequest_run validURL _ _ _ _ HownC). run_handler.
    rewrite HC.
    unfold Embedded.decodedSalary. rewrite (Hsal id salary Hsalary).
    destruct (GoMap.get CreditService.creditData id) as [credit |] eqn:Hcredit.
    + cbn [Z.eqb StatusOK Pos.eqb negb].
      unfold Embedded.decodedCredit. rewrite (Hcred id credit Hcredit).
      rewrite decisionRules_spec. unfold spec_decide.
      destruct (spec_reasons _ credit _);
        cbn [Nat.ltb Nat.leb List.length]; run_handler;
        (split; [reflexivity |]); (split; [reflexivity |]);
        (split; [apply same_document |]); (split; [apply same_document | lia]).
    + cbn [Z.eqb StatusOK StatusNotFound Pos.eqb negb]. run_handler.
      (split; [reflexivity |]); (split; [reflexivity |]);
        (split; [apply same_document |]); (split; [apply same_document | lia]).
  - cbn [Z.eqb StatusOK StatusNotFound Pos.eqb negb]. run_handler.
    (split; [reflexivity |]); (split; [reflexivity |]);
      (split; [apply same_document |]); (split; [apply same_document | lia]).
Qed.
End Versions.

(* ===================================================================== *)
(** ** The deployment, run                                               *)
(* ===================================================================== *)

Lemma Scenario_lookup_is_get {A : Type} (key : string) (table : list (string * A)) :
  Scenario.lookup key table = GoMap.get table key.
Proof.
  induction table as [| [k v] table IH]; [reflexivity |].
  cbn [Scenario.lookup]. unfold GoMap.get. fold (@GoMap.get A). now rewrite IH.
Qed.

(** The toy codecs of the deployment undo each other on what the services
    send. *)
Lemma Deployment_round_trip :
  wireRoundTrip Deployment.marshal Deployment.decodeRequest Deployment.encode
    Scenario.decodeSalaryResponse Scenario.decodeCreditResponse.
Proof.
  split; [reflexivity |]. split.
  - intros id monthly Hget. cbn [Deployment.encode SalaryResponse.NationalID].
    unfold Scenario.decodeSalaryResponse. rewrite Scenario_lookup_is_get.
    change Scenario.salaryData with SalaryService.salaryData. now rewrite Hget.
  - intros id record Hget. cbn [Deployment.encode].
    unfold Scenario.decodeCreditResponse. rewrite Scenario_lookup_is_get.
    change Scenario.creditData with CreditService.creditData.
    rewrite (creditData_keys id record Hget). now rewrite Hget.
Qed.

Section DeploymentRuns.
Import Scenario.

Local Abbreviation applicationA := (LoanRequest.Build "12345678" 50000 12).
Local Abbreviation applicationB := (LoanRequest.Build "87654321" 50000 12).
Local Abbreviation stranger := (LoanRequest.Build "00000000" 50000 12).
Local Abbreviation salaryA := (SalaryResponse.Build "12345678" 350000).
Local Abbreviation salaryB := (SalaryResponse.Build "87654321" 120000).
Local Abbreviation creditA := (CreditResponse.Build "12345678" 650 0 2).
Local Abbreviation creditB := (CreditResponse.Build "87654321" 540 0 1).
Local Abbreviation salaryOf wd id :=
  (lookupSalary validURL decodeSalaryResponse wd id "req-1" (salaryPending wd "req-1" id)).
Local Abbreviation creditOf wd id s :=
  (lookupCredit validURL decodeCreditResponse wd id "req-1" (creditPending wd "req-1" id s)).

Lemma no_attempts_is_a_silent_success_witness :
  withRetrySalary 0 delay
    (callSalaryAPI validURL decodeSalaryResponse down "http://salary:8081" "12345678" "req-1")
    initial
  = (Returned (SalaryResponse.zero, None), initial).
Proof.
  apply (proj1 (no_attempts_is_a_silent_success 0 delay
                  (callSalaryAPI validURL decodeSalaryResponse down "http://salary:8081"
                     "12345678" "req-1")
                  (callCreditAPI validURL decodeCreditResponse down "http://credit:8082"
                     "12345678" "req-1")
                  initial ltac:(lia))).
Defined.

Lemma retry_ends_at_first_success_or_exhaustion_witness :
  sent (snd (withRetrySalary 5 delay
               (callSalaryAPI validURL decodeSalaryResponse down "http://salary:8081"
                  "12345678" "req-1")
               initial)) = 5
  /\ withRetrySalary 5 delay
       (callSalaryAPI validURL decodeSalaryResponse down "://bad" "12345678" "req-1") initial
     = (Panicked nilDereference, initial).
Proof.
  split.
  - destruct (proj1 (retry_ends_at_first_success_or_exhaustion validURL decodeSalaryResponse
                       decodeCreditResponse down "http://salary:8081" "12345678" "req-1"
                       5 delay initial ltac:(lia)) eq_refl)
      as [(j & v & _ & _ & Hok & _) | [_ Hrun]].
    + vm_compute in Hok. discriminate Hok.
    + rewrite Hrun. reflexivity.
  - apply (proj1 (proj2 (retry_ends_at_first_success_or_exhaustion validURL
                           decodeSalaryResponse decodeCreditResponse down "://bad"
                           "12345678" "req-1" 5 delay initial ltac:(lia))) eq_refl).
Defined.

Lemma upstream_requests_carry_the_correlation_id_witness :
  OutMethod (salaryRequest steady "12345678" "req-1") = "POST"
  /\ Header_Get (OutHeader (salaryRequest steady "12345678" "req-1")) "X-Request-ID" = "req-1".
Proof.
  destruct (upstream_requests_carry_the_correlation_id Exp Log ParseFloat validURL
              decodeLoanRequest decodeSalaryResponse decodeCreditResponse steady
              (post "application A") (salaryRequest steady "12345678" "req-1"))
    as (Hmethod & Hid & _).
  - right. left. reflexivity.
  - split; [exact Hmethod | exact Hid].
Defined.

Lemma credit_untouched_when_salary_fails_witness :
  1 <= sent (exec (handler steady (post "application of a stranger")) initial) <= 3.
Proof.
  apply (credit_untouched_when_salary_fails Exp Log ParseFloat validURL decodeLoanRequest
           decodeSalaryResponse decodeCreditResponse steady
           (post "application of a stranger") stranger
           SalaryResponse.zero (httpError 404 "salary record not found")
           (snd (salaryOf steady "00000000"))).
  - repeat split.
  - reflexivity.
Defined.

Lemma unavailable_upstream_is_bad_gateway_witness :
  handler Deployment.creditDown (post "application A") initial
  = (Returned tt,
     {| w := jsonResponse "req-1" StatusBadGateway
               (JsonMap [("error", "credit_service_unavailable");
                         ("message", "Failed to verify credit");
                         ("detail", "http error: 503 - overloaded");
                         ("request_id", "req-1")]);
        sent := 4;
        trace := trace (snd (creditOf Deployment.creditDown "12345678"
                               (snd (salaryOf Deployment.creditDown "12345678")))) |}).
Proof.
  refine (proj2 (unavailable_upstream_is_bad_gateway Exp Log ParseFloat validURL
                   decodeLoanRequest decodeSalaryResponse decodeCreditResponse
                   Deployment.creditDown (post "application A") applicationA _)
            salaryA (snd (salaryOf Deployment.creditDown "12345678"))
            CreditResponse.zero (httpError 503 "overloaded")
            (snd (creditOf Deployment.creditDown "12345678"
                    (snd (salaryOf Deployment.creditDown "12345678"))))
            _ _ _).
  - repeat split.
  - reflexivity.
  - reflexivity.
  - reflexivity.
Defined.

(** With the salary location set to "://bad" the application of A makes
    the handler panic: the log line is there, no request, no response. *)
Lemma unparsable_location_panics_witness :
  handler misaddressed (post "application A") initial
  = (Panicked nilDereference,
     {| w := idOnly "req-1";
        sent := 0;
        trace := [LogCallingSalary "req-1" "://bad" "12345678"] |}).
Proof.
  apply (proj1 (unparsable_location_panics Exp Log ParseFloat validURL decodeLoanRequest
                  decodeSalaryResponse decodeCreditResponse misaddressed
                  (post "application A") applicationA ltac:(repeat split))).
  reflexivity.
Defined.

(** The application of A for 1e308, both services up: two facts come
    back, the payment is +Inf, and nothing is written. *)
Lemma no_decision_written_without_finite_numbers_witness :
  written (w (snd (handler steady (post "application A for 1e308") initial))) = []
  /\ sent (snd (handler steady (post "application A for 1e308") initial)) = 2.
Proof.
  destruct (no_decision_written_without_finite_numbers Exp Log ParseFloat validURL
              decodeLoanRequest decodeSalaryResponse decodeCreditResponse steady
              (post "application A for 1e308") (LoanRequest.Build "12345678" 1e308 12))
    as [[Hnone _] | (_ & Hstatus & _)].
  - repeat split.
  - left. reflexivity.
  - split; [exact Hnone | reflexivity].
  - discriminate Hstatus.
Defined.

Lemma eligibility_in_front_of_the_mock_services_witness :
  w (snd (handler Deployment.world (post "application B") initial))
  = jsonResponse "req-1" StatusOK
      (JsonLoan (spec_decide salaryB creditB 4631.73 20 applicationB))
  /\ sent (snd (handler Deployment.world (post "application B") initial)) = 2.
Proof.
  destruct (eligibility_in_front_of_the_mock_services Exp Log ParseFloat validURL
              decodeLoanRequest decodeSalaryResponse decodeCreditResponse
              Deployment.marshal Deployment.decodeRequest Deployment.encode
              Deployment_round_trip Deployment.world (post "application B") applicationB)
    as (_ & Hsent & _ & Hdoc).
  - repeat split.
  - reflexivity.
  - reflexivity.
  - apply deployed_mocksUpstream.
  - split; [apply Hdoc; reflexivity | exact Hsent].
Defined.

Lemma embedded_salary_failure_is_final_witness :
  sent (snd (Deployment.embedded Deployment.own (post "application of a stranger") initial))
  = 1.
Proof.
  apply (embedded_salary_failure_is_final Exp Log validURL decodeLoanRequest
           decodeSalaryResponse decodeCreditResponse Deployment.afterErrorSalary
           Deployment.afterErrorCredit
           Deployment.own (post "application of a stranger") stranger).
  - reflexivity.
  - repeat split.
  - reflexivity.
  - intros body H. vm_compute in H. discriminate H.
Defined.

Lemma embedded_request_id_is_generated_witness :
  Header_Get (header (w (exec (Deployment.embedded Deployment.own (post "application A"))
                           initial))) "X-Request-ID"
  = "cwyvpelgpse8".
Proof.
  apply (embedded_request_id_is_generated Exp Log validURL decodeLoanRequest
           decodeSalaryResponse decodeCreditResponse Deployment.afterErrorSalary
           Deployment.afterErrorCredit
           Deployment.own (post "application A")).
  reflexivity.
Defined.

Lemma embedded_decides_on_two_replies_witness :
  Deployment.embedded Deployment.garbled (post "application A") initial
  = (Returned tt,
     {| w := {| header := [("X-Request-ID", "cwyvpelgpse8")];
                status := Some StatusOK;
                written := [JsonLoan (spec_decide SalaryResponse.zero CreditResponse.zero
                                        4631.73 20 applicationA)] |};
        sent := 2;
        trace := [HTTPDo (upstreamRequest Embedded.salaryURL "12345678" "cwyvpelgpse8");
                  HTTPDo (upstreamRequest Embedded.creditURL "12345678" "cwyvpelgpse8")] |}).
Proof.
  refine (proj2 (embedded_decides_on_two_replies Exp Log validURL decodeLoanRequest
                   decodeSalaryResponse decodeCreditResponse Deployment.afterErrorSalary
                   Deployment.afterErrorCredit
                   Deployment.garbled (post "application A") applicationA "<html>" "<html>"
                   _ _ _ _ _ _) _).
  - reflexivity.
  - repeat split.
  - reflexivity.
  - reflexivity.
  - reflexivity.
  - reflexivity.
  - reflexivity.
Defined.

Lemma both_versions_answer_alike_witness :
  written (w (snd (Deployment.embedded Deployment.own (post "application B") initial)))
  = written (w (snd (handler Deployment.world (post "application B") initial))).
Proof.
  refine (proj1 (proj2 (proj2
            (both_versions_answer_alike Exp Log ParseFloat validURL decodeLoanRequest
               decodeSalaryResponse decodeCreditResponse
               Deployment.afterErrorSalary Deployment.afterErrorCredit
               Deployment.marshal Deployment.decodeRequest Deployment.encode
               Deployment_round_trip Deployment.own Deployment.world
               (post "application B") applicationB _ _ _ _ _ _ _ _)))).
  - repeat split.
  - reflexivity.
  - reflexivity.
  - reflexivity.
  - reflexivity.
  - reflexivity.
  - apply standalone_mocksBuiltIn.
  - apply deployed_mocksUpstream.
Defined.
End DeploymentRuns.
